(** * Training-plan recommender: plan generation and exercise selection

    A shallow embedding of [app/core/models.py], [app/core/conditions.py],
    [app/core/exercise_ml.py] and [app/core/recommender.py], followed by the
    properties of the plan generator that the specification states; then
    of [app/core/exercise_importer.py], of the plan's JSON documents
    ([models.py], [data_access.py]) and of what [app/ui/plan_chart.py] and
    [app/ui/plan_view.py] compute from a plan, with further properties of
    the code.

    Conventions.
    - Python [int] is [Z]; the half-steps of the cadence score are [Q].
    - Python [str] is [string] (the UTF-8 bytes of the text); equality,
      substring and ordering on the bytes agree with those on code points.
    - Python [set] is [gset string]; [dict] keyed by strings is [gmap string _].
    - The condition registry that [_load_conditions()] returns is passed to
      the functions that call it as the argument [conds]; the loader and its
      process-wide cache are modelled by [_load_conditions] over [World].
    - What lives in the Python runtime, scikit-learn and numpy ([str.lower],
      the TF-IDF scores, [argsort]) is a field of the class [PyLib]; the
      order in which a set is iterated is the field of the class [PySets]. *)

From Stdlib Require Import ZArith QArith Qround Qabs Lqa String Ascii DecimalString.
From stdpp Require Import base gmap sets list sorting strings.

Local Open Scope string_scope.
Local Open Scope Z_scope.

(** ** models.py *)

Module UserProfile.
Record t := mk {
  gender : string;
  age : Z;
  weight_kg : Q;
  height_cm : option Q;
  activity_level : string;
  goal : string;
  experience_level : string;
  preferred_location : string;
  available_equipment : list string;
  health_issues : list string;
  max_sessions_per_week : Z;
}.

(** [dataclasses.replace(profile, available_equipment=eq)] *)
Definition with_equipment (eq : list string) (p : t) : t :=
  mk (gender p) (age p) (weight_kg p) (height_cm p) (activity_level p)
     (goal p) (experience_level p) (preferred_location p) eq
     (health_issues p) (max_sessions_per_week p).
End UserProfile.

Module Exercise.
Record t := mk {
  id : string;
  name : string;
  muscle_groups : list string;
  equipment : list string;
  difficulty : string;
  exercise_type : string;
  locations : list string;
  contraindications : list string;
  description : string;
}.
End Exercise.

Module PlannedExercise.
Record t := mk {
  exercise_id : string;
  sets : Z;
  reps : option Z;
  duration_seconds : option Z;
  comment : string;
}.
End PlannedExercise.

Module TrainingSession.
Record t := mk {
  week_index : Z;
  day_index : Z;
  title : string;
  exercises : list PlannedExercise.t;
}.
End TrainingSession.

Module TrainingPlan.
Record t := mk {
  goal : string;
  sessions_per_week : Z;
  total_weeks : Z;
  sessions : list TrainingSession.t;
}.
End TrainingPlan.

#[global] Instance Exercise_eq_dec : EqDecision Exercise.t.
Proof. solve_decision. Defined.

(** ** Python built-ins used by the code *)

(** [sub in s] on strings. *)
Fixpoint py_contains (sub s : string) : bool :=
  if String.prefix sub s then true
  else match s with
       | EmptyString => false
       | String _ s' => py_contains sub s'
       end.

(** [round(x)] of Python 3: to the nearest integer, a tie to the even one. *)
Definition py_round (x : Q) : Z :=
  let f := Qfloor x in
  match Qcompare (x - inject_Z f)%Q (1 # 2)%Q with
  | Lt => f
  | Gt => f + 1
  | Eq => if Z.even f then f else f + 1
  end.

(** [l[:n]] for a Python int [n] (a negative [n] counts from the end). *)
Definition py_slice_to {A} (l : list A) (n : Z) : list A :=
  if decide (0 ≤ n) then take (Z.to_nat n) l
  else take (length l - Z.to_nat (- n)) l.

(** [xs.sort(key=key)]: the stable sort, keys compared by [leb]. *)
Section StableSort.
Context {A K : Type} (leb : K → K → bool) (key : A → K).

Fixpoint insert_sorted (x : A) (l : list A) : list A :=
  match l with
  | [] => [x]
  | y :: l' => if leb (key x) (key y) then x :: l else y :: insert_sorted x l'
  end.

Definition sort_by_key (l : list A) : list A := foldr insert_sorted [] l.
End StableSort.

(** [l[i] for i in order]. numpy's argsort yields indices below the length
    of its argument; an index outside the list has no element to give. *)
Definition take_indices {A} (l : list A) (order : list nat) : list A :=
  omap (λ i, l !! i) order.

(** The library functions outside the repository. *)
Class PyLib := {
  (** [str.lower] *)
  str_lower : string → string;
  (** [(X @ q_vec.T).toarray().ravel()] for the vectorizer fitted on [docs]:
      one TF-IDF relevance score per document against the query text. The
      scores are finite and non-negative; a rational stands for each. Every
      document [_pick_exercises] hands over ends with the exercise type, so
      the vocabulary is never empty there. *)
  tfidf_scores : list string → string → list Q;
  (** [np.argsort] *)
  np_argsort : list Q → list nat;
}.

(** The order in which [for x in s] visits a set of strings. It follows the
    hashes of the strings, which Python salts anew in every process. *)
Class PySets := {
  set_iter : gset string → list string;
}.

(** ** conditions.py *)

Module Condition.
Record t := mk {
  id : string;
  name : string;
  group : string;
  sessions_per_week_max : option Z;
  cardio_level : option string;
  notes : string;
}.
End Condition.

(** One entry of the JSON array in conditions.json: an object, read through
    the keys [from_dict] looks at, or any other JSON value. *)
Record RawCondition := {
  raw_id : option string;
  raw_name : option string;
  raw_group : option string;
  raw_sessions_per_week_max : option Z;
  raw_cardio_level : option string;
  raw_notes : option string;
}.

Inductive JItem :=
| JObject (data : RawCondition)
| JOther.

(** [Condition.from_dict]; [None] when it raises ([data["id"]] is absent or
    [data] is no object). *)
Definition from_dict (item : JItem) : option Condition.t :=
  match item with
  | JObject data =>
      match raw_id data with
      | Some i =>
          Some (Condition.mk i
                  (default "" (raw_name data))
                  (default "other" (raw_group data))
                  (raw_sessions_per_week_max data)
                  (raw_cardio_level data)
                  (default "" (raw_notes data)))
      | None => None
      end
  | JOther => None
  end.

(** The state the module reads and writes: the registry document on disk
    ([None]: the file does not exist) and the module-level cache
    [_conditions_by_id]. *)
Record World := {
  conditions_file : option (list JItem);
  _conditions_by_id : option (gmap string Condition.t);
}.

Definition _load_conditions (w : World) : gmap string Condition.t * World :=
  match _conditions_by_id w with
  | Some cached => (cached, w)
  | None =>
      match conditions_file w with
      | None => (∅, {| conditions_file := conditions_file w; _conditions_by_id := Some ∅ |})
      | Some raw =>
          let result :=
            foldl (λ (result : gmap string Condition.t) item,
                     match from_dict item with
                     | None => result
                     | Some cond => <[Condition.id cond := cond]> result
                     end) ∅ raw in
          (result, {| conditions_file := conditions_file w; _conditions_by_id := Some result |})
      end
  end.

Section Conditions.
(** The dictionary [_load_conditions()] returns during the run. *)
Context `{PySets} (conds : gmap string Condition.t).

Definition _known_condition_ids : gset string := dom conds.

Definition extract_condition_ids (health_issues : list string) : gset string :=
  list_to_set (filter (λ item, item ∈ _known_condition_ids) health_issues).

Definition get_sessions_limit_for_profile (profile : UserProfile.t) : option Z :=
  let cond_ids := extract_condition_ids (UserProfile.health_issues profile) in
  if decide (cond_ids = ∅) then None
  else
    let limits :=
      omap (λ cid, conds !! cid ≫= Condition.sessions_per_week_max)
           (set_iter cond_ids) in
    match limits with
    | [] => None
    | x :: rest => Some (foldr Z.min x rest)
    end.

(** The tags one matched condition adds (lines 125-159). *)
Definition condition_tags (cid : string) (cond : Condition.t) : gset string :=
  let group := Condition.group cond in
  let general : gset string :=
    if decide (group = "cardio") then {[ "сердце" ]}
    else if decide (group = "joint") then {[ "суставы" ]}
    else if decide (group = "spine") then {[ "спина" ]}
    else ∅ in
  let specific : gset string :=
    if decide (cid = "joint_knee_arthrosis") then {[ "колени"; "суставы" ]}
    else if decide (cid = "joint_hip_arthrosis") then {[ "тазобедренные"; "суставы" ]}
    else if decide (cid = "joint_shoulder_impingement") then {[ "плечи"; "суставы" ]}
    else if decide (cid = "joint_elbow_wrist_pain") then {[ "локти"; "запястья"; "суставы" ]}
    else if decide (cid = "spine_lumbar_pain") then {[ "поясница"; "спина" ]}
    else if decide (cid = "spine_cervical_pain") then {[ "шея"; "спина" ]}
    else if decide (cid = "metabolic_obesity") then {[ "ожирение" ]}
    else if decide (cid = "metabolic_diabetes_type2") then {[ "диабет" ]}
    else if decide (cid = "resp_asthma_mild") then {[ "астма" ]}
    else if decide (cid = "other_pregnancy") then {[ "беременность" ]}
    else if decide (cid = "other_post_surgery_general") then {[ "после операции" ]}
    else ∅ in
  general ∪ specific.

Definition get_risk_tags_for_profile (profile : UserProfile.t) : gset string :=
  let raw : gset string := list_to_set (UserProfile.health_issues profile) in
  let known_ids := _known_condition_ids in
  let tags : gset string :=
    foldl (λ (tags : gset string) item,
             if decide (item ∉ known_ids) then tags ∪ {[ item ]} else tags)
          ∅ (set_iter raw) in
  foldl (λ (tags : gset string) cid,
           match conds !! cid with
           | None => tags
           | Some cond => tags ∪ condition_tags cid cond
           end)
        tags
        (set_iter (extract_condition_ids (UserProfile.health_issues profile))).
End Conditions.

(** ** recommender.py: cadence *)

Definition _rule_based_sessions_per_week (profile : UserProfile.t) : Z :=
  let score : Q := 3%Q in
  let score : Q :=
    if decide (UserProfile.activity_level profile = "low") then (score - 1)%Q
    else if decide (UserProfile.activity_level profile = "high") then (score + 1)%Q
    else score in
  let score : Q :=
    if decide (UserProfile.goal profile ∈ ["muscle_gain"; "endurance"]) then (score + 1)%Q
    else if decide (UserProfile.goal profile ∈ ["back_health"; "general_health"]) then (score - 0)%Q
    else score in
  let score : Q :=
    if decide ("сердце" ∈ UserProfile.health_issues profile
               ∨ "суставы" ∈ UserProfile.health_issues profile)
    then (score - 1)%Q else score in
  let score : Q :=
    if decide (UserProfile.experience_level profile = "beginner") then (score - (1 # 2))%Q
    else if decide (UserProfile.experience_level profile = "advanced") then (score + (1 # 2))%Q
    else score in
  let score : Z := py_round score in
  Z.max 1 (Z.min 5 score).

Definition _rule_based_total_weeks (profile : UserProfile.t) : Z :=
  if decide (UserProfile.goal profile = "weight_loss") then 8
  else if decide (UserProfile.goal profile = "muscle_gain") then 12
  else if decide (UserProfile.goal profile = "endurance") then 8
  else if decide (UserProfile.goal profile = "maintenance") then 6
  else 6.

Definition recommend_sessions_per_week `{PySets}
    (conds : gmap string Condition.t) (profile : UserProfile.t) : Z :=
  let base := _rule_based_sessions_per_week profile in
  let value := base in
  let value :=
    if decide (UserProfile.max_sessions_per_week profile ≠ 0)
    then Z.min value (UserProfile.max_sessions_per_week profile)
    else value in
  let cond_limit := get_sessions_limit_for_profile conds profile in
  let value :=
    match cond_limit with
    | Some limit => Z.min value limit
    | None => value
    end in
  Z.max 1 (Z.min 7 value).

Definition recommend_total_weeks (profile : UserProfile.t) : Z :=
  _rule_based_total_weeks profile.

(** ** recommender.py: the eligible pool *)

Definition _difficulty_score (level : string) : Z :=
  if decide (level = "beginner") then 1
  else if decide (level = "intermediate") then 2
  else 3.

Section Selector.
Context `{PyLib} `{PySets} (conds : gmap string Condition.t) (profile : UserProfile.t).

(** The body of the loop of [_select_allowed_exercises]: [false] where the
    code reaches a [continue], [true] where it appends [ex]. *)
Definition exercise_allowed (ex : Exercise.t) : bool :=
  let exp_score := _difficulty_score (UserProfile.experience_level profile) in
  let risk_tags := get_risk_tags_for_profile conds profile in
  let user_eq : gset string :=
    list_to_set (str_lower <$> UserProfile.available_equipment profile) in
  let location := UserProfile.preferred_location profile in
  if bool_decide (location = "home" ∧ "home" ∉ Exercise.locations ex) then false
  else if bool_decide (location = "gym" ∧ "gym" ∉ Exercise.locations ex) then false
  else
    let ex_eq : gset string := list_to_set (str_lower <$> Exercise.equipment ex) in
    if (if decide (location = "home")
        then bool_decide (ex_eq ≠ ∅ ∧ (user_eq = ∅ ∨ ex_eq ∩ user_eq = ∅))
        else bool_decide (ex_eq ≠ ∅ ∧ user_eq ≠ ∅ ∧ ex_eq ∩ user_eq = ∅))
    then false
    else if bool_decide (_difficulty_score (Exercise.difficulty ex) > exp_score + 1) then false
    else if bool_decide (risk_tags ∩ list_to_set (Exercise.contraindications ex) ≠ ∅) then false
    else true.

Definition _select_allowed_exercises (exercises : list Exercise.t) : list Exercise.t :=
  filter (λ ex, exercise_allowed ex = true) exercises.
End Selector.

(** ** exercise_ml.py *)

Definition _GOAL_QUERIES : gmap string string :=
  list_to_map [
    ("weight_loss", "похудение жир кардио ходьба бег низкая ударная нагрузка cardio fat loss walking running low impact");
    ("muscle_gain", "мышечная масса сила присед жим тяга hypertrophy strength muscle squat press row deadlift");
    ("maintenance", "поддержание формы общее здоровье силовые кардио mobility general fitness strength cardio mobility");
    ("endurance", "выносливость длительное кардио бег велосипед эллипс endurance running cycling long cardio");
    ("back_health", "спина поясница реабилитация ЛФК стабилизация кора rehab back pain core stability mobility");
    ("general_health", "общее здоровье ходьба умеренное кардио лёгкие силовые mobility general health walking light cardio")
  ].

Definition _DEFAULT_QUERY : string :=
  "общее здоровье фитнес кардио силовые ходьба упражнения general health fitness cardio strength".

Definition _build_corpus (exercises : list Exercise.t) : list string :=
  (λ ex,
     let parts :=
       ([Exercise.name ex]
        ++ (if decide (Exercise.description ex ≠ "") then [Exercise.description ex] else [])
        ++ Exercise.muscle_groups ex
        ++ Exercise.equipment ex
        ++ [Exercise.exercise_type ex])%list in
     String.concat " " (filter (λ p, p ≠ "") parts)) <$> exercises.

Section Ranker.
Context `{PyLib}.

(** [scores] of the source (line 66). *)
Definition relevance_scores (goal : string) (exercises : list Exercise.t) : list Q :=
  tfidf_scores (_build_corpus exercises) (default _DEFAULT_QUERY (_GOAL_QUERIES !! goal)).

(** [order] of the source (line 67). *)
Definition relevance_order (goal : string) (exercises : list Exercise.t) : list nat :=
  np_argsort (Qopp <$> relevance_scores goal exercises).

Definition rank_exercises_for_goal
    (goal : string) (exercises : list Exercise.t) (max_items : option Z)
    : list Exercise.t :=
  if decide (length exercises ≤ 1)%nat then exercises
  else
    let order := relevance_order goal exercises in
    match max_items with
    | None => take_indices exercises order
    | Some max_items =>
        let max_items := Z.max 1 max_items in
        take_indices exercises (py_slice_to order max_items)
    end.
End Ranker.

(** ** recommender.py: picking exercises and assembling the plan *)

Section Picker.
Context `{PyLib}.

(** The test of the filtering loop of [_pick_exercises] (lines 146-152). *)
Definition matches_request
    (exercise_type : string) (muscle_keyword : option string) (ex : Exercise.t) : bool :=
  if decide (Exercise.exercise_type ex ≠ exercise_type) then false
  else match muscle_keyword with
       | Some kw => existsb (py_contains kw) (Exercise.muscle_groups ex)
       | None => true
       end.

(** Every call in the repository passes [goal] and [used_global]; they are
    a string and a set here. *)
Definition _pick_exercises
    (all_ex : list Exercise.t) (exercise_type : string)
    (muscle_keyword : option string) (max_items : Z) (goal : string)
    (used_global : gset string) : list Exercise.t :=
  let filtered :=
    filter (λ ex, matches_request exercise_type muscle_keyword ex = true) all_ex in
  if decide (filtered = []) then []
  else
    let filtered :=
      if decide (used_global ≠ ∅) then
        let unused := filter (λ ex, Exercise.id ex ∉ used_global) filtered in
        if decide (unused ≠ []) then unused else filtered
      else filtered in
    if decide (goal ≠ "") then
      rank_exercises_for_goal goal filtered (Some max_items)
    else
      py_slice_to (sort_by_key String.leb Exercise.id filtered) max_items.

Definition _sets_reps_for_strength (experience_level : string) : Z * Z :=
  if decide (experience_level = "beginner") then (2, 12)
  else if decide (experience_level = "intermediate") then (3, 10)
  else (4, 8).

Definition _duration_for_cardio_seconds (experience_level : string) : Z :=
  if decide (experience_level = "beginner") then 8 * 60
  else if decide (experience_level = "intermediate") then 12 * 60
  else 18 * 60.

Definition _exercise_priority (ex : Exercise.t) : Z :=
  let name := str_lower (Exercise.name ex) in
  if py_contains "squat" name then 0
  else if py_contains "deadlift" name then 1
  else if py_contains "bench press" name then 2
  else if py_contains "bench" name && py_contains "press" name then 3
  else if py_contains "row" name || py_contains "pulldown" name
          || py_contains "pull-up" name || py_contains "pull up" name then 4
  else if py_contains "lunge" name || py_contains "step-up" name
          || py_contains "step up" name then 5
  else if decide (Exercise.exercise_type ex = "strength") then 10
  else if decide (Exercise.exercise_type ex = "cardio") then 20
  else 30.

Definition session_title_base : gmap string string :=
  list_to_map [
    ("weight_loss", "Похудение");
    ("muscle_gain", "Набор массы");
    ("maintenance", "Поддержание формы");
    ("endurance", "Выносливость");
    ("back_health", "Спина");
    ("general_health", "Общее здоровье")
  ].

Definition _build_session_title (profile : UserProfile.t) (index_within_week : Z) : string :=
  let base := default "Тренировка" (session_title_base !! UserProfile.goal profile) in
  (base ++ " — день " ++ NilZero.string_of_int (Z.to_int index_within_week))%string.
End Picker.

Section Generator.
Context `{PyLib} (profile : UserProfile.t) (allowed : list Exercise.t).

(** The goal's template of the day (lines 258-298). *)
Definition template_block (d : Z) (used_global : gset string) : list Exercise.t :=
  let goal := UserProfile.goal profile in
  let pick ty kw n := _pick_exercises allowed ty kw n goal used_global in
  if decide (goal = "muscle_gain") then
    let day_in_cycle := (d - 1) `mod` 3 + 1 in
    if decide (day_in_cycle = 1) then
      let chest := pick "strength" (Some "грудь") 4 in
      let shoulders := pick "strength" (Some "плечи") 2 in
      (chest ++ shoulders)%list
    else if decide (day_in_cycle = 2) then
      let legs := pick "strength" (Some "ноги") 4 in
      let core := pick "strength" (Some "пресс") 2 in
      (legs ++ core)%list
    else
      let back := pick "strength" (Some "спина") 4 in
      let biceps := pick "strength" (Some "бицепс") 2 in
      (back ++ biceps)%list
  else if decide (goal = "back_health") then
    let rehab := pick "rehab" None 4 in
    let mobility := pick "mobility" None 3 in
    (rehab ++ mobility)%list
  else if decide (goal = "endurance") then
    let cardio := pick "cardio" None 4 in
    let strength := pick "strength" (Some "ноги") 2 in
    (cardio ++ strength)%list
  else if decide (goal = "weight_loss") then
    let circuit_strength := pick "strength" None 5 in
    let circuit_cardio := pick "cardio" None 3 in
    (circuit_strength ++ circuit_cardio)%list
  else
    let strength := pick "strength" None 3 in
    let cardio := pick "cardio" None 2 in
    let mobility := pick "mobility" None 2 in
    (strength ++ cardio ++ mobility)%list.

(** [min_main] (lines 304-311). *)
Definition min_main : Z :=
  let goal := UserProfile.goal profile in
  if decide (goal = "muscle_gain") then 5
  else if decide (goal = "weight_loss") then 6
  else if decide (goal = "endurance") then 4
  else 3.

(** [main_ex] once padded and sorted (lines 258-325). *)
Definition main_block (d : Z) (used_global : gset string) : list Exercise.t :=
  let main_ex := template_block d used_global in
  let main_ex :=
    if decide (Z.of_nat (length main_ex) < min_main) then
      let extra :=
        _pick_exercises allowed "strength" None
          (min_main - Z.of_nat (length main_ex))
          (UserProfile.goal profile) used_global in
      (main_ex ++ extra)%list
    else main_ex in
  if decide (main_ex ≠ []) then sort_by_key Z.leb _exercise_priority main_ex
  else main_ex.

(** What the two emitting loops of a session carry along. *)
Record session_state := {
  planned_exercises : list PlannedExercise.t;
  used_ids_session : gset string;
  used_global : gset string;
}.

(** One round of the loop over [main_ex] (lines 336-371). *)
Definition emit_main (main_sets main_reps cardio_duration : Z)
    (st : session_state) (ex : Exercise.t) : session_state :=
  if decide (Exercise.id ex ∈ used_ids_session st) then st
  else
    let planned :=
      if decide (Exercise.exercise_type ex = "cardio") then
        PlannedExercise.mk (Exercise.id ex) 1 None (Some cardio_duration)
          "Основной блок: интервальное или ровное кардио, контролируйте дыхание."
      else if decide (Exercise.exercise_type ex ∈ ["mobility"; "rehab"]) then
        PlannedExercise.mk (Exercise.id ex) 2 (Some 10) None
          "Основной блок: реабилитация/мобилити, движения плавные, без рывков."
      else
        PlannedExercise.mk (Exercise.id ex) main_sets (Some main_reps) None
          "Основной блок: силовая часть, техника и небольшой запас по усилию." in
    {| planned_exercises := (planned_exercises st ++ [planned])%list;
       used_ids_session := {[ Exercise.id ex ]} ∪ used_ids_session st;
       used_global := {[ Exercise.id ex ]} ∪ used_global st |}.

(** One round of the loop over [cooldown_ex] (lines 374-388). *)
Definition emit_cooldown (st : session_state) (ex : Exercise.t) : session_state :=
  if decide (Exercise.id ex ∈ used_ids_session st) then st
  else
    {| planned_exercises :=
         (planned_exercises st ++
          [PlannedExercise.mk (Exercise.id ex) 1 (Some 10) None
             "Заминка/растяжка: мягкие статические позиции без сильной боли."])%list;
       used_ids_session := {[ Exercise.id ex ]} ∪ used_ids_session st;
       used_global := {[ Exercise.id ex ]} ∪ used_global st |}.

(** The load of week [w]: [(main_sets, main_reps, cardio_duration)]
    (lines 236-249). [int(cardio_base * 1.1)] and [int(cardio_base * 0.9)]
    are the integer quotients below on the three durations
    [_duration_for_cardio_seconds] returns. *)
Definition week_load (w : Z) : Z * Z * Z :=
  let '(sets_default, reps_default) :=
    _sets_reps_for_strength (UserProfile.experience_level profile) in
  let cardio_base := _duration_for_cardio_seconds (UserProfile.experience_level profile) in
  let cycle_week := (w - 1) `mod` 4 + 1 in
  if decide (cycle_week ∈ [2; 3]) then
    (sets_default, reps_default + 1, (cardio_base * 11) `div` 10)
  else if decide (cycle_week = 4) then
    (sets_default, Z.max (reps_default - 1) (Z.max 6 (reps_default - 2)),
     (cardio_base * 9) `div` 10)
  else (sets_default, reps_default, cardio_base).

(** The body of the loop over [d] (lines 252-397): the sessions so far and
    the ids used so far, after day [d] of week [w]. *)
Definition plan_day (w : Z)
    (acc : list TrainingSession.t * gset string) (d : Z)
    : list TrainingSession.t * gset string :=
  let '(sessions, used) := acc in
  let '(main_sets, main_reps, cardio_duration) := week_load w in
  let cooldown_ex : list Exercise.t := [] in
  let main_ex := main_block d used in
  let st :=
    {| planned_exercises := []; used_ids_session := ∅; used_global := used |} in
  let st := foldl (emit_main main_sets main_reps cardio_duration) st main_ex in
  let st := foldl emit_cooldown st cooldown_ex in
  let session :=
    TrainingSession.mk w d (_build_session_title profile d) (planned_exercises st) in
  ((sessions ++ [session])%list, used_global st).

(** The body of the loop over [w] (lines 233-397). *)
Definition plan_week (sessions_per_week : Z)
    (acc : list TrainingSession.t * gset string) (w : Z)
    : list TrainingSession.t * gset string :=
  foldl (plan_day w) acc (seqZ 1 sessions_per_week).
End Generator.

Definition generate_training_plan `{PyLib} `{PySets}
    (conds : gmap string Condition.t)
    (profile : UserProfile.t) (exercises : list Exercise.t) : TrainingPlan.t :=
  let sessions_per_week := recommend_sessions_per_week conds profile in
  let total_weeks := recommend_total_weeks profile in
  let allowed := _select_allowed_exercises conds profile exercises in
  let '(sessions, _) :=
    foldl (plan_week profile allowed sessions_per_week) ([], ∅) (seqZ 1 total_weeks) in
  TrainingPlan.mk (UserProfile.goal profile) sessions_per_week total_weeks sessions.

(** A call of [generate_training_plan] in the process state [w]: the registry
    is the one [_load_conditions] hands out, and the cache it leaves is the
    state after the call. *)
Definition run_generate_training_plan `{PyLib} `{PySets}
    (profile : UserProfile.t) (exercises : list Exercise.t) (w : World)
    : TrainingPlan.t * World :=
  let '(conds, w') := _load_conditions w in
  (generate_training_plan conds profile exercises, w').

(** ** A reference instance of the library functions

    ASCII lower-casing, a word-overlap relevance score and the stable
    insertion argsort: one way the library functions can behave, used to run
    the model on concrete catalogs. *)

Definition ascii_lower (c : ascii) : ascii :=
  let n := nat_of_ascii c in
  if decide (65 ≤ n ∧ n ≤ 90)%nat then ascii_of_nat (n + 32) else c.

Fixpoint lower_ascii_string (s : string) : string :=
  match s with
  | EmptyString => EmptyString
  | String c s' => String (ascii_lower c) (lower_ascii_string s')
  end.

(** The words of [s], split at spaces. *)
Fixpoint words_from (cur : string) (s : string) : list string :=
  match s with
  | EmptyString => if decide (cur = "") then [] else [cur]
  | String c s' =>
      if decide (c = " "%char)
      then (if decide (cur = "") then words_from "" s' else cur :: words_from "" s')
      else words_from (cur ++ String c EmptyString)%string s'
  end.

Definition overlap_scores (docs : list string) (query : string) : list Q :=
  (λ doc,
     inject_Z (Z.of_nat (length (filter (λ word, py_contains word doc = true)
                                        (words_from "" query))))) <$> docs.

Definition stable_argsort (l : list Q) : list nat :=
  sort_by_key Qle_bool (λ i, default 0%Q (l !! i)) (seq 0 (length l)).

Definition reference_lib : PyLib :=
  {| str_lower := lower_ascii_string;
     tfidf_scores := overlap_scores;
     np_argsort := stable_argsort |}.

(** Sets visited in the order of [elements], and in the opposite order. *)
Definition reference_sets : PySets := {| set_iter := elements |}.

Definition reversed_sets : PySets := {| set_iter := λ s, reverse (elements s) |}.

(** Every element of the set is visited once. *)
Definition visits_each_once (sets : PySets) : Prop :=
  ∀ s, @set_iter sets s ≡ₚ elements s.

(** ** Sample data *)

Definition sample_exercise (i n : string) (groups : list string) (ty : string) : Exercise.t :=
  Exercise.mk i n groups [] "beginner" ty ["home"; "gym"] [] "".

Definition sample_profile (goal : string) (issues : list string) (max_sessions : Z)
    : UserProfile.t :=
  UserProfile.mk "male" 30 (80 # 1) None "medium" goal "intermediate" "gym" []
    issues max_sessions.

(** A registry with the knee-arthrosis entry, capped at two sessions. *)
Definition knee_registry : gmap string Condition.t :=
  {[ "joint_knee_arthrosis" :=
       Condition.mk "joint_knee_arthrosis" "Артроз коленного сустава" "joint"
         (Some 2) None "" ]}.

(** ** The cadence baseline in the words of the specification *)

(** The score before rounding: 3, plus 1 for high activity or minus 1 for
    low, plus 1 for the goals muscle_gain and endurance, minus 1 when [tags]
    holds the heart tag or the joints tag, plus a half for advanced
    experience or minus a half for a beginner. *)
Definition spec_baseline_score (tags : gset string) (profile : UserProfile.t) : Q :=
  (3
   + (if decide (UserProfile.activity_level profile = "high") then 1
      else if decide (UserProfile.activity_level profile = "low") then - (1)
      else 0)
   + (if decide (UserProfile.goal profile ∈ ["muscle_gain"; "endurance"]) then 1 else 0)
   - (if decide ("сердце" ∈ tags ∨ "суставы" ∈ tags) then 1 else 0)
   + (if decide (UserProfile.experience_level profile = "advanced") then 1 # 2
      else if decide (UserProfile.experience_level profile = "beginner") then - (1 # 2)
      else 0))%Q.

(** [z] is an integer nearest to [x]. *)
Definition nearest_integer (x : Q) (z : Z) : Prop :=
  ∀ z' : Z, (Qabs (x - inject_Z z) <= Qabs (x - inject_Z z'))%Q.

(** Rounded to the nearest integer and clamped to [1,5]. *)
Definition spec_rule_based_sessions (tags : gset string) (profile : UserProfile.t) : Z :=
  Z.max 1 (Z.min 5 (py_round (spec_baseline_score tags profile))).

(** ** Vocabulary of the properties *)

(** The (week, day) slot of a session. *)
Definition session_index (s : TrainingSession.t) : Z * Z :=
  (TrainingSession.week_index s, TrainingSession.day_index s).

(** The exercise ids a session schedules, in order. *)
Definition session_ids (s : TrainingSession.t) : list string :=
  PlannedExercise.exercise_id <$> TrainingSession.exercises s.

(** Every (week, day) slot of a plan of [total_weeks] weeks with
    [sessions_per_week] days each, week by week. *)
Definition plan_slots (total_weeks sessions_per_week : Z) : list (Z * Z) :=
  w ← seqZ 1 total_weeks; (λ d, (w, d)) <$> seqZ 1 sessions_per_week.

(** A catalog and a profile for the contraindication scenario: the profile
    names the knee-arthrosis condition, the jump squat is contraindicated
    for the joints. *)
Definition knee_profile : UserProfile.t :=
  sample_profile "maintenance" ["joint_knee_arthrosis"] 3.

Definition jump_squat : Exercise.t :=
  Exercise.mk "jump_squat" "Jump squat" ["ноги"] [] "beginner" "strength"
    ["home"; "gym"] ["суставы"] "".

Definition knee_catalog : list Exercise.t :=
  [ jump_squat;
    sample_exercise "plank" "Plank" ["пресс"] "strength";
    sample_exercise "walk" "Walking" ["ноги"] "cardio";
    sample_exercise "cat_cow" "Cat cow" ["спина"] "mobility" ].

(** A gym profile that has declared no equipment, and a barbell lift. *)
Definition gym_profile : UserProfile.t := sample_profile "maintenance" [] 3.

Definition barbell_squat : Exercise.t :=
  Exercise.mk "barbell_squat" "Barbell squat" ["ноги"] ["barbell"] "beginner"
    "strength" ["gym"] [] "".

(** Seven strength exercises, all open to [gym_profile]-like profiles. *)
Definition strength_catalog : list Exercise.t :=
  [ sample_exercise "s1" "Squat" ["ноги"] "strength";
    sample_exercise "s2" "Push" ["грудь"] "strength";
    sample_exercise "s3" "Row" ["спина"] "strength";
    sample_exercise "s4" "Curl" ["бицепс"] "strength";
    sample_exercise "s5" "Plank" ["пресс"] "strength";
    sample_exercise "s6" "Press walking" ["плечи"] "strength";
    sample_exercise "s7" "Dip fat" ["грудь"] "strength" ].

(** ** The contract of numpy's argsort *)

(** The key at index [i] ([0] past the end, where no index of an argsort
    points). *)
Definition key_at (keys : list Q) (i : nat) : Q := default 0%Q (keys !! i).

(** [order] is an argsort of [keys]: the indices of [keys], each once, in
    ascending order of their keys. How ties are ordered is left open, as it
    is for the default kind of [np.argsort]. *)
Definition argsort_of (keys : list Q) (order : list nat) : Prop :=
  order ≡ₚ seq 0 (length keys)
  ∧ StronglySorted (λ i j, (key_at keys i <= key_at keys j)%Q) order.

(** A registry document with two well-formed entries, an entry without an
    id and an entry that is no object; the state of a process that has not
    loaded it yet; a profile that names both conditions and a legacy tag. *)
Definition sample_registry_file : list JItem :=
  [ JObject {| raw_id := Some "joint_knee_arthrosis";
               raw_name := Some "Артроз коленного сустава";
               raw_group := Some "joint";
               raw_sessions_per_week_max := Some 3;
               raw_cardio_level := None;
               raw_notes := None |};
    JOther;
    JObject {| raw_id := None;
               raw_name := Some "без идентификатора";
               raw_group := None;
               raw_sessions_per_week_max := Some 1;
               raw_cardio_level := None;
               raw_notes := None |};
    JObject {| raw_id := Some "cardio_hypertension";
               raw_name := Some "Гипертония";
               raw_group := Some "cardio";
               raw_sessions_per_week_max := Some 2;
               raw_cardio_level := Some "low";
               raw_notes := None |} ].

Definition fresh_world : World :=
  {| conditions_file := Some sample_registry_file; _conditions_by_id := None |}.

Definition two_condition_profile : UserProfile.t :=
  sample_profile "weight_loss" ["joint_knee_arthrosis"; "cardio_hypertension"; "спина"] 5.

(** The process state with the registry document replaced by [file]. *)
Definition with_conditions_file (file : option (list JItem)) (w : World) : World :=
  {| conditions_file := file; _conditions_by_id := _conditions_by_id w |}.

(** An argsort that meets the contract and leaves ties in descending index
    order, with the library built on it. *)
Definition tie_reversing_argsort (l : list Q) : list nat :=
  sort_by_key Qle_bool (λ i, default 0%Q (l !! i)) (reverse (seq 0 (length l))).

Definition tie_reversing_lib : PyLib :=
  {| str_lower := lower_ascii_string;
     tfidf_scores := overlap_scores;
     np_argsort := tie_reversing_argsort |}.

(** ** Vocabulary of the further properties *)

(** What the loop over [main_ex] appends for an exercise it has not met in
    the session (lines 342-371), under the week's load
    [(main_sets, main_reps, cardio_duration)]. *)
Definition prescription (load : Z * Z * Z) (ex : Exercise.t) : PlannedExercise.t :=
  let '(main_sets, main_reps, cardio_duration) := load in
  if decide (Exercise.exercise_type ex = "cardio") then
    PlannedExercise.mk (Exercise.id ex) 1 None (Some cardio_duration)
      "Основной блок: интервальное или ровное кардио, контролируйте дыхание."
  else if decide (Exercise.exercise_type ex ∈ ["mobility"; "rehab"]) then
    PlannedExercise.mk (Exercise.id ex) 2 (Some 10) None
      "Основной блок: реабилитация/мобилити, движения плавные, без рывков."
  else
    PlannedExercise.mk (Exercise.id ex) main_sets (Some main_reps) None
      "Основной блок: силовая часть, техника и небольшой запас по усилию.".

(** [dataclasses.replace(profile, health_issues=issues)] *)
Definition with_health_issues (issues : list string) (p : UserProfile.t) : UserProfile.t :=
  UserProfile.mk (UserProfile.gender p) (UserProfile.age p) (UserProfile.weight_kg p)
    (UserProfile.height_cm p) (UserProfile.activity_level p) (UserProfile.goal p)
    (UserProfile.experience_level p) (UserProfile.preferred_location p)
    (UserProfile.available_equipment p) issues (UserProfile.max_sessions_per_week p).

(** The state of a process that has loaded nothing yet, in front of the
    registry document [file] ([None]: no such file). *)
Definition unloaded_world (file : option (list JItem)) : World :=
  {| conditions_file := file; _conditions_by_id := None |}.

(** ** exercise_importer.py *)

(** [str.strip], the one built-in the importer needs beside [str.lower]. *)
Class PyText := {
  str_strip : string → string;
}.

(** A JSON value where the importer expects a text or a list of texts:
    absent (or [null]), one text, or a list. *)
Inductive JTexts :=
| JNoTexts
| JText (text : string)
| JTextList (texts : list string).

(** One record of the free-exercise-db document, read through the keys
    [_import_from_free_ex_db] looks at ([None]: the key is absent or
    [null]). *)
Record FreeExItem := {
  fx_id : option string;
  fx_name : option string;
  fx_primaryMuscles : JTexts;
  fx_secondaryMuscles : JTexts;
  fx_equipment : option string;
  fx_level : option string;
  fx_category : option string;
  fx_instructions : JTexts;
}.

(** [value or []], made a list when it is none ([isinstance(value, list)]). *)
Definition texts_or_empty (value : JTexts) : list string :=
  match value with
  | JNoTexts => []
  | JText text => if decide (text = "") then [] else [text]
  | JTextList texts => texts
  end.

Definition _MUSCLE_GROUP_MAP : gmap string string :=
  list_to_map [
    ("quadriceps", "ноги");
    ("hamstrings", "ноги");
    ("glutes", "ноги");
    ("calves", "ноги");
    ("adductors", "ноги");
    ("abductors", "ноги");
    ("chest", "грудь");
    ("abdominals", "пресс");
    ("lats", "спина");
    ("lower_back", "спина");
    ("middle_back", "спина");
    ("neck", "спина");
    ("shoulders", "плечи");
    ("traps", "плечи");
    ("biceps", "бицепс");
    ("triceps", "трицепс");
    ("forearms", "руки")
  ].

Section Importer.
Context `{PyLib} `{PyText}.

Definition _map_category_to_type (category : string) : string :=
  let cat := str_lower category in
  if decide (cat ∈ ["strength"; "powerlifting"; "strongman"]) then "strength"
  else if decide (cat ∈ ["cardio"]) then "cardio"
  else if decide (cat ∈ ["stretching"; "yoga"]) then "mobility"
  else if decide (cat ∈ ["plyometrics"]) then "cardio"
  else "strength".

Definition _map_level_to_difficulty (level : string) : string :=
  let lvl := str_lower level in
  if decide (lvl ∈ ["beginner"; "novice"]) then "beginner"
  else if decide (lvl ∈ ["intermediate"]) then "intermediate"
  else "advanced".

(** The body of the loop of [_normalize_muscle_groups] (lines 67-77). *)
Definition add_muscle_group (result : list string) (item : string) : list string :=
  let name := str_lower (str_strip item) in
  if decide (name = "") then result
  else
    let result := (result ++ [name])%list in
    match _MUSCLE_GROUP_MAP !! name with
    | Some ru => if decide (ru ≠ "") then (result ++ [ru])%list else result
    | None => result
    end.

Definition _normalize_muscle_groups (raw : list string) : list string :=
  let result := foldl add_muscle_group [] raw in
  if decide (result ≠ []) then result else ["прочее"].

Definition _infer_locations (equipment : string) : list string :=
  if decide (equipment = "") then ["home"; "gym"]
  else
    let eq := str_lower equipment in
    let gym_only_keywords :=
      ["machine"; "smith"; "cable"; "lever"; "sled"; "hack squat"] in
    if existsb (λ k, py_contains k eq) gym_only_keywords then ["gym"]
    else ["home"; "gym"].

(** The body of the loop of [_import_from_free_ex_db] (lines 106-143):
    [None] where the code reaches [continue]. *)
Definition import_item (item : FreeExItem) : option Exercise.t :=
  let ex_id := str_strip (default "" (fx_id item)) in
  let name :=
    match fx_name item with
    | Some n => if decide (n ≠ "") then n else ex_id
    | None => ex_id
    end in
  if decide (ex_id = "") then None
  else
    let primary := texts_or_empty (fx_primaryMuscles item) in
    let secondary := texts_or_empty (fx_secondaryMuscles item) in
    let raw_muscles := filter (λ m, str_strip m ≠ "") (primary ++ secondary)%list in
    let muscle_groups := _normalize_muscle_groups raw_muscles in
    let equipment_str := str_strip (default "" (fx_equipment item)) in
    let equipment_list := if decide (equipment_str ≠ "") then [equipment_str] else [] in
    let level :=
      match fx_level item with
      | Some l => if decide (l ≠ "") then l else "beginner"
      | None => "beginner"
      end in
    let category :=
      match fx_category item with
      | Some c => if decide (c ≠ "") then c else "strength"
      | None => "strength"
      end in
    let description :=
      match fx_instructions item with
      | JText text => text
      | instructions =>
          String.concat " "
            (str_strip <$> filter (λ x, str_strip x ≠ "") (texts_or_empty instructions))
      end in
    Some (Exercise.mk ex_id name muscle_groups equipment_list
            (_map_level_to_difficulty level)
            (_map_category_to_type category)
            (_infer_locations equipment_str)
            []
            description).

Definition _import_from_free_ex_db (data : list FreeExItem) : list Exercise.t :=
  omap import_item data.
End Importer.

(** *** The merge into the catalog *)

(** [d[k] = v] on a Python dict, which keeps its keys in insertion order: a
    key already there keeps its place. *)
Fixpoint dict_set {V} (k : string) (v : V) (d : list (string * V)) : list (string * V) :=
  match d with
  | [] => [(k, v)]
  | (k', v') :: d' =>
      if decide (k' = k) then (k, v) :: d' else (k', v') :: dict_set k v d'
  end.

(** [{ex.id: ex for ex in base}] (line 170). *)
Definition index_by_id (base : list Exercise.t) : list (string * Exercise.t) :=
  foldl (λ by_id ex, dict_set (Exercise.id ex) ex by_id) [] base.

(** One round of the loop over [imported] (lines 172-176). *)
Definition merge_one (acc : list (string * Exercise.t) * Z) (ex : Exercise.t)
    : list (string * Exercise.t) * Z :=
  let '(by_id, added) := acc in
  if decide (Exercise.id ex ∈ by_id.*1) then (by_id, added)
  else (dict_set (Exercise.id ex) ex by_id, added + 1).

(** Lines 170-179: the catalog to write, [list(by_id.values())], and the
    count [added]. *)
Definition merge_catalog (base imported : list Exercise.t) : list Exercise.t * Z :=
  let '(by_id, added) := foldl merge_one (index_by_id base, 0) imported in
  (by_id.*2, added).

(** The two documents the import reads: the dataset ([None]: no such file;
    [Some None]: its content is no list) and the catalog ([None]: no such
    file), each read through the typed records above. *)
Record ImportFiles := {
  free_ex_db_file : option (option (list FreeExItem));
  exercises_file : option (list Exercise.t);
}.

Inductive ImportError :=
| FileNotFoundError
| ValueError.

(** [import_exercises_from_free_db]: the error raised, or the files after
    the run with the two numbers printed (added, total). *)
Definition import_exercises_from_free_db `{PyLib} `{PyText} (files : ImportFiles)
    : ImportError + ImportFiles * (Z * Z) :=
  match free_ex_db_file files with
  | None => inl FileNotFoundError
  | Some None => inl ValueError
  | Some (Some data) =>
      let imported := _import_from_free_ex_db data in
      let base := default [] (exercises_file files) in
      let '(all_ex, added) := merge_catalog base imported in
      inr ({| free_ex_db_file := free_ex_db_file files; exercises_file := Some all_ex |},
           (added, Z.of_nat (length all_ex)))
  end.

(** ASCII spaces, tabs and line ends stripped from both ends: how
    [str.strip] behaves on texts without other white space. *)
Fixpoint strip_left (s : string) : string :=
  match s with
  | String c s' =>
      if decide (c = " "%char ∨ c = "009"%char ∨ c = "010"%char ∨ c = "013"%char)
      then strip_left s' else s
  | EmptyString => EmptyString
  end.

Fixpoint reverse_string (acc s : string) : string :=
  match s with
  | EmptyString => acc
  | String c s' => reverse_string (String c acc) s'
  end.

Definition reference_text : PyText :=
  {| str_strip := λ s, reverse_string "" (strip_left (reverse_string "" (strip_left s))) |}.

(** A few records of the dataset. *)
Definition squat_record : FreeExItem :=
  {| fx_id := Some "Barbell_Squat"; fx_name := Some "Barbell Squat";
     fx_primaryMuscles := JTextList ["quadriceps"];
     fx_secondaryMuscles := JTextList ["glutes"; "lower back"];
     fx_equipment := Some "barbell"; fx_level := Some "beginner";
     fx_category := Some "strength";
     fx_instructions := JTextList [" Stand under the bar. "; ""; "Squat down."] |}.

Definition sample_dataset : list FreeExItem :=
  [ squat_record;
    {| fx_id := Some "  "; fx_name := Some "No id";
       fx_primaryMuscles := JNoTexts; fx_secondaryMuscles := JNoTexts;
       fx_equipment := None; fx_level := None; fx_category := None;
       fx_instructions := JNoTexts |};
    {| fx_id := Some "Box_Jump"; fx_name := None;
       fx_primaryMuscles := JText "hamstrings"; fx_secondaryMuscles := JNoTexts;
       fx_equipment := None; fx_level := Some "expert";
       fx_category := Some "plyometrics";
       fx_instructions := JText "Jump." |};
    {| fx_id := Some "Leg_Press"; fx_name := Some "Leg Press";
       fx_primaryMuscles := JTextList []; fx_secondaryMuscles := JNoTexts;
       fx_equipment := Some "Machine"; fx_level := Some "Intermediate";
       fx_category := Some "Strength";
       fx_instructions := JNoTexts |} ].

(** ** ui/plan_chart.py and ui/plan_view.py: what the views show

    The widgets are left out; what is modelled is the data the views compute
    from the plan and hand to them. *)

(** [str(n)] for an int. *)
Definition py_str_int (n : Z) : string := NilZero.string_of_int (Z.to_int n).

(** An optional int as a condition: [Some n] where [if value:] holds, that
    is, the value is neither [None] nor 0. *)
Definition py_truthy (value : option Z) : option Z :=
  match value with
  | Some n => if decide (n ≠ 0) then Some n else None
  | None => None
  end.

(** [PlanChartView._draw_chart] (lines 75-102) with [current_plan] for
    [self._current_plan]: the week numbers and the bar heights handed to
    [ax.bar]; [None] where the chart is cleared instead. *)
Definition _draw_chart (current_plan : option TrainingPlan.t) : option (list Z * list Z) :=
  match current_plan with
  | None => None
  | Some plan =>
      let weeks := seqZ 1 (TrainingPlan.total_weeks plan) in
      let counts :=
        (λ w, Z.of_nat (length (filter (λ s, TrainingSession.week_index s = w)
                                  (TrainingPlan.sessions plan)))) <$> weeks in
      if decide (weeks = []) then None else Some (weeks, counts)
  end.

(** The keyword table of [TrainingPlanView._format_exercise_name]
    (lines 112-185). *)
Definition exercise_name_mapping : list (string * string) :=
  [ ("squat", "Приседания");
    ("deadlift", "Становая тяга");
    ("romanian deadlift", "Румынская тяга");
    ("good morning", "Наклоны 'Гуд морнинг'");
    ("bench press", "Жим лёжа");
    ("bench", "Жим");
    ("overhead press", "Жим стоя");
    ("shoulder press", "Жим на плечи");
    ("push-up", "Отжимания");
    ("push up", "Отжимания");
    ("pull-up", "Подтягивания");
    ("pull up", "Подтягивания");
    ("chin-up", "Подтягивания обратным хватом");
    ("chin up", "Подтягивания обратным хватом");
    ("row", "Тяга на спину");
    ("lat pulldown", "Тяга верхнего блока к груди");
    ("pulldown", "Тяга верхнего блока");
    ("face pull", "Тяга к лицу");
    ("lunge", "Выпады");
    ("leg press", "Жим ногами");
    ("leg curl", "Сгибания ног");
    ("leg extension", "Разгибания ног");
    ("step-up", "Шаги на тумбу");
    ("step up", "Шаги на тумбу");
    ("plank", "Планка");
    ("side plank", "Боковая планка");
    ("crunch", "Скручивания");
    ("sit-up", "Подъёмы туловища");
    ("sit up", "Подъёмы туловища");
    ("curl", "Сгибания");
    ("hammer curl", "Сгибания молотком");
    ("concentration curl", "Сгибания на бицепс сидя");
    ("extension", "Разгибания");
    ("tricep extension", "Разгибания на трицепс");
    ("pushdown", "Жим вниз на блоке");
    ("fly", "Разведения");
    ("reverse fly", "Обратные разведения");
    ("raise", "Подъёмы");
    ("calf raise", "Подъёмы на икры");
    ("walk", "Ходьба");
    ("walking", "Ходьба");
    ("run", "Бег");
    ("running", "Бег");
    ("jog", "Лёгкий бег");
    ("bike", "Велотренажёр");
    ("cycling", "Велотренажёр");
    ("elliptical", "Орбитрек");
    ("burpee", "Берпи");
    ("swing", "Махи");
    ("arm circles", "Круги руками");
    ("cat-cow", "Упражнение 'Кошка-корова'");
    ("cat cow", "Упражнение 'Кошка-корова'");
    ("bench jump", "Прыжки с лавки");
    ("medicine ball throw", "Бросок медболла");
    ("backward medicine ball throw", "Бросок медболла назад");
    ("linear 3-part start technique", "Стартовая техника из 3 фаз");
    ("lateral cone hops", "Боковые прыжки через конусы");
    ("hurdle hops", "Прыжки через барьеры");
    ("front cone hops", "Прыжки вперёд через конусы");
    ("supine chest throw", "Бросок мяча лёжа на спине");
    ("pyramid", "Схема подходов 'Пирамида'");
    ("calves-smr", "Самомассаж икроножных мышц роликом");
    ("anterior tibialis-smr", "Самомассаж передней поверхности голени роликом");
    ("frog hops", "Прыжки 'лягушкой'");
    ("neck-smr", "Лёгкий массаж шеи");
    ("ankle circles", "Круговые движения стопой");
    ("standing hip flexors", "Растяжка сгибателей бедра стоя");
    ("on-your-back quad stretch", "Растяжка квадрицепса лёжа на спине");
    ("on your back quad stretch", "Растяжка квадрицепса лёжа на спине");
    ("on your side quad stretch", "Растяжка квадрицепса лёжа на боку");
    ("on-your-side quad stretch", "Растяжка квадрицепса лёжа на боку");
    ("foot-smr", "Массаж стопы роликом")
  ].

(** The loop over the table (lines 187-193): the first keyword found in
    [lower] decides. *)
Fixpoint first_keyword (mapping : list (string * string)) (lower : string)
    : option string :=
  match mapping with
  | [] => None
  | (keyword, ru) :: mapping' =>
      if py_contains keyword lower then Some ru else first_keyword mapping' lower
  end.

Section PlanView.
Context `{PyLib}.
(** [self._exercises_index] and [self._current_plan]. *)
Context (_exercises_index : gmap string Exercise.t)
        (_current_plan : option TrainingPlan.t).

Definition _format_exercise_name (ex : option Exercise.t) : string :=
  match ex with
  | None => "Неизвестное упражнение"
  | Some ex =>
      let name := Exercise.name ex in
      let lower := str_lower name in
      match first_keyword exercise_name_mapping lower with
      | Some ru => (ru ++ " (" ++ name ++ ")")%string
      | None => name
      end
  end.

(** [base_text] for one planned exercise (lines 223-232). *)
Definition base_text (pe : PlannedExercise.t) : string :=
  let ex := _exercises_index !! PlannedExercise.exercise_id pe in
  let name := _format_exercise_name ex in
  match py_truthy (PlannedExercise.duration_seconds pe) with
  | Some duration =>
      let minutes := Z.max 1 (duration `div` 60) in
      (name ++ ": ~" ++ py_str_int minutes ++ " мин")%string
  | None =>
      match py_truthy (PlannedExercise.reps pe) with
      | Some reps =>
          (name ++ ": " ++ py_str_int (PlannedExercise.sets pe) ++ "×"
                ++ py_str_int reps ++ " повторов")%string
      | None =>
          (name ++ ": " ++ py_str_int (PlannedExercise.sets pe) ++ " подхода")%string
      end
  end.

(** One round of the loop over [session.exercises] (lines 222-240) on the
    three lists [(warmup_lines, main_lines, cooldown_lines)]. *)
Definition add_line (blocks : list string * list string * list string)
    (pe : PlannedExercise.t) : list string * list string * list string :=
  let '(warmup_lines, main_lines, cooldown_lines) := blocks in
  let line := ("• " ++ base_text pe)%string in
  let comment := PlannedExercise.comment pe in
  if py_contains "Разминка" comment then
    ((warmup_lines ++ [line])%list, main_lines, cooldown_lines)
  else if py_contains "Заминка" comment || py_contains "растяжка" comment then
    (warmup_lines, main_lines, (cooldown_lines ++ [line])%list)
  else (warmup_lines, (main_lines ++ [line])%list, cooldown_lines).

Definition _format_session_exercises (week_index day_index : Z) : list string :=
  match _current_plan with
  | None => []
  | Some plan =>
      let sessions :=
        filter (λ s, TrainingSession.week_index s = week_index
                     ∧ TrainingSession.day_index s = day_index)
               (TrainingPlan.sessions plan) in
      match sessions with
      | [] => []
      | session :: _ =>
          let '(warmup_lines, main_lines, cooldown_lines) :=
            foldl add_line ([], [], []) (TrainingSession.exercises session) in
          let lines := ["Суставная разминка (5–10 минут)"] in
          let lines :=
            if decide (main_lines ≠ []) then
              (lines ++ [""; "Основная часть:"]
                     ++ ((λ line, "  " ++ line)%string <$> main_lines))%list
            else lines in
          let lines :=
            if decide (cooldown_lines ≠ []) then
              (lines ++ [""; "Заминка:"]
                     ++ ((λ line, "  " ++ line)%string <$> cooldown_lines))%list
            else lines in
          lines
      end
  end.

(** [_populate_table_for_week]: the rows of the table after the call, each
    the texts of its three cells. *)
Definition _populate_table_for_week (week_index : Z) : list (string * string * string) :=
  match _current_plan with
  | None => []
  | Some plan =>
      let sessions :=
        filter (λ s, TrainingSession.week_index s = week_index)
               (TrainingPlan.sessions plan) in
      let sessions := sort_by_key Z.leb TrainingSession.day_index sessions in
      (λ session,
         (("День " ++ py_str_int (TrainingSession.day_index session))%string,
          TrainingSession.title session,
          String.concat (String "010" "")
            (_format_session_exercises week_index (TrainingSession.day_index session))))
        <$> sessions
  end.
End PlanView.

(** [{ex.id: ex for ex in exercises}] (plan_view.py, line 86). *)
Definition exercises_index (exercises : list Exercise.t) : gmap string Exercise.t :=
  foldl (λ index ex, <[Exercise.id ex := ex]> index) ∅ exercises.

(** ** models.py and data_access.py: the plan as a JSON document *)

(** The JSON values a plan is written as. An object is the dict
    [json.load] gives back, its keys in the order of the document. *)
#[local] Set Warnings "-register-all".
Inductive JSON :=
| JsonNull
| JsonInt (n : Z)
| JsonString (s : string)
| JsonArray (items : list JSON)
| JsonObject (fields : list (string * JSON)).
#[local] Set Warnings "register-all".

(** The exceptions of the [from_dict] methods. [IllTyped] stands for the
    inputs on which Python raises nothing but builds an object with a field
    outside its annotation (a string for [sets], say): the records of this
    development have no such value. *)
Inductive PyError :=
| KeyError (key : string)
| TypeError
| AttributeError
| IllTyped.

#[global] Instance PyError_ret : MRet (sum PyError) := λ _ x, inr x.
#[global] Instance PyError_bind : MBind (sum PyError) :=
  λ _ _ f r, match r with inl e => inl e | inr x => f x end.

(** [d.get(k)] on a dict. *)
Fixpoint dict_get {V} (k : string) (d : list (string * V)) : option V :=
  match d with
  | [] => None
  | (k', v) :: d' => if decide (k' = k) then Some v else dict_get k d'
  end.

(** [d[k]] *)
Definition dict_item (k : string) (d : list (string * JSON)) : PyError + JSON :=
  match dict_get k d with
  | Some v => inr v
  | None => inl (KeyError k)
  end.

(** The items a [for] loop over a JSON value visits: the elements of a
    list, the keys of a dict, the characters of a string; [None] and
    numbers are not iterable. *)
Definition iter_json (v : JSON) : PyError + list JSON :=
  match v with
  | JsonArray items => inr items
  | JsonObject fields => inr (JsonString <$> fields.*1)
  | JsonString s => inr ((λ c, JsonString (String c "")) <$> list_ascii_of_string s)
  | JsonNull | JsonInt _ => inl TypeError
  end.

Definition as_int (v : JSON) : PyError + Z :=
  match v with JsonInt n => inr n | _ => inl IllTyped end.

Definition as_str (v : JSON) : PyError + string :=
  match v with JsonString s => inr s | _ => inl IllTyped end.

Definition as_optional_int (v : JSON) : PyError + option Z :=
  match v with
  | JsonNull => inr None
  | JsonInt n => inr (Some n)
  | _ => inl IllTyped
  end.

Definition optional_int_to_json (v : option Z) : JSON :=
  match v with Some n => JsonInt n | None => JsonNull end.

(** [PlannedExercise.to_dict]: [asdict], the fields in their order. *)
Definition PlannedExercise_to_dict (pe : PlannedExercise.t) : JSON :=
  JsonObject [
    ("exercise_id", JsonString (PlannedExercise.exercise_id pe));
    ("sets", JsonInt (PlannedExercise.sets pe));
    ("reps", optional_int_to_json (PlannedExercise.reps pe));
    ("duration_seconds", optional_int_to_json (PlannedExercise.duration_seconds pe));
    ("comment", JsonString (PlannedExercise.comment pe))
  ].

(** [PlannedExercise.from_dict]: the constructor, called with the entries
    of [data] as keyword arguments, refuses what is no mapping, a key that
    is no field, and a missing [exercise_id] or [sets]; the other fields
    have defaults. *)
Definition PlannedExercise_from_dict (data : JSON) : PyError + PlannedExercise.t :=
  match data with
  | JsonObject fields =>
      if bool_decide (Forall (λ k, k ∈ ["exercise_id"; "sets"; "reps";
                                        "duration_seconds"; "comment"]) fields.*1)
      then
        match dict_get "exercise_id" fields, dict_get "sets" fields with
        | Some exercise_id, Some sets =>
            exercise_id ← as_str exercise_id;
            sets ← as_int sets;
            reps ← as_optional_int (default JsonNull (dict_get "reps" fields));
            duration_seconds ←
              as_optional_int (default JsonNull (dict_get "duration_seconds" fields));
            comment ← as_str (default (JsonString "") (dict_get "comment" fields));
            mret (PlannedExercise.mk exercise_id sets reps duration_seconds comment)
        | _, _ => inl TypeError
        end
      else inl TypeError
  | _ => inl TypeError
  end.

Definition TrainingSession_to_dict (s : TrainingSession.t) : JSON :=
  JsonObject [
    ("week_index", JsonInt (TrainingSession.week_index s));
    ("day_index", JsonInt (TrainingSession.day_index s));
    ("title", JsonString (TrainingSession.title s));
    ("exercises", JsonArray (PlannedExercise_to_dict <$> TrainingSession.exercises s))
  ].

Definition TrainingSession_from_dict (data : JSON) : PyError + TrainingSession.t :=
  match data with
  | JsonObject fields =>
      items ← iter_json (default (JsonArray []) (dict_get "exercises" fields));
      exercises ← mapM PlannedExercise_from_dict items;
      week_index ← dict_item "week_index" fields;
      day_index ← dict_item "day_index" fields;
      title ← dict_item "title" fields;
      week_index ← as_int week_index;
      day_index ← as_int day_index;
      title ← as_str title;
      mret (TrainingSession.mk week_index day_index title exercises)
  | _ => inl AttributeError
  end.

Definition TrainingPlan_to_dict (plan : TrainingPlan.t) : JSON :=
  JsonObject [
    ("goal", JsonString (TrainingPlan.goal plan));
    ("sessions_per_week", JsonInt (TrainingPlan.sessions_per_week plan));
    ("total_weeks", JsonInt (TrainingPlan.total_weeks plan));
    ("sessions", JsonArray (TrainingSession_to_dict <$> TrainingPlan.sessions plan))
  ].

Definition TrainingPlan_from_dict (data : JSON) : PyError + TrainingPlan.t :=
  match data with
  | JsonObject fields =>
      items ← iter_json (default (JsonArray []) (dict_get "sessions" fields));
      sessions ← mapM TrainingSession_from_dict items;
      goal ← dict_item "goal" fields;
      sessions_per_week ← dict_item "sessions_per_week" fields;
      total_weeks ← dict_item "total_weeks" fields;
      goal ← as_str goal;
      sessions_per_week ← as_int sessions_per_week;
      total_weeks ← as_int total_weeks;
      mret (TrainingPlan.mk goal sessions_per_week total_weeks sessions)
  | _ => inl AttributeError
  end.

(** [save_training_plan] and [load_training_plan] on the content of
    training_plan.json ([None]: no such file), a JSON value that
    [json.dump] writes and [json.load] reads back as it is. *)
Definition save_training_plan (plan : TrainingPlan.t) (training_plan_file : option JSON)
    : option JSON :=
  Some (TrainingPlan_to_dict plan).

Definition load_training_plan (training_plan_file : option JSON)
    : PyError + option TrainingPlan.t :=
  match training_plan_file with
  | None => inr None
  | Some data => plan ← TrainingPlan_from_dict data; mret (Some plan)
  end.

(** [PlanChartView.refresh_from_plan] (lines 52-63): what the chart shows
    after the refresh, [None] for the cleared chart. *)
Definition refresh_from_plan (training_plan_file : option JSON)
    : PyError + option (list Z * list Z) :=
  plan ← load_training_plan training_plan_file;
  mret (_draw_chart plan).

(** *** The catalog as a JSON document *)

Definition as_str_list (v : JSON) : PyError + list string :=
  match v with
  | JsonArray items => mapM as_str items
  | _ => inl IllTyped
  end.

Definition str_list_to_json (l : list string) : JSON := JsonArray (JsonString <$> l).

(** [Exercise.to_dict] *)
Definition Exercise_to_dict (ex : Exercise.t) : JSON :=
  JsonObject [
    ("id", JsonString (Exercise.id ex));
    ("name", JsonString (Exercise.name ex));
    ("muscle_groups", str_list_to_json (Exercise.muscle_groups ex));
    ("equipment", str_list_to_json (Exercise.equipment ex));
    ("difficulty", JsonString (Exercise.difficulty ex));
    ("exercise_type", JsonString (Exercise.exercise_type ex));
    ("locations", str_list_to_json (Exercise.locations ex));
    ("contraindications", str_list_to_json (Exercise.contraindications ex));
    ("description", JsonString (Exercise.description ex))
  ].

(** [Exercise.from_dict]: the constructor refuses what is no mapping, a
    key that is no field and a missing field without default; only
    [contraindications] and [description] have one. *)
Definition Exercise_from_dict (data : JSON) : PyError + Exercise.t :=
  match data with
  | JsonObject fields =>
      let required :=
        ["id"; "name"; "muscle_groups"; "equipment"; "difficulty"; "exercise_type";
         "locations"] in
      if bool_decide (Forall (λ k, k ∈ (required ++ ["contraindications"; "description"])%list)
                             fields.*1
                      ∧ Forall (λ k, k ∈ fields.*1) required)
      then
        id ← dict_item "id" fields ≫= as_str;
        name ← dict_item "name" fields ≫= as_str;
        muscle_groups ← dict_item "muscle_groups" fields ≫= as_str_list;
        equipment ← dict_item "equipment" fields ≫= as_str_list;
        difficulty ← dict_item "difficulty" fields ≫= as_str;
        exercise_type ← dict_item "exercise_type" fields ≫= as_str;
        locations ← dict_item "locations" fields ≫= as_str_list;
        contraindications ←
          as_str_list (default (JsonArray []) (dict_get "contraindications" fields));
        description ← as_str (default (JsonString "") (dict_get "description" fields));
        mret (Exercise.mk id name muscle_groups equipment difficulty exercise_type
                locations contraindications description)
      else inl TypeError
  | _ => inl TypeError
  end.

(** A catalog in which two exercises share the id x: a plank, open to
    everyone, and a jump squat contraindicated for the joints. *)
Definition plank_x : Exercise.t := sample_exercise "x" "Plank" ["пресс"] "strength".

Definition jump_squat_x : Exercise.t :=
  Exercise.mk "x" "Jump squat" ["ноги"] [] "beginner" "strength"
    ["home"; "gym"] ["суставы"] "".

Definition shared_id_catalog : list Exercise.t := [plank_x; jump_squat_x].

(** * Properties *)

Local Open Scope list_scope.

(** ** Cadence *)

Lemma foldr_min_le (x : Z) (l : list Z) :
  foldr Z.min x l ≤ x ∧ Forall (λ y, foldr Z.min x l ≤ y) l.
Proof.
  induction l as [|y l [IH1 IH2]]; simpl; [split; [lia | constructor] |].
  split; [lia |].
  constructor; [lia |].
  eapply Forall_impl; [exact IH2 | simpl; intros; lia].
Qed.

Lemma foldr_min_elem (x : Z) (l : list Z) : foldr Z.min x l ∈ x :: l.
Proof.
  induction l as [|y l IH]; simpl; [by left |].
  destruct (Z.min_spec y (foldr Z.min x l)) as [[_ ->] | [_ ->]].
  - right. by left.
  - apply elem_of_cons in IH as [IH | IH]; [rewrite IH; by left |]. right. by right.
Qed.

Lemma elem_of_extract_condition_ids conds health_issues cid :
  cid ∈ extract_condition_ids conds health_issues
  ↔ cid ∈ health_issues ∧ is_Some (conds !! cid).
Proof.
  unfold extract_condition_ids, _known_condition_ids.
  rewrite elem_of_list_to_set, list_elem_of_filter, elem_of_dom. tauto.
Qed.

(** The cap [get_sessions_limit_for_profile] returns is the least
    [sessions_per_week_max] among the conditions the profile names. *)
Lemma sessions_limit_is_minimum `{sets : PySets} conds profile cap :
  visits_each_once sets →
  get_sessions_limit_for_profile conds profile = Some cap →
  (∃ cid cond, cid ∈ UserProfile.health_issues profile
               ∧ conds !! cid = Some cond
               ∧ Condition.sessions_per_week_max cond = Some cap)
  ∧ (∀ cid cond m, cid ∈ UserProfile.health_issues profile →
                   conds !! cid = Some cond →
                   Condition.sessions_per_week_max cond = Some m → cap ≤ m).
Proof.
  intros Hiter. unfold visits_each_once in Hiter. unfold get_sessions_limit_for_profile.
  set (ids := extract_condition_ids conds (UserProfile.health_issues profile)).
  set (limits := omap _ (set_iter ids)).
  assert (Hmem : ∀ m, m ∈ limits ↔
            ∃ cid cond, cid ∈ UserProfile.health_issues profile
                        ∧ conds !! cid = Some cond
                        ∧ Condition.sessions_per_week_max cond = Some m).
  { intros m. unfold limits. rewrite list_elem_of_omap. split.
    - intros (cid & Hin & Hf). rewrite Hiter in Hin. apply elem_of_elements in Hin.
      apply elem_of_extract_condition_ids in Hin as [Hin _].
      destruct (conds !! cid) as [cond|] eqn:Hc; simpl in Hf; [|done].
      eauto.
    - intros (cid & cond & Hin & Hc & Hm). exists cid. split.
      + rewrite Hiter. apply elem_of_elements, elem_of_extract_condition_ids.
        rewrite Hc. eauto.
      + rewrite Hc. simpl. done. }
  destruct (decide (ids = ∅)); [done |].
  destruct limits as [|x rest] eqn:Hl; [done |].
  intros [= <-]. split.
  - apply Hmem. apply foldr_min_elem.
  - intros cid cond m Hin Hc Hm.
    assert (Hx : m ∈ x :: rest) by (apply Hmem; eauto).
    destruct (foldr_min_le x rest) as [H1 H2].
    apply elem_of_cons in Hx as [-> | Hx]; [done |].
    rewrite Forall_forall in H2. by apply H2.
Qed.

(** Without a matched condition that carries a cap there is no limit. *)
Lemma sessions_limit_none `{sets : PySets} conds profile :
  visits_each_once sets →
  get_sessions_limit_for_profile conds profile = None →
  ∀ cid cond, cid ∈ UserProfile.health_issues profile →
              conds !! cid = Some cond →
              Condition.sessions_per_week_max cond = None.
Proof.
  intros Hiter. unfold visits_each_once in Hiter. unfold get_sessions_limit_for_profile.
  set (ids := extract_condition_ids conds (UserProfile.health_issues profile)).
  intros Hnone cid cond Hin Hc.
  assert (Hid : cid ∈ ids).
  { apply elem_of_extract_condition_ids. rewrite Hc. eauto. }
  destruct (decide (ids = ∅)) as [He|_]; [set_solver |].
  destruct (Condition.sessions_per_week_max cond) as [m|] eqn:Hm; [|done].
  exfalso.
  assert (Hx : m ∈ omap (λ cid, conds !! cid ≫= Condition.sessions_per_week_max)
                        (set_iter ids)).
  { apply list_elem_of_omap. exists cid.
    split; [rewrite Hiter; by apply elem_of_elements |].
    rewrite Hc. done. }
  destruct (omap _ (set_iter ids)); [by apply elem_of_nil in Hx | done].
Qed.

(** C2 as stated fails: a profile whose
    [max_sessions_per_week] is 0 is given three sessions a week, and a
    registry cap of 0 is answered with one session. *)
Lemma recommend_sessions_exceeds_zero_limits :
  ¬ (@recommend_sessions_per_week reference_sets ∅ (sample_profile "maintenance" [] 0)
     ≤ UserProfile.max_sessions_per_week (sample_profile "maintenance" [] 0))
  ∧ (let conds : gmap string Condition.t :=
       {[ "c0" := Condition.mk "c0" "" "other" (Some 0) None "" ]} in
     @get_sessions_limit_for_profile reference_sets conds
       (sample_profile "maintenance" ["c0"] 3) = Some 0
     ∧ @recommend_sessions_per_week reference_sets conds
         (sample_profile "maintenance" ["c0"] 3) = 1).
Proof. vm_compute. split; [intros H; by apply H | done]. Qed.

(** C2 (amended): the recommended number of sessions a week lies in [1,7];
    it does not exceed [max_sessions_per_week] when that is at least 1, nor
    the condition-derived cap when there is one and it is at least 1. *)
Theorem recommend_sessions_per_week_bounds `{PySets} conds profile :
  let s := recommend_sessions_per_week conds profile in
  (1 ≤ s ≤ 7)
  ∧ (1 ≤ UserProfile.max_sessions_per_week profile →
     s ≤ UserProfile.max_sessions_per_week profile)
  ∧ (∀ cap, get_sessions_limit_for_profile conds profile = Some cap →
            1 ≤ cap → s ≤ cap).
Proof.
  unfold recommend_sessions_per_week. simpl.
  assert (Hb : 1 ≤ _rule_based_sessions_per_week profile ≤ 5).
  { unfold _rule_based_sessions_per_week. lia. }
  split; [lia |]. split.
  - intros Hmax. destruct (decide _) as [_|Hz]; [|lia].
    destruct (get_sessions_limit_for_profile conds profile); lia.
  - intros cap -> Hcap. destruct (decide _); lia.
Qed.

Lemma py_round_nearest (x : Q) : nearest_integer x (py_round x).
Proof.
  intros z'. unfold py_round.
  pose proof (Qfloor_le x) as Hlo. pose proof (Qlt_floor x) as Hhi.
  set (f := Qfloor x) in *.
  assert (Hf1 : (inject_Z (f + 1) == inject_Z f + 1)%Q) by (rewrite inject_Z_plus; reflexivity).
  rewrite Hf1 in Hhi.
  assert (Hz : (z' ≤ f ∨ f + 1 ≤ z')%Z) by lia.
  assert (Hz' : (inject_Z z' <= inject_Z f ∨ inject_Z f + 1 <= inject_Z z')%Q).
  { destruct Hz as [Hz|Hz]; [left | right].
    - by rewrite <- Zle_Qle.
    - rewrite <- Hf1. by rewrite <- Zle_Qle. }
  destruct (Qcompare (x - inject_Z f) (1 # 2)) eqn:Hc.
  - apply Qeq_alt in Hc.
    destruct (Z.even f).
    + apply Qabs_case; intros Ha; apply Qabs_case; intros Hb; destruct Hz'; lra.
    + rewrite Hf1.
      apply Qabs_case; intros Ha; apply Qabs_case; intros Hb; destruct Hz'; lra.
  - apply Qlt_alt in Hc.
    apply Qabs_case; intros Ha; apply Qabs_case; intros Hb; destruct Hz'; lra.
  - apply Qgt_alt in Hc. rewrite Hf1.
    apply Qabs_case; intros Ha; apply Qabs_case; intros Hb; destruct Hz'; lra.
Qed.

Lemma py_round_comp (x y : Q) : (x == y)%Q → py_round x = py_round y.
Proof.
  intros Hxy. unfold py_round.
  rewrite (Qfloor_comp _ _ Hxy).
  assert (Hd : (x - inject_Z (Qfloor y) == y - inject_Z (Qfloor y))%Q) by (rewrite Hxy; reflexivity).
  by rewrite (Qcompare_comp _ _ Hd _ _ (Qeq_refl (1 # 2))).
Qed.

(** On a tie Python rounds to the even neighbour. *)
Lemma py_round_tie_even (x : Q) :
  (x - inject_Z (Qfloor x) == 1 # 2)%Q → Z.even (py_round x) = true.
Proof.
  intros Htie. unfold py_round.
  apply Qeq_alt in Htie. rewrite Htie.
  destruct (Z.even (Qfloor x)) eqn:He; [done |].
  rewrite Z.even_add. by rewrite He.
Qed.

(** C8 as stated fails: a profile that names the
    knee-arthrosis condition has the joints tag in its risk-tag set, yet the
    baseline stays at 3 where the claim's rule gives 2. *)
Lemma rule_based_sessions_ignores_condition_tags :
  "суставы" ∈ @get_risk_tags_for_profile reference_sets knee_registry
                (sample_profile "maintenance" ["joint_knee_arthrosis"] 3)
  ∧ _rule_based_sessions_per_week
      (sample_profile "maintenance" ["joint_knee_arthrosis"] 3) = 3
  ∧ spec_rule_based_sessions
      (@get_risk_tags_for_profile reference_sets knee_registry
         (sample_profile "maintenance" ["joint_knee_arthrosis"] 3))
      (sample_profile "maintenance" ["joint_knee_arthrosis"] 3) = 2.
Proof.
  split; [| split].
  - apply (bool_decide_unpack _). by vm_compute.
  - by vm_compute.
  - by vm_compute.
Qed.

Lemma rule_based_sessions_per_week_baseline profile :
  _rule_based_sessions_per_week profile
  = spec_rule_based_sessions (list_to_set (UserProfile.health_issues profile)) profile
  ∧ 1 ≤ _rule_based_sessions_per_week profile ≤ 5.
Proof.
  split.
  - unfold _rule_based_sessions_per_week, spec_rule_based_sessions, spec_baseline_score.
    do 2 f_equal. apply py_round_comp.
    rewrite (decide_ext ("сердце" ∈ (list_to_set (UserProfile.health_issues profile) : gset string)
                         ∨ "суставы" ∈ (list_to_set (UserProfile.health_issues profile) : gset string))
                        ("сердце" ∈ UserProfile.health_issues profile
                         ∨ "суставы" ∈ UserProfile.health_issues profile))
      by (by rewrite !elem_of_list_to_set).
    destruct (decide (UserProfile.activity_level profile = "low")) as [Hl|_],
             (decide (UserProfile.activity_level profile = "high")) as [Hh|_];
      [congruence | ..];
      destruct (decide (UserProfile.experience_level profile = "beginner")) as [Hb|_],
               (decide (UserProfile.experience_level profile = "advanced")) as [Ha|_];
      try congruence;
      destruct (decide (UserProfile.goal profile ∈ ["muscle_gain"; "endurance"])),
               (decide (UserProfile.goal profile ∈ ["back_health"; "general_health"])),
               (decide ("сердце" ∈ UserProfile.health_issues profile
                        ∨ "суставы" ∈ UserProfile.health_issues profile));
      by vm_compute.
  - unfold _rule_based_sessions_per_week. lia.
Qed.

(** C8 (amended): the rule-based baseline is 3, plus 1 for high activity or
    minus 1 for low, plus 1 for the goals muscle_gain and endurance, minus 1
    when the profile's own health-issue list holds the heart tag or the
    joints tag, plus a half for advanced experience or minus a half for a
    beginner, rounded to a nearest integer (a tie to the even one) and
    clamped to [1,5]. *)
Theorem rule_based_sessions_per_week_spec profile :
  let tags : gset string := list_to_set (UserProfile.health_issues profile) in
  _rule_based_sessions_per_week profile = spec_rule_based_sessions tags profile
  ∧ nearest_integer (spec_baseline_score tags profile)
                    (py_round (spec_baseline_score tags profile))
  ∧ 1 ≤ _rule_based_sessions_per_week profile ≤ 5.
Proof.
  intros tags.
  destruct (rule_based_sessions_per_week_baseline profile) as [Heq Hrange].
  split; [exact Heq |]. split; [apply py_round_nearest | exact Hrange].
Qed.

(** ** Lists: the stable sort, index selection and slices *)

Section StableSortFacts.
Context {A K : Type} (leb : K → K → bool) (key : A → K).

Lemma insert_sorted_Permutation x l : insert_sorted leb key x l ≡ₚ x :: l.
Proof.
  induction l as [|y l IH]; simpl; [done |].
  destruct (leb (key x) (key y)); [done |].
  rewrite IH. apply Permutation_swap.
Qed.

Lemma sort_by_key_Permutation l : sort_by_key leb key l ≡ₚ l.
Proof.
  induction l as [|x l IH]; [done |].
  unfold sort_by_key in *. simpl.
  rewrite insert_sorted_Permutation. by rewrite IH.
Qed.

Lemma elem_of_sort_by_key x l : x ∈ sort_by_key leb key l ↔ x ∈ l.
Proof. by rewrite sort_by_key_Permutation. Qed.
End StableSortFacts.

Lemma elem_of_take_indices {A} (l : list A) order x :
  x ∈ take_indices l order → x ∈ l.
Proof.
  unfold take_indices. rewrite list_elem_of_omap.
  intros (i & _ & Hi). by eapply list_elem_of_lookup_2.
Qed.

Lemma elem_of_py_slice_to {A} (l : list A) n x : x ∈ py_slice_to l n → x ∈ l.
Proof.
  unfold py_slice_to. case_decide; rewrite elem_of_take; intros (i & Hi & _);
    by eapply list_elem_of_lookup_2.
Qed.

Lemma length_py_slice_to {A} (l : list A) n :
  0 ≤ n → length (py_slice_to l n) = (Z.to_nat n `min` length l)%nat.
Proof. intros Hn. unfold py_slice_to. rewrite decide_True by done. apply length_take. Qed.

(** ** What the picker returns comes from its pool *)

Section PickerFacts.
Context `{PyLib}.

Lemma elem_of_rank_exercises_for_goal goal exercises max_items x :
  x ∈ rank_exercises_for_goal goal exercises max_items → x ∈ exercises.
Proof.
  unfold rank_exercises_for_goal. case_decide; [done |].
  destruct max_items; apply elem_of_take_indices.
Qed.

Lemma elem_of_pick_exercises all_ex ty kw n goal used x :
  x ∈ _pick_exercises all_ex ty kw n goal used →
  x ∈ all_ex ∧ Exercise.exercise_type x = ty.
Proof.
  unfold _pick_exercises.
  set (filtered := filter _ all_ex).
  assert (Hf : ∀ y, y ∈ filtered → y ∈ all_ex ∧ Exercise.exercise_type y = ty).
  { intros y [Hm Hy]%list_elem_of_filter. split; [done |].
    unfold matches_request in Hm. by case_decide. }
  case_decide; [by intros ?%elem_of_nil |].
  set (pool := if decide (used ≠ ∅) then _ else filtered).
  assert (Hp : ∀ y, y ∈ pool → y ∈ filtered).
  { intros y. unfold pool. repeat case_decide; try done.
    by intros [_ ?]%list_elem_of_filter. }
  case_decide.
  - intros Hx%elem_of_rank_exercises_for_goal. auto.
  - intros Hx%elem_of_py_slice_to. apply elem_of_sort_by_key in Hx. auto.
Qed.

Lemma elem_of_template_block profile allowed d used x :
  x ∈ template_block profile allowed d used → x ∈ allowed.
Proof.
  unfold template_block. simpl.
  repeat case_decide; rewrite ?elem_of_app; intros Hx;
    repeat match goal with Hor : _ ∨ _ |- _ => destruct Hor as [Hx | Hx] end;
    by apply elem_of_pick_exercises in Hx as [? _].
Qed.

Lemma elem_of_main_block profile allowed d used x :
  x ∈ main_block profile allowed d used → x ∈ allowed.
Proof.
  unfold main_block.
  set (block := if decide (_ < _) then _ else _).
  assert (Hb : ∀ y, y ∈ block → y ∈ allowed).
  { intros y. unfold block. case_decide.
    - rewrite elem_of_app. intros [Hy | Hy].
      + by eapply elem_of_template_block.
      + by apply elem_of_pick_exercises in Hy as [? _].
    - apply elem_of_template_block. }
  case_decide; [rewrite elem_of_sort_by_key |]; auto.
Qed.
End PickerFacts.

(** ** The loops of the generator *)

Section GeneratorFacts.
Context `{PyLib} (profile : UserProfile.t) (allowed : list Exercise.t).

Local Abbreviation planned_ids st :=
  (PlannedExercise.exercise_id <$> planned_exercises st).

Lemma emit_main_used s r c st ex :
  Exercise.id ex ∈ used_ids_session st → emit_main s r c st ex = st.
Proof. intros Hin. unfold emit_main. by rewrite decide_True. Qed.

Lemma emit_main_fresh s r c st ex :
  Exercise.id ex ∉ used_ids_session st →
  planned_ids (emit_main s r c st ex) = planned_ids st ++ [Exercise.id ex]
  ∧ used_ids_session (emit_main s r c st ex) = {[ Exercise.id ex ]} ∪ used_ids_session st
  ∧ used_global (emit_main s r c st ex) = {[ Exercise.id ex ]} ∪ used_global st.
Proof.
  intros Hin. unfold emit_main. rewrite decide_False by done. simpl.
  rewrite fmap_app. by repeat case_decide.
Qed.

(** The loop over [main_ex] schedules each id of [main_ex] once. *)
Lemma foldl_emit_main_spec s r c l st :
  NoDup (planned_ids st) →
  (∀ i, i ∈ planned_ids st ↔ i ∈ used_ids_session st) →
  NoDup (planned_ids (foldl (emit_main s r c) st l))
  ∧ (∀ i, i ∈ planned_ids (foldl (emit_main s r c) st l)
          ↔ i ∈ used_ids_session (foldl (emit_main s r c) st l))
  ∧ (∀ i, i ∈ planned_ids (foldl (emit_main s r c) st l)
          ↔ i ∈ planned_ids st ∨ i ∈ Exercise.id <$> l).
Proof.
  revert st. induction l as [|ex l IH]; intros st Hnd Hiff; simpl.
  - split; [done |]. split; [done |]. intros i. rewrite elem_of_nil. tauto.
  - destruct (decide (Exercise.id ex ∈ used_ids_session st)) as [Hin | Hin].
    + rewrite emit_main_used by done.
      destruct (IH st Hnd Hiff) as (H1 & H2 & H3).
      split; [done |]. split; [done |].
      intros i. rewrite H3, elem_of_cons.
      split; [tauto |]. intros [? | [-> | ?]]; auto.
      left. by apply Hiff.
    + destruct (emit_main_fresh s r c st ex Hin) as (Ep & Es & _).
      destruct (IH (emit_main s r c st ex)) as (H1 & H2 & H3).
      * rewrite Ep. apply NoDup_app. split; [done |]. split.
        -- intros i Hi ->%list_elem_of_singleton. apply Hin. by apply Hiff.
        -- apply NoDup_singleton.
      * intros i. rewrite Ep, Es, elem_of_app, list_elem_of_singleton, elem_of_union,
          elem_of_singleton, Hiff. tauto.
      * split; [done |]. split; [done |].
        intros i. rewrite H3, Ep, elem_of_app, list_elem_of_singleton, elem_of_cons. tauto.
Qed.

(** One day: a session is appended for slot [(w, d)]; it schedules the ids
    of the day's main block, each once. *)
Lemma plan_day_spec w sessions used d :
  ∃ s used',
    plan_day profile allowed w (sessions, used) d = (sessions ++ [s], used')
    ∧ session_index s = (w, d)
    ∧ NoDup (session_ids s)
    ∧ (∀ i, i ∈ session_ids s ↔ i ∈ Exercise.id <$> main_block profile allowed d used).
Proof.
  unfold plan_day. destruct (week_load profile w) as [[s r] c]. simpl.
  eexists _, _. split; [reflexivity |]. split; [done |].
  unfold session_ids. simpl.
  edestruct (foldl_emit_main_spec s r c (main_block profile allowed d used))
    as (H1 & _ & H3); [| | split; [exact H1 |]].
  - simpl. apply NoDup_nil_2.
  - simpl. intros i. rewrite elem_of_nil. set_solver.
  - intros i. rewrite H3. simpl. rewrite elem_of_nil. tauto.
Qed.

(** The sessions some day's loop body builds. *)
Local Abbreviation built s :=
  (NoDup (session_ids s)
   ∧ ∃ used, ∀ i, i ∈ session_ids s
                  ↔ i ∈ Exercise.id <$> main_block profile allowed
                                          (TrainingSession.day_index s) used).

Lemma plan_week_spec w days sessions used :
  ∃ new used',
    foldl (plan_day profile allowed w) (sessions, used) days = (sessions ++ new, used')
    ∧ session_index <$> new = (λ d, (w, d)) <$> days
    ∧ Forall (λ s, built s) new.
Proof.
  revert sessions used. induction days as [|d days IH]; intros sessions used; cbn [foldl].
  - exists [], used. by rewrite app_nil_r.
  - destruct (plan_day_spec w sessions used d) as (s & used1 & -> & Hidx & Hnd & Hids).
    destruct (IH (sessions ++ [s]) used1) as (new & used' & -> & Hnew & Hall).
    exists (s :: new), used'. rewrite <- app_assoc. split; [done |].
    split; [by rewrite !fmap_cons, Hidx, Hnew |].
    constructor; [| done]. split; [done |].
    exists used. unfold session_index in Hidx. injection Hidx as _ Hd. by rewrite Hd.
Qed.

Lemma plan_weeks_spec per_week weeks sessions used :
  ∃ new used',
    foldl (plan_week profile allowed per_week) (sessions, used) weeks
    = (sessions ++ new, used')
    ∧ session_index <$> new
      = (w ← weeks; (λ d, (w, d)) <$> seqZ 1 per_week)
    ∧ Forall (λ s, built s) new.
Proof.
  revert sessions used. induction weeks as [|w weeks IH]; intros sessions used; cbn [foldl].
  - exists [], used. by rewrite app_nil_r.
  - unfold plan_week at 2.
    destruct (plan_week_spec w (seqZ 1 per_week) sessions used)
      as (new1 & used1 & -> & Hidx1 & Hall1).
    destruct (IH (sessions ++ new1) used1) as (new & used' & -> & Hidx & Hall).
    exists (new1 ++ new), used'. rewrite <- app_assoc. split; [done |].
    split; [by rewrite fmap_app, Hidx1, Hidx |].
    by apply Forall_app.
Qed.
End GeneratorFacts.

(** The sessions of a generated plan: one per slot, in slot order, each
    scheduling once every id of some day's main block over the eligible
    pool. *)
Lemma generate_training_plan_sessions `{PyLib} `{PySets} conds profile exercises :
  let plan := generate_training_plan conds profile exercises in
  let allowed := _select_allowed_exercises conds profile exercises in
  TrainingPlan.sessions_per_week plan = recommend_sessions_per_week conds profile
  ∧ TrainingPlan.total_weeks plan = recommend_total_weeks profile
  ∧ session_index <$> TrainingPlan.sessions plan
    = plan_slots (TrainingPlan.total_weeks plan) (TrainingPlan.sessions_per_week plan)
  ∧ Forall (λ s, NoDup (session_ids s)
                 ∧ ∃ used, ∀ i, i ∈ session_ids s
                                ↔ i ∈ Exercise.id <$> main_block profile allowed
                                                        (TrainingSession.day_index s) used)
           (TrainingPlan.sessions plan).
Proof.
  simpl. unfold generate_training_plan.
  destruct (plan_weeks_spec profile (_select_allowed_exercises conds profile exercises)
              (recommend_sessions_per_week conds profile)
              (seqZ 1 (recommend_total_weeks profile)) [] ∅)
    as (new & used' & -> & Hidx & Hall).
  simpl. by rewrite Hidx.
Qed.

(** ** Slots of the plan *)

Lemma length_plan_slots weeks per_week :
  length (plan_slots weeks per_week) = (Z.to_nat weeks * Z.to_nat per_week)%nat.
Proof.
  unfold plan_slots. rewrite <- (length_seqZ 1 weeks).
  induction (seqZ 1 weeks) as [|w l IH]; [done |].
  change (length ((w :: l) ≫= λ w0, (λ d, (w0, d)) <$> seqZ 1 per_week))
    with (length (((λ d, (w, d)) <$> seqZ 1 per_week)
                  ++ (l ≫= λ w0, (λ d, (w0, d)) <$> seqZ 1 per_week))).
  rewrite length_app, length_fmap, length_seqZ, IH. simpl. lia.
Qed.

Lemma elem_of_plan_slots weeks per_week w d :
  (w, d) ∈ plan_slots weeks per_week ↔ 1 ≤ w ≤ weeks ∧ 1 ≤ d ≤ per_week.
Proof.
  unfold plan_slots. rewrite list_elem_of_bind. split.
  - intros (w' & Hd & Hw). apply list_elem_of_fmap in Hd as (d' & [= -> ->] & Hd).
    apply elem_of_seqZ in Hw, Hd. lia.
  - intros [Hw Hd]. exists w. split.
    + apply list_elem_of_fmap. exists d. split; [done |]. apply elem_of_seqZ. lia.
    + apply elem_of_seqZ. lia.
Qed.

Lemma NoDup_plan_slots weeks per_week : NoDup (plan_slots weeks per_week).
Proof.
  unfold plan_slots. apply NoDup_bind.
  - intros w1 w2 [w d] _ _ H1 H2.
    apply list_elem_of_fmap in H1 as (d1 & [= -> _] & _).
    apply list_elem_of_fmap in H2 as (d2 & [= -> _] & _). done.
  - intros w _. apply NoDup_fmap_2; [| apply NoDup_seqZ].
    by intros d1 d2 [= ->].
  - apply NoDup_seqZ.
Qed.

(** In a list whose images under [f] are pairwise distinct, an image that
    occurs is the image of exactly one entry. *)
Lemma count_of_image_NoDup {A B} `{EqDecision B} (f : A → B) (l : list A) (y : B) :
  NoDup (f <$> l) → y ∈ f <$> l → length (filter (λ x, f x = y) l) = 1%nat.
Proof.
  induction l as [|x l IH]; intros Hnd Hin; [by apply elem_of_nil in Hin |].
  rewrite fmap_cons in Hnd, Hin. apply NoDup_cons in Hnd as [Hx Hnd].
  destruct (decide (f x = y)) as [Heq | Hne].
  - rewrite filter_cons_True by done. simpl. f_equal.
    destruct (filter (λ x0, f x0 = y) l) as [|z t] eqn:E; [done |].
    exfalso. assert (Hz : z ∈ filter (λ x0, f x0 = y) l) by (rewrite E; left).
    apply list_elem_of_filter in Hz as [Hf Hz]. apply Hx. rewrite Heq, <- Hf.
    by apply list_elem_of_fmap_2.
  - rewrite filter_cons_False by done. apply IH; [done |].
    apply elem_of_cons in Hin as [Hin | Hin]; [congruence | done].
Qed.

(** Entries with equal images are equal when the images are pairwise
    distinct. *)
Lemma NoDup_fmap_eq {A B} (f : A → B) (l : list A) (x y : A) :
  NoDup (f <$> l) → x ∈ l → y ∈ l → f x = f y → x = y.
Proof.
  induction l as [|z l IH]; [by intros _ ?%elem_of_nil |].
  rewrite fmap_cons, NoDup_cons, !elem_of_cons.
  intros [Hz Hnd] [-> | Hx] [-> | Hy] Heq; [done | | | by apply IH].
  - exfalso. apply Hz. rewrite Heq. by apply list_elem_of_fmap_2.
  - exfalso. apply Hz. rewrite <- Heq. by apply list_elem_of_fmap_2.
Qed.

Lemma recommend_total_weeks_pos profile : 0 < recommend_total_weeks profile.
Proof. unfold recommend_total_weeks, _rule_based_total_weeks. repeat case_decide; lia. Qed.

Lemma recommend_sessions_per_week_pos `{PySets} conds profile :
  0 < recommend_sessions_per_week conds profile.
Proof. unfold recommend_sessions_per_week. lia. Qed.

(** C3: a generated plan runs over the recommended number of weeks with
    the recommended number of sessions a week, both at least 1 and recorded
    in the plan; it holds [total_weeks * sessions_per_week] sessions, every
    (week, day) pair of [1..total_weeks] x [1..sessions_per_week] is the
    slot of exactly one of them, and no session lies outside that range. *)
Theorem generate_training_plan_one_session_per_slot `{PyLib} `{PySets} conds profile exercises :
  let plan := generate_training_plan conds profile exercises in
  let weeks := recommend_total_weeks profile in
  let per_week := recommend_sessions_per_week conds profile in
  TrainingPlan.total_weeks plan = weeks
  ∧ TrainingPlan.sessions_per_week plan = per_week
  ∧ 1 ≤ weeks
  ∧ 1 ≤ per_week
  ∧ Z.of_nat (length (TrainingPlan.sessions plan)) = weeks * per_week
  ∧ (∀ w d, 1 ≤ w ≤ weeks → 1 ≤ d ≤ per_week →
            length (filter (λ s, TrainingSession.week_index s = w
                                 ∧ TrainingSession.day_index s = d)
                           (TrainingPlan.sessions plan)) = 1%nat)
  ∧ (∀ s, s ∈ TrainingPlan.sessions plan →
          1 ≤ TrainingSession.week_index s ≤ weeks
          ∧ 1 ≤ TrainingSession.day_index s ≤ per_week).
Proof.
  intros plan weeks per_week.
  destruct (generate_training_plan_sessions conds profile exercises)
    as (Hper & Hweeks & Hidx & _).
  fold plan in Hper, Hweeks, Hidx. rewrite Hper, Hweeks in Hidx.
  fold weeks per_week in Hidx, Hper, Hweeks.
  pose proof (recommend_total_weeks_pos profile) as Hw1.
  pose proof (recommend_sessions_per_week_pos conds profile) as Hd1.
  fold weeks in Hw1. fold per_week in Hd1.
  split; [done |]. split; [done |]. split; [lia |]. split; [lia |].
  split; [| split].
  - rewrite <- (length_fmap session_index), Hidx, length_plan_slots. lia.
  - intros w d Hw Hd.
    rewrite <- (count_of_image_NoDup session_index (TrainingPlan.sessions plan) (w, d)).
    + f_equal. apply list_filter_iff. intros s. unfold session_index.
      split; [by intros [-> ->] | by intros [= -> ->]].
    + rewrite Hidx. apply NoDup_plan_slots.
    + rewrite Hidx. by apply elem_of_plan_slots.
  - intros s Hs. apply elem_of_plan_slots.
    rewrite <- Hidx. by apply (list_elem_of_fmap_2 session_index).
Qed.

(** C4: no session of a generated plan schedules an exercise id twice. *)
Theorem generate_training_plan_session_ids_unique `{PyLib} `{PySets} conds profile exercises :
  Forall (λ s, NoDup (PlannedExercise.exercise_id <$> TrainingSession.exercises s))
         (TrainingPlan.sessions (generate_training_plan conds profile exercises)).
Proof.
  destruct (generate_training_plan_sessions conds profile exercises) as (_ & _ & _ & Hall).
  eapply Forall_impl; [exact Hall |]. by intros s [Hnd _].
Qed.

(** ** The plan draws on the eligible pool only *)

Lemma elem_of_select_allowed_exercises `{PyLib} `{PySets} conds profile exercises ex :
  ex ∈ _select_allowed_exercises conds profile exercises
  ↔ exercise_allowed conds profile ex = true ∧ ex ∈ exercises.
Proof. unfold _select_allowed_exercises. by rewrite list_elem_of_filter. Qed.

(** An id a session schedules is the id of an exercise of the eligible
    pool. *)
Lemma session_ids_from_pool `{PyLib} `{PySets} conds profile exercises s i :
  s ∈ TrainingPlan.sessions (generate_training_plan conds profile exercises) →
  i ∈ session_ids s →
  ∃ ex, ex ∈ _select_allowed_exercises conds profile exercises ∧ Exercise.id ex = i.
Proof.
  intros Hs Hi.
  destruct (generate_training_plan_sessions conds profile exercises) as (_ & _ & _ & Hall).
  rewrite Forall_forall in Hall. destruct (Hall s Hs) as [_ [used Hids]].
  apply Hids, list_elem_of_fmap in Hi as (ex & -> & Hex).
  apply elem_of_main_block in Hex. by exists ex.
Qed.

(** C10: every planned exercise of a generated plan carries the id of an
    exercise of the input catalog that passes the eligibility filter. *)
Theorem generate_training_plan_ids_resolvable `{PyLib} `{PySets} conds profile exercises :
  Forall (λ s,
            Forall (λ planned,
                      ∃ ex, ex ∈ exercises
                            ∧ ex ∈ _select_allowed_exercises conds profile exercises
                            ∧ Exercise.id ex = PlannedExercise.exercise_id planned)
                   (TrainingSession.exercises s))
         (TrainingPlan.sessions (generate_training_plan conds profile exercises)).
Proof.
  apply Forall_forall. intros s Hs. apply Forall_forall. intros planned Hin.
  destruct (session_ids_from_pool conds profile exercises s
              (PlannedExercise.exercise_id planned) Hs) as (ex & Hex & Hid).
  { unfold session_ids. by apply list_elem_of_fmap_2. }
  exists ex. split; [| done].
  by apply elem_of_select_allowed_exercises in Hex as [_ ?].
Qed.

Lemma exercise_allowed_contraindicated `{PyLib} `{PySets} conds profile ex tag :
  tag ∈ get_risk_tags_for_profile conds profile →
  tag ∈ Exercise.contraindications ex →
  exercise_allowed conds profile ex = false.
Proof.
  intros Hrisk Hcontra. unfold exercise_allowed.
  assert (Hne : get_risk_tags_for_profile conds profile
                ∩ list_to_set (Exercise.contraindications ex) ≠ ∅).
  { intros He. apply (not_elem_of_empty (C:=gset string) tag). rewrite <- He.
    apply elem_of_intersection. split; [done |]. by apply elem_of_list_to_set. }
  rewrite (bool_decide_eq_true_2 _ Hne).
  repeat match goal with
         | |- context [bool_decide ?P] => destruct (bool_decide P)
         | |- context [decide ?P] => destruct (decide P)
         end; done.
Qed.

(** C1 as stated fails on a catalog that repeats an id: the jump squat is
    contraindicated for the joints of the knee profile and absent from the
    eligible pool, but the plank shares its id x and is planned, so that
    planned exercises carry the id of the contraindicated exercise. *)
Lemma shared_id_contraindicated_exercise_planned :
  jump_squat_x ∈ shared_id_catalog
  ∧ (∃ tag, tag ∈ @get_risk_tags_for_profile reference_sets knee_registry knee_profile
            ∧ tag ∈ Exercise.contraindications jump_squat_x)
  ∧ (jump_squat_x ∉ @_select_allowed_exercises reference_lib reference_sets
                       knee_registry knee_profile shared_id_catalog)
  ∧ Forall (λ s,
              Exists (λ planned,
                        PlannedExercise.exercise_id planned = Exercise.id jump_squat_x)
                     (TrainingSession.exercises s))
           (TrainingPlan.sessions
              (@generate_training_plan reference_lib reference_sets
                 knee_registry knee_profile shared_id_catalog))
  ∧ TrainingPlan.sessions
      (@generate_training_plan reference_lib reference_sets
         knee_registry knee_profile shared_id_catalog) ≠ [].
Proof.
  split; [right; left |]. split.
  { exists "суставы". split; [| left]. apply (bool_decide_unpack _). vm_compute. exact I. }
  split; [apply (bool_decide_unpack _); vm_compute; exact I |].
  split; [apply (bool_decide_unpack _); vm_compute; exact I |].
  by vm_compute.
Qed.

(** C1: an exercise of the catalog whose contraindication tags meet the
    profile's risk-tag set is absent from the eligible pool, and, the ids of
    the catalog being unique, no planned exercise of the generated plan
    carries its id. *)
Theorem contraindicated_exercise_never_planned `{PyLib} `{PySets} conds profile exercises ex :
  NoDup (Exercise.id <$> exercises) →
  ex ∈ exercises →
  (∃ tag, tag ∈ get_risk_tags_for_profile conds profile
          ∧ tag ∈ Exercise.contraindications ex) →
  (ex ∉ _select_allowed_exercises conds profile exercises)
  ∧ Forall (λ s,
              Forall (λ planned, PlannedExercise.exercise_id planned ≠ Exercise.id ex)
                     (TrainingSession.exercises s))
           (TrainingPlan.sessions (generate_training_plan conds profile exercises)).
Proof.
  intros Hnd Hex (tag & Hrisk & Hcontra).
  pose proof (exercise_allowed_contraindicated conds profile ex tag Hrisk Hcontra) as Hno.
  split.
  - intros [Hyes _]%elem_of_select_allowed_exercises. congruence.
  - apply Forall_forall. intros s Hs. apply Forall_forall. intros planned Hin Heq.
    destruct (session_ids_from_pool conds profile exercises s
                (PlannedExercise.exercise_id planned) Hs) as (ex' & Hallowed & Hid).
    { unfold session_ids. by apply list_elem_of_fmap_2. }
    apply elem_of_select_allowed_exercises in Hallowed as [Hyes Hin'].
    assert (ex' = ex) as ->.
    { apply (NoDup_fmap_eq Exercise.id exercises); [done | done | done | congruence]. }
    congruence.
Qed.

(** C1, the scenario of the specification: the jump squat, contraindicated
    for the joints, against a profile that names the knee-arthrosis
    condition. *)
Lemma contraindicated_exercise_never_planned_witness :
  (jump_squat ∉ @_select_allowed_exercises reference_lib reference_sets knee_registry knee_profile knee_catalog)
  ∧ Forall (λ s,
              Forall (λ planned,
                        PlannedExercise.exercise_id planned ≠ Exercise.id jump_squat)
                     (TrainingSession.exercises s))
           (TrainingPlan.sessions
              (@generate_training_plan reference_lib reference_sets knee_registry knee_profile knee_catalog)).
Proof.
  apply (@contraindicated_exercise_never_planned reference_lib reference_sets).
  - apply (bool_decide_unpack _). vm_compute. exact I.
  - left.
  - exists "суставы". split; [| left].
    apply (bool_decide_unpack _). vm_compute. exact I.
Defined.

(** ** The eligibility filter and the declared equipment *)

(** C7 as stated fails: at the gym an empty equipment list
    leaves the barbell squat eligible, and declaring a dumbbell removes it. *)
Lemma first_declared_equipment_removes_exercise :
  barbell_squat ∈ @_select_allowed_exercises reference_lib reference_sets ∅ gym_profile [barbell_squat]
  ∧ barbell_squat ∉ @_select_allowed_exercises reference_lib reference_sets ∅
                      (UserProfile.with_equipment
                         (UserProfile.available_equipment gym_profile ++ ["dumbbell"])
                         gym_profile)
                      [barbell_squat].
Proof.
  split.
  - apply (bool_decide_unpack _). vm_compute. exact I.
  - apply (bool_decide_unpack _). vm_compute. exact I.
Qed.

Lemma select_allowed_exercises_equipment_superset `{PyLib} `{PySets}
    conds profile equipment' exercises ex :
  UserProfile.preferred_location profile = "home"
  ∨ UserProfile.available_equipment profile ≠ [] →
  UserProfile.available_equipment profile ⊆ equipment' →
  ex ∈ _select_allowed_exercises conds profile exercises →
  ex ∈ _select_allowed_exercises conds (UserProfile.with_equipment equipment' profile)
         exercises.
Proof.
  intros Hcond Hsub [Hal Hin]%elem_of_select_allowed_exercises.
  apply elem_of_select_allowed_exercises. split; [| done].
  destruct profile as [g a wt ht act goal exp loc eq issues mx].
  unfold exercise_allowed, UserProfile.with_equipment in *. simpl in *.
  change (get_risk_tags_for_profile conds
            (UserProfile.mk g a wt ht act goal exp loc equipment' issues mx))
    with (get_risk_tags_for_profile conds
            (UserProfile.mk g a wt ht act goal exp loc eq issues mx)).
  set (user_eq := list_to_set (str_lower <$> eq) : gset string) in *.
  set (user_eq' := list_to_set (str_lower <$> equipment') : gset string).
  set (ex_eq := list_to_set (str_lower <$> Exercise.equipment ex) : gset string) in *.
  assert (Hsub' : user_eq ⊆ user_eq').
  { intros t. unfold user_eq, user_eq'. rewrite !elem_of_list_to_set, !list_elem_of_fmap.
    intros (e & -> & He). exists e. split; [done |]. by apply Hsub. }
  assert (Hmeet : ex_eq ∩ user_eq' = ∅ → ex_eq ∩ user_eq = ∅).
  { intros Hbad. apply elem_of_equiv_empty_L. intros t [Ht1 Ht2]%elem_of_intersection.
    apply (not_elem_of_empty (C:=gset string) t). rewrite <- Hbad.
    apply elem_of_intersection. split; [done |]. by apply Hsub'. }
  destruct (bool_decide (loc = "home" ∧ "home" ∉ Exercise.locations ex)); [done |].
  destruct (bool_decide (loc = "gym" ∧ "gym" ∉ Exercise.locations ex)); [done |].
  destruct (decide (loc = "home")) as [Hhome | Hhome].
  - destruct (bool_decide_reflect
                (ex_eq ≠ ∅ ∧ (user_eq = ∅ ∨ ex_eq ∩ user_eq = ∅))) as [| Hkeep]; [done |].
    rewrite bool_decide_eq_false_2; [done |].
    intros [Hne Hbad]. apply Hkeep. split; [done |].
    destruct Hbad as [Hbad | Hbad]; [left | right; by apply Hmeet].
    apply elem_of_equiv_empty_L. intros t Ht%Hsub'. rewrite Hbad in Ht.
    by apply not_elem_of_empty in Ht.
  - destruct (bool_decide_reflect
                (ex_eq ≠ ∅ ∧ user_eq ≠ ∅ ∧ ex_eq ∩ user_eq = ∅)) as [| Hkeep]; [done |].
    rewrite bool_decide_eq_false_2; [done |].
    intros (Hne & _ & Hbad). apply Hkeep. split; [done |].
    split; [| by apply Hmeet].
    destruct Hcond as [? | Heq]; [done |].
    destruct eq as [|e0 eq0]; [done |]. unfold user_eq. rewrite fmap_cons, list_to_set_cons.
    intros Hempty. apply (not_elem_of_empty (C:=gset string) (str_lower e0)).
    rewrite <- Hempty. apply elem_of_union_l. by apply elem_of_singleton.
Qed.

(** C7 (amended): for a profile that trains at home or has already declared
    some equipment, adding an item to the declared equipment removes no
    exercise from the eligible pool. *)
Theorem select_allowed_exercises_monotone_in_equipment `{PyLib} `{PySets}
    conds profile item exercises ex :
  UserProfile.preferred_location profile = "home"
  ∨ UserProfile.available_equipment profile ≠ [] →
  ex ∈ _select_allowed_exercises conds profile exercises →
  ex ∈ _select_allowed_exercises conds
         (UserProfile.with_equipment (UserProfile.available_equipment profile ++ [item])
            profile)
         exercises.
Proof.
  intros Hcond. apply select_allowed_exercises_equipment_superset; [done |].
  intros e He. apply elem_of_app. by left.
Qed.

(** C7, an instance: a gym profile that owns a barbell declares a dumbbell
    as well and keeps the barbell squat. *)
Lemma select_allowed_exercises_monotone_in_equipment_witness :
  barbell_squat
  ∈ @_select_allowed_exercises reference_lib reference_sets ∅
      (UserProfile.with_equipment
         (UserProfile.available_equipment
            (UserProfile.with_equipment ["barbell"] gym_profile) ++ ["dumbbell"])
         (UserProfile.with_equipment ["barbell"] gym_profile))
      [barbell_squat].
Proof.
  apply (@select_allowed_exercises_monotone_in_equipment reference_lib reference_sets).
  - right. simpl. discriminate.
  - apply (bool_decide_unpack _). vm_compute. exact I.
Defined.

(** ** The ranker *)

Lemma StronglySorted_weaken {A} (R1 R2 : relation A) (l : list A) :
  (∀ x y, R1 x y → R2 x y) → StronglySorted R1 l → StronglySorted R2 l.
Proof.
  intros HR. induction 1 as [|x l Hs IH Hx]; constructor; [done |].
  eapply Forall_impl; [exact Hx | exact (HR x)].
Qed.

Section SortedFacts.
Context {A K : Type} (leb : K → K → bool) (key : A → K).
Context (leb_total : ∀ x y, leb x y = false → leb y x = true).
Context (leb_trans : ∀ x y z, leb x y = true → leb y z = true → leb x z = true).

Lemma insert_sorted_StronglySorted x l :
  StronglySorted (λ a b, leb (key a) (key b) = true) l →
  StronglySorted (λ a b, leb (key a) (key b) = true) (insert_sorted leb key x l).
Proof.
  induction l as [|y l IH]; intros Hs; simpl.
  - repeat constructor.
  - apply StronglySorted_inv in Hs as [Hs Hy].
    destruct (leb (key x) (key y)) eqn:Hxy.
    + constructor; [by constructor |].
      constructor; [done |].
      eapply Forall_impl; [exact Hy |]. simpl. intros z Hz. by eapply leb_trans.
    + constructor; [by apply IH |].
      rewrite insert_sorted_Permutation. constructor; [by apply leb_total | done].
Qed.

Lemma sort_by_key_StronglySorted l :
  StronglySorted (λ a b, leb (key a) (key b) = true) (sort_by_key leb key l).
Proof.
  induction l as [|x l IH]; [constructor |].
  unfold sort_by_key in *. simpl. by apply insert_sorted_StronglySorted.
Qed.
End SortedFacts.

(** The stable insertion argsort meets the contract. *)
Lemma stable_argsort_argsort_of keys : argsort_of keys (stable_argsort keys).
Proof.
  unfold argsort_of, stable_argsort. split; [apply sort_by_key_Permutation |].
  eapply StronglySorted_weaken;
    [| apply (sort_by_key_StronglySorted Qle_bool (λ i, default 0%Q (keys !! i)))].
  - intros i j Hle. by apply Qle_bool_iff.
  - intros x y Hxy. apply Qle_bool_iff.
    destruct (Qlt_le_dec y x) as [Hlt | Hle]; [by apply Qlt_le_weak |].
    exfalso. apply Qle_bool_iff in Hle. congruence.
  - intros x y z ?%Qle_bool_iff ?%Qle_bool_iff. apply Qle_bool_iff. by eapply Qle_trans.
Qed.

(** So does the argsort that reverses ties: the contract leaves their order
    open, and the ranking follows the argsort. Two exercises with equal
    scores come back in input order under the one, swapped under the other. *)
Lemma tie_reversing_argsort_argsort_of keys : argsort_of keys (tie_reversing_argsort keys).
Proof.
  unfold argsort_of, tie_reversing_argsort. split.
  - rewrite sort_by_key_Permutation. apply reverse_Permutation.
  - eapply StronglySorted_weaken;
      [| apply (sort_by_key_StronglySorted Qle_bool (λ i, default 0%Q (keys !! i)))].
    + intros i j Hle. by apply Qle_bool_iff.
    + intros x y Hxy. apply Qle_bool_iff.
      destruct (Qlt_le_dec y x) as [Hlt | Hle]; [by apply Qlt_le_weak |].
      exfalso. apply Qle_bool_iff in Hle. congruence.
    + intros x y z ?%Qle_bool_iff ?%Qle_bool_iff. apply Qle_bool_iff. by eapply Qle_trans.
Qed.

Example rank_tie_order_follows_argsort :
  let a := sample_exercise "a" "Curl" ["бицепс"] "strength" in
  let b := sample_exercise "b" "Plank" ["пресс"] "strength" in
  @relevance_scores reference_lib "weight_loss" [a; b] = [0%Q; 0%Q]
  ∧ @rank_exercises_for_goal reference_lib "weight_loss" [a; b] None = [a; b]
  ∧ @rank_exercises_for_goal tie_reversing_lib "weight_loss" [a; b] None = [b; a].
Proof. by vm_compute. Qed.

Lemma take_indices_seq_app {A} (p l : list A) :
  omap (λ i, (p ++ l) !! i) (seq (length p) (length l)) = l.
Proof.
  revert p. induction l as [|x l IH]; intros p; [done |].
  cbn [length seq omap list_omap]. fold (@omap list _ nat A).
  rewrite list_lookup_middle by done. f_equal.
  rewrite (cons_middle x p l), app_assoc.
  replace (S (length p)) with (length (p ++ [x])) by (rewrite length_app; simpl; lia).
  apply IH.
Qed.

Lemma take_indices_seq {A} (l : list A) : take_indices l (seq 0 (length l)) = l.
Proof. apply (take_indices_seq_app [] l). Qed.

Lemma take_indices_Permutation {A} (l : list A) order :
  order ≡ₚ seq 0 (length l) → take_indices l order ≡ₚ l.
Proof.
  intros Hp. transitivity (take_indices l (seq 0 (length l))).
  - unfold take_indices. by rewrite Hp.
  - by rewrite take_indices_seq.
Qed.

Lemma take_indices_take {A} (l : list A) order n :
  Forall (λ i, (i < length l)%nat) order →
  take_indices l (take n order) = take n (take_indices l order).
Proof.
  intros Hvalid. revert n. induction Hvalid as [|i order Hi _ IH]; intros n.
  - by destruct n.
  - destruct n as [|n]; [done |].
    apply lookup_lt_is_Some_2 in Hi as [x Hx].
    unfold take_indices in *. cbn [take omap list_omap]. fold (@omap list _ nat A).
    rewrite Hx. cbn [take]. f_equal. apply IH.
Qed.

Lemma argsort_indices_valid (order : list nat) n :
  order ≡ₚ seq 0 n → Forall (λ i, (i < n)%nat) order.
Proof.
  intros Hp. apply Forall_forall. intros i Hi. rewrite Hp in Hi.
  apply elem_of_seq in Hi. lia.
Qed.

Lemma key_at_opp (scores : list Q) i :
  key_at (Qopp <$> scores) i = Qopp (key_at scores i).
Proof. unfold key_at. rewrite list_lookup_fmap. by destruct (scores !! i). Qed.

(** C6 as stated fails: asked for at most 0 exercises the
    ranker returns one, from a corpus of seven as from a corpus of one. *)
Lemma rank_exercises_for_goal_returns_one_for_zero :
  length (@rank_exercises_for_goal reference_lib "weight_loss" strength_catalog (Some 0))
  = 1%nat
  ∧ length (@rank_exercises_for_goal reference_lib "weight_loss" [barbell_squat] (Some 0))
    = 1%nat.
Proof. split; by vm_compute. Qed.

(** C6 (amended): given that the vectorizer scored every document and that
    [order] is an argsort of the negated scores, the ranker returns a corpus
    of 0 or 1 exercises unchanged; for a larger corpus and no [max_items] it
    returns the exercises at the indices of [order], a permutation of the
    input in non-increasing order of score (ties as the argsort left them);
    with [max_items] it returns the first [max(1, max_items)] of that
    sequence, hence at most [max_items] exercises when [max_items >= 1]. *)
Theorem rank_exercises_for_goal_spec `{PyLib} goal exercises :
  length (relevance_scores goal exercises) = length exercises →
  argsort_of (Qopp <$> relevance_scores goal exercises) (relevance_order goal exercises) →
  let ranked := rank_exercises_for_goal goal exercises None in
  let score := key_at (relevance_scores goal exercises) in
  ((length exercises ≤ 1)%nat →
   ∀ max_items, rank_exercises_for_goal goal exercises max_items = exercises)
  ∧ ((2 ≤ length exercises)%nat →
     ranked = take_indices exercises (relevance_order goal exercises)
     ∧ relevance_order goal exercises ≡ₚ seq 0 (length exercises)
     ∧ StronglySorted (λ i j, (score j <= score i)%Q) (relevance_order goal exercises))
  ∧ ranked ≡ₚ exercises
  ∧ (∀ max_items,
       rank_exercises_for_goal goal exercises (Some max_items)
       = take (Z.to_nat (Z.max 1 max_items)) ranked
       ∧ length (rank_exercises_for_goal goal exercises (Some max_items))
         = (Z.to_nat (Z.max 1 max_items) `min` length exercises)%nat
       ∧ (1 ≤ max_items →
          Z.of_nat (length (rank_exercises_for_goal goal exercises (Some max_items)))
          ≤ max_items)).
Proof.
  intros Hlen [Hperm Hsorted] ranked score.
  rewrite length_fmap, Hlen in Hperm.
  assert (Hranked : ranked ≡ₚ exercises).
  { unfold ranked, rank_exercises_for_goal. case_decide; [done |].
    by apply take_indices_Permutation. }
  assert (Hsome : ∀ max_items,
             rank_exercises_for_goal goal exercises (Some max_items)
             = take (Z.to_nat (Z.max 1 max_items)) ranked).
  { intros m. unfold ranked, rank_exercises_for_goal. case_decide.
    - rewrite take_ge; [done | lia].
    - unfold py_slice_to. rewrite decide_True by lia.
      apply take_indices_take. by apply argsort_indices_valid. }
  split; [| split; [| split; [done |]]].
  - intros Hle max_items. unfold rank_exercises_for_goal. by rewrite decide_True.
  - intros Hge. split; [| split; [done |]].
    + unfold ranked, rank_exercises_for_goal. rewrite decide_False by lia. done.
    + eapply StronglySorted_weaken; [| exact Hsorted].
      intros i j. unfold score. rewrite !key_at_opp. intros Hij. simpl in Hij. lra.
  - intros m.
    assert (Hl : length (rank_exercises_for_goal goal exercises (Some m))
                 = (Z.to_nat (Z.max 1 m) `min` length exercises)%nat).
    { rewrite Hsome, length_take. by rewrite Hranked. }
    split; [apply Hsome |]. split; [done |]. intros Hm. rewrite Hl. lia.
Qed.

(** C6, an instance: the seven strength exercises ranked for weight loss
    under the reference library, whose argsort meets the contract. *)
Lemma rank_exercises_for_goal_spec_witness :
  length (@relevance_scores reference_lib "weight_loss" strength_catalog)
  = length strength_catalog
  ∧ argsort_of (Qopp <$> @relevance_scores reference_lib "weight_loss" strength_catalog)
               (@relevance_order reference_lib "weight_loss" strength_catalog)
  ∧ @rank_exercises_for_goal reference_lib "weight_loss" strength_catalog None
    ≡ₚ strength_catalog.
Proof.
  assert (Hlen : length (@relevance_scores reference_lib "weight_loss" strength_catalog)
                 = length strength_catalog) by (vm_compute; reflexivity).
  assert (Hsort : argsort_of
                    (Qopp <$> @relevance_scores reference_lib "weight_loss" strength_catalog)
                    (@relevance_order reference_lib "weight_loss" strength_catalog))
    by apply stable_argsort_argsort_of.
  split; [exact Hlen |]. split; [exact Hsort |].
  exact (proj1 (proj2 (proj2
    (@rank_exercises_for_goal_spec reference_lib "weight_loss" strength_catalog
       Hlen Hsort)))).
Defined.

(** ** Determinism: the registry cache and the iteration order of sets *)

(** After a call the cache holds the registry the call returned. *)
Lemma _load_conditions_caches w :
  _conditions_by_id (_load_conditions w).2 = Some (_load_conditions w).1.
Proof.
  unfold _load_conditions.
  destruct (_conditions_by_id w) eqn:Hc; [done |].
  by destruct (conditions_file w).
Qed.

(** A later call returns the cached registry and leaves the state alone,
    whatever the document on disk has become. *)
Lemma _load_conditions_again w file :
  _load_conditions (with_conditions_file file (_load_conditions w).2)
  = ((_load_conditions w).1, with_conditions_file file (_load_conditions w).2).
Proof.
  unfold _load_conditions at 1. unfold with_conditions_file at 1. simpl.
  by rewrite _load_conditions_caches.
Qed.

Lemma foldr_min_lower (x : Z) (l : list Z) (y : Z) :
  y ∈ x :: l → foldr Z.min x l ≤ y.
Proof.
  destruct (foldr_min_le x l) as [Hx Hl].
  intros [-> | Hy]%elem_of_cons; [done |].
  rewrite Forall_forall in Hl. by apply Hl.
Qed.

(** [min(limits)] does not depend on the order of [limits]. *)
Lemma min_of_limits_Permutation (l l' : list Z) :
  l ≡ₚ l' →
  match l with [] => None | x :: rest => Some (foldr Z.min x rest) end
  = match l' with [] => None | x :: rest => Some (foldr Z.min x rest) end.
Proof.
  intros Hp. destruct l as [|x rest], l' as [|x' rest']; [done | | |].
  - by apply Permutation_nil_cons in Hp.
  - symmetry in Hp. by apply Permutation_nil_cons in Hp.
  - f_equal. apply Z.le_antisymm; apply foldr_min_lower.
    + rewrite Hp. apply foldr_min_elem.
    + rewrite <- Hp. apply foldr_min_elem.
Qed.

Lemma foldl_comm_Permutation {A B} (f : A → B → A) (l l' : list B) :
  (∀ a x y, f (f a x) y = f (f a y) x) →
  l ≡ₚ l' → ∀ a, foldl f a l = foldl f a l'.
Proof.
  intros Hcomm Hp. induction Hp as [| x l l' _ IH | x y l | l l' l'' _ IH1 _ IH2];
    intros a; simpl.
  - done.
  - apply IH.
  - by rewrite Hcomm.
  - by rewrite IH1.
Qed.

Section IterationOrder.
Context (sets sets' : PySets).
Context (Hsets : visits_each_once sets) (Hsets' : visits_each_once sets').

Lemma set_iter_Permutation s : @set_iter sets s ≡ₚ @set_iter sets' s.
Proof. by rewrite (Hsets s), (Hsets' s). Qed.

Lemma get_sessions_limit_for_profile_any_order conds profile :
  @get_sessions_limit_for_profile sets conds profile
  = @get_sessions_limit_for_profile sets' conds profile.
Proof.
  unfold get_sessions_limit_for_profile. case_decide; [done |].
  apply min_of_limits_Permutation. by rewrite set_iter_Permutation.
Qed.

Lemma get_risk_tags_for_profile_any_order conds profile :
  @get_risk_tags_for_profile sets conds profile
  = @get_risk_tags_for_profile sets' conds profile.
Proof.
  unfold get_risk_tags_for_profile.
  rewrite (foldl_comm_Permutation _
             (@set_iter sets (list_to_set (UserProfile.health_issues profile)))
             (@set_iter sets' (list_to_set (UserProfile.health_issues profile)))).
  - apply foldl_comm_Permutation.
    + intros tags a b. destruct (conds !! a), (conds !! b); try done.
      by rewrite <- !(assoc_L (∪)), (comm_L (∪) (condition_tags a _)).
    + apply set_iter_Permutation.
  - intros tags a b. repeat case_decide; try done.
    by rewrite <- !(assoc_L (∪)), (comm_L (∪) {[ a ]}).
  - apply set_iter_Permutation.
Qed.

Lemma recommend_sessions_per_week_any_order conds profile :
  @recommend_sessions_per_week sets conds profile
  = @recommend_sessions_per_week sets' conds profile.
Proof.
  unfold recommend_sessions_per_week.
  by rewrite get_sessions_limit_for_profile_any_order.
Qed.

Lemma select_allowed_exercises_any_order `{PyLib} conds profile exercises :
  @_select_allowed_exercises _ sets conds profile exercises
  = @_select_allowed_exercises _ sets' conds profile exercises.
Proof.
  unfold _select_allowed_exercises. apply list_filter_iff. intros ex.
  unfold exercise_allowed. by rewrite get_risk_tags_for_profile_any_order.
Qed.

Lemma generate_training_plan_any_order `{PyLib} conds profile exercises :
  @generate_training_plan _ sets conds profile exercises
  = @generate_training_plan _ sets' conds profile exercises.
Proof.
  unfold generate_training_plan.
  by rewrite recommend_sessions_per_week_any_order, select_allowed_exercises_any_order.
Qed.
End IterationOrder.

(** C9: generating again from the same profile and catalog reproduces the
    plan: in the same process, where the registry comes from the cache
    whatever became of the document on disk, and from the same process
    state under another iteration order of Python's sets. *)
Theorem generate_training_plan_deterministic `{PyLib} (sets sets' : PySets)
    profile exercises w file :
  visits_each_once sets → visits_each_once sets' →
  let first := @run_generate_training_plan _ sets profile exercises w in
  (@run_generate_training_plan _ sets profile exercises
     (with_conditions_file file first.2)).1 = first.1
  ∧ (@run_generate_training_plan _ sets profile exercises
       (with_conditions_file file first.2)).2 = with_conditions_file file first.2
  ∧ (@run_generate_training_plan _ sets' profile exercises w).1 = first.1.
Proof.
  intros Hsets Hsets'. unfold run_generate_training_plan. simpl.
  destruct (_load_conditions w) as [conds w1] eqn:Hload. simpl.
  pose proof (_load_conditions_again w file) as Hagain. rewrite Hload in Hagain.
  simpl in Hagain. rewrite Hagain. simpl.
  split; [done |]. split; [done |].
  by apply generate_training_plan_any_order.
Qed.

(** C9, an instance: a profile with two registry conditions and a legacy
    tag, planned from a process that has not read the registry yet, with
    the sets visited in one order and in the opposite one. *)
Lemma generate_training_plan_deterministic_witness :
  (@run_generate_training_plan reference_lib reversed_sets
     two_condition_profile strength_catalog fresh_world).1
  = (@run_generate_training_plan reference_lib reference_sets
       two_condition_profile strength_catalog fresh_world).1.
Proof.
  refine (proj2 (proj2
    (@generate_training_plan_deterministic reference_lib reference_sets reversed_sets
       two_condition_profile strength_catalog fresh_world None _ _))).
  - intros s. reflexivity.
  - intros s. simpl. apply reverse_Permutation.
Defined.

(** ** The risk tags of a profile *)

Lemma elem_of_foldl_union {B} (g : B → gset string)
    (f : gset string → B → gset string) (l : list B) (init : gset string) (t : string) :
  (∀ tags x, f tags x = tags ∪ g x) →
  t ∈ foldl f init l ↔ t ∈ init ∨ ∃ x, x ∈ l ∧ t ∈ g x.
Proof.
  intros Hf. revert init. induction l as [|x l IH]; intros init; simpl.
  - split; [by left |]. intros [? | (x & Hx & _)]; [done |]. by apply elem_of_nil in Hx.
  - rewrite IH, Hf, elem_of_union. split.
    + intros [[? | ?] | (y & Hy & ?)].
      * by left.
      * right. exists x. split; [left | done].
      * right. exists y. split; [by right | done].
    + intros [? | (y & [-> | Hy]%elem_of_cons & ?)].
      * left. by left.
      * left. by right.
      * right. by exists y.
Qed.

(** The risk tags are the health-issue entries the registry does not know,
    kept as they are, and the tags of the conditions it does know. *)
Lemma elem_of_get_risk_tags_for_profile `{sets : PySets} conds profile tag :
  visits_each_once sets →
  tag ∈ get_risk_tags_for_profile conds profile
  ↔ (tag ∈ UserProfile.health_issues profile ∧ conds !! tag = None)
    ∨ ∃ cid cond, cid ∈ UserProfile.health_issues profile
                  ∧ conds !! cid = Some cond
                  ∧ tag ∈ condition_tags cid cond.
Proof.
  intros Hiter. unfold visits_each_once in Hiter. unfold get_risk_tags_for_profile.
  rewrite (elem_of_foldl_union
             (λ cid, match conds !! cid with
                     | Some cond => condition_tags cid cond
                     | None => ∅
                     end));
    [| intros tags cid; destruct (conds !! cid); [done | by rewrite (right_id_L ∅ (∪))]].
  rewrite (elem_of_foldl_union
             (λ item, if decide (item ∉ _known_condition_ids conds)
                      then {[ item ]} else ∅));
    [| intros tags item; case_decide; [done | by rewrite (right_id_L ∅ (∪))]].
  unfold _known_condition_ids. split.
  - intros [[Hempty | (item & Hitem & Htag)] | (cid & Hcid & Htag)].
    + by apply not_elem_of_empty in Hempty.
    + left. rewrite Hiter in Hitem. apply elem_of_elements, elem_of_list_to_set in Hitem.
      case_decide as Hk; [| by apply not_elem_of_empty in Htag].
      apply elem_of_singleton in Htag as ->. split; [done |].
      by apply not_elem_of_dom.
    + right. rewrite Hiter in Hcid.
      apply elem_of_elements, elem_of_extract_condition_ids in Hcid as [Hcid _].
      destruct (conds !! cid) as [cond|] eqn:Hc; [| by apply not_elem_of_empty in Htag].
      by exists cid, cond.
  - intros [[Hin Hnone] | (cid & cond & Hin & Hc & Htag)].
    + left. right. exists tag. split.
      * rewrite Hiter. by apply elem_of_elements, elem_of_list_to_set.
      * rewrite decide_True; [by apply elem_of_singleton |]. by apply not_elem_of_dom.
    + right. exists cid. split.
      * rewrite Hiter. apply elem_of_elements, elem_of_extract_condition_ids.
        rewrite Hc. eauto.
      * by rewrite Hc.
Qed.

(** Where the registry knows none of the profile's health issues, the risk
    tags are the health issues themselves and the baseline follows them. *)
Lemma rule_based_sessions_follows_risk_tags_without_conditions
    `{sets : PySets} conds profile :
  visits_each_once sets →
  (∀ issue, issue ∈ UserProfile.health_issues profile → conds !! issue = None) →
  _rule_based_sessions_per_week profile
  = spec_rule_based_sessions (get_risk_tags_for_profile conds profile) profile.
Proof.
  intros Hiter Hnone.
  destruct (rule_based_sessions_per_week_baseline profile) as [-> _].
  unfold spec_rule_based_sessions, spec_baseline_score.
  assert (Htags : ∀ tag, tag ∈ get_risk_tags_for_profile conds profile
                         ↔ tag ∈ (list_to_set (UserProfile.health_issues profile)
                                    : gset string)).
  { intros tag. rewrite elem_of_get_risk_tags_for_profile by done.
    rewrite elem_of_list_to_set. split.
    - intros [[? _] | (cid & cond & Hin & Hc & _)]; [done |].
      rewrite (Hnone cid Hin) in Hc. done.
    - intros Hin. left. split; [done |]. by apply Hnone. }
  rewrite (decide_ext
             ("сердце" ∈ get_risk_tags_for_profile conds profile
              ∨ "суставы" ∈ get_risk_tags_for_profile conds profile)
             ("сердце" ∈ (list_to_set (UserProfile.health_issues profile) : gset string)
              ∨ "суставы" ∈ (list_to_set (UserProfile.health_issues profile) : gset string)))
    by (by rewrite !Htags).
  reflexivity.
Qed.

(** ** Padding the main block *)

Lemma length_take_indices_le {A} (l : list A) order :
  (length (take_indices l order) ≤ length order)%nat.
Proof.
  unfold take_indices. induction order as [|i order IH]; [done |].
  cbn [omap list_omap]. fold (@omap list _ nat A).
  destruct (l !! i); simpl; lia.
Qed.

(** A shorter prefix of the order selects nothing new. *)
Lemma take_indices_take_mono {A} (l : list A) order k k' x :
  (k ≤ k')%nat →
  x ∈ take_indices l (take k order) → x ∈ take_indices l (take k' order).
Proof.
  intros Hk. unfold take_indices. rewrite !list_elem_of_omap.
  intros (i & Hi & Hx). exists i. split; [| done].
  apply elem_of_take in Hi as (j & Hj & Hlt). apply elem_of_take. exists j. split; [done | lia].
Qed.

(** When the first five indices select nothing, the first six select at
    most one exercise. *)
Lemma take_indices_one_more {A} (l : list A) order :
  take_indices l (take 5 order) = [] →
  (length (take_indices l (take 6 order)) ≤ 1)%nat.
Proof.
  intros Hnil. change 6%nat with (5 + 1)%nat. rewrite <- (take_take_drop order 5 1).
  unfold take_indices in *. rewrite omap_app, Hnil. simpl.
  etrans; [apply (length_take_indices_le l) |]. rewrite length_take. lia.
Qed.

Section PaddingFacts.
Context `{PyLib}.

Lemma pick_exercises_none all_ex ty kw n goal used :
  (∀ ex, ex ∈ all_ex → Exercise.exercise_type ex ≠ ty) →
  _pick_exercises all_ex ty kw n goal used = [].
Proof.
  intros Hno. unfold _pick_exercises.
  rewrite decide_True; [done |].
  destruct (filter _ all_ex) as [|ex rest] eqn:Hf; [done |].
  assert (Hin : ex ∈ filter (λ ex, matches_request ty kw ex = true) all_ex)
    by (rewrite Hf; left).
  apply list_elem_of_filter in Hin as [Hm Hin].
  unfold matches_request in Hm. case_decide; [done |].
  exfalso. by eapply Hno.
Qed.

(** The five requested picks and the pad that follows them draw on the same
    ranking: together they hold at most five distinct exercises. *)
Lemma pick_then_pad_covered all_ex ty goal used :
  goal ≠ "" →
  let first := _pick_exercises all_ex ty None 5 goal used in
  let extra :=
    _pick_exercises all_ex ty None (6 - Z.of_nat (length first)) goal used in
  (length first ≤ 5)%nat
  ∧ ∃ cover : list Exercise.t,
      (length cover ≤ 5)%nat ∧ ∀ x, x ∈ first ++ extra → x ∈ cover.
Proof.
  intros Hgoal. unfold _pick_exercises.
  set (filtered := filter _ all_ex).
  destruct (decide (filtered = [])) as [_ | _].
  { simpl. split; [lia |]. exists []. split; [simpl; lia | done]. }
  set (pool := if decide (used ≠ ∅) then _ else filtered).
  rewrite !decide_True by done. unfold rank_exercises_for_goal.
  destruct (decide (length pool ≤ 1)%nat) as [Hshort | Hlong].
  { simpl. split; [lia |]. exists pool. split; [lia |].
    intros x. rewrite elem_of_app. tauto. }
  set (order := relevance_order goal pool).
  assert (Hfirst : py_slice_to order (1 `max` 5) = take 5 order).
  { unfold py_slice_to. by rewrite decide_True by lia. }
  rewrite Hfirst.
  set (first := take_indices pool (take 5 order)).
  assert (Hlen : (length first ≤ 5)%nat).
  { etrans; [apply length_take_indices_le |]. rewrite length_take. lia. }
  simpl. split; [done |].
  unfold py_slice_to. rewrite decide_True by lia.
  destruct (decide (length first = 0%nat)) as [Hzero | Hpos].
  - rewrite Hzero. apply length_zero_iff_nil in Hzero.
    exists (take_indices pool (take 6 order)).
    split; [etrans; [by apply take_indices_one_more | lia] |].
    intros x. rewrite Hzero. simpl. done.
  - exists first. split; [done |].
    intros x [Hx | Hx]%elem_of_app; [done |].
    eapply take_indices_take_mono; [| exact Hx]. lia.
Qed.

(** For the goal weight_loss and a pool without cardio, the ids of a day's
    main block lie among those of at most five exercises. *)
Lemma weight_loss_main_block_covered profile allowed d used :
  UserProfile.goal profile = "weight_loss" →
  (∀ ex, ex ∈ allowed → Exercise.exercise_type ex ≠ "cardio") →
  ∃ cover : list Exercise.t,
    (length cover ≤ 5)%nat
    ∧ ∀ x, x ∈ main_block profile allowed d used → x ∈ cover.
Proof.
  intros Hgoal Hno.
  pose proof (pick_then_pad_covered allowed "strength" "weight_loss" used) as Hpad.
  cbv zeta in Hpad. destruct Hpad as (Hlen & cover & Hcover & Hin); [done |].
  exists cover. split; [done |].
  assert (Htemplate : template_block profile allowed d used
                      = _pick_exercises allowed "strength" None 5 "weight_loss" used).
  { unfold template_block. rewrite Hgoal. simpl.
    rewrite (pick_exercises_none allowed "cardio") by done. by rewrite app_nil_r. }
  assert (Hmin : min_main profile = 6).
  { unfold min_main. by rewrite Hgoal. }
  intros x. unfold main_block. rewrite Htemplate, Hmin, Hgoal.
  destruct (decide (Z.of_nat (length (_pick_exercises allowed "strength" None 5
                                        "weight_loss" used)) < 6)) as [_ | Hge]; [| lia].
  case_decide; [rewrite elem_of_sort_by_key |]; apply Hin.
Qed.
End PaddingFacts.

(** C5 does not hold of the code: the pad is ranked over the same
    candidates as the block it tops up, so it returns exercises the block
    already holds and the session's deduplication drops them. For the goal
    weight_loss and a catalog whose eligible pool holds no cardio exercise,
    every session of the plan schedules at most 5 exercises, short of the
    minimum of 6, however many strength exercises are eligible. *)
Theorem weight_loss_sessions_below_minimum `{PyLib} `{PySets} conds profile exercises :
  UserProfile.goal profile = "weight_loss" →
  (∀ ex, ex ∈ _select_allowed_exercises conds profile exercises →
         Exercise.exercise_type ex ≠ "cardio") →
  Forall (λ s, Z.of_nat (length (TrainingSession.exercises s)) < min_main profile)
         (TrainingPlan.sessions (generate_training_plan conds profile exercises)).
Proof.
  intros Hgoal Hno.
  destruct (generate_training_plan_sessions conds profile exercises) as (_ & _ & _ & Hall).
  eapply Forall_impl; [exact Hall |].
  intros s [Hnd [used Hids]].
  destruct (weight_loss_main_block_covered profile
              (_select_allowed_exercises conds profile exercises)
              (TrainingSession.day_index s) used Hgoal Hno)
    as (cover & Hlen & Hcover).
  assert (Hsub : session_ids s ⊆+ Exercise.id <$> cover).
  { apply NoDup_submseteq; [done |].
    intros i Hi. apply Hids, list_elem_of_fmap in Hi as (x & -> & Hx).
    apply list_elem_of_fmap_2. by apply Hcover. }
  apply submseteq_length in Hsub.
  unfold session_ids in Hsub. rewrite !length_fmap in Hsub.
  unfold min_main. rewrite Hgoal. simpl. lia.
Qed.

(** C5, the failing input: seven distinct strength exercises are eligible,
    and no session of the plan for weight loss reaches the minimum of six. *)
Lemma weight_loss_sessions_below_minimum_witness :
  length (@_select_allowed_exercises reference_lib reference_sets ∅
            (sample_profile "weight_loss" [] 3) strength_catalog) = 7%nat
  ∧ NoDup (Exercise.id <$> strength_catalog)
  ∧ Forall (λ s, Z.of_nat (length (TrainingSession.exercises s))
                 < min_main (sample_profile "weight_loss" [] 3))
           (TrainingPlan.sessions
              (@generate_training_plan reference_lib reference_sets ∅
                 (sample_profile "weight_loss" [] 3) strength_catalog)).
Proof.
  split; [by vm_compute |]. split.
  - apply (bool_decide_unpack _). vm_compute. exact I.
  - apply (@weight_loss_sessions_below_minimum reference_lib reference_sets).
    + reflexivity.
    + intros ex Hex. apply elem_of_select_allowed_exercises in Hex as [_ Hex].
      unfold strength_catalog in Hex.
      repeat (apply elem_of_cons in Hex as [-> | Hex]; [discriminate |]).
      by apply elem_of_nil in Hex.
Defined.

(** With the reference ranking the first day of that plan holds five of the
    seven exercises and the second day the two that are left. *)
Example weight_loss_first_two_days :
  session_ids <$> take 2 (TrainingPlan.sessions
                            (@generate_training_plan reference_lib reference_sets ∅
                               (sample_profile "weight_loss" [] 3) strength_catalog))
  = [["s1"; "s3"; "s6"; "s7"; "s2"]; ["s4"; "s5"]].
Proof. by vm_compute. Qed.

(** ** Scenarios of the specification *)

(** A condition capped at two sessions a week caps the cadence at two. *)
Example capped_condition_scenario :
  @recommend_sessions_per_week reference_sets knee_registry knee_profile = 2.
Proof. by vm_compute. Qed.

(** muscle_gain, intermediate, gym, no health issues: the baseline is 4 and
    the programme runs 12 weeks; on cycle week 1 the strength prescription
    is 3 x 10. *)
Example muscle_gain_scenario :
  _rule_based_sessions_per_week (sample_profile "muscle_gain" [] 3) = 4
  ∧ recommend_total_weeks (sample_profile "muscle_gain" [] 3) = 12
  ∧ week_load (sample_profile "muscle_gain" [] 3) 1 = (3, 10, 720).
Proof. by vm_compute. Qed.

(** Loading the registry document skips the entry without an id and the
    entry that is no object, and fills the cache. *)
Example load_conditions_scenario :
  dom (_load_conditions fresh_world).1
  = ({[ "joint_knee_arthrosis"; "cardio_hypertension" ]} : gset string)
  ∧ Condition.sessions_per_week_max
      <$> (_load_conditions fresh_world).1 !! "cardio_hypertension" = Some (Some 2)
  ∧ is_Some (_conditions_by_id (_load_conditions fresh_world).2).
Proof.
  split; [| split].
  - apply (bool_decide_unpack _). vm_compute. exact I.
  - vm_compute. reflexivity.
  - rewrite _load_conditions_caches. by eexists.
Qed.

(** * Further properties of the code *)

(** ** The picker *)

Section PickerProperties.
Context `{PyLib}.

Lemma length_rank_exercises_for_goal_le goal exercises n :
  1 ≤ n → Z.of_nat (length (rank_exercises_for_goal goal exercises (Some n))) ≤ n.
Proof.
  intros Hn. unfold rank_exercises_for_goal. case_decide; [lia |].
  pose proof (length_take_indices_le exercises
                (py_slice_to (relevance_order goal exercises) (1 `max` n))) as Hle.
  rewrite length_py_slice_to in Hle by lia. lia.
Qed.

Lemma length_pick_exercises_le all_ex ty kw n goal used :
  1 ≤ n → Z.of_nat (length (_pick_exercises all_ex ty kw n goal used)) ≤ n.
Proof.
  intros Hn. unfold _pick_exercises.
  case_decide; [simpl; lia |].
  case_decide; [by apply length_rank_exercises_for_goal_le |].
  rewrite length_py_slice_to by lia. lia.
Qed.

(** The candidates a pick is drawn from: those of the requested type and
    muscle group, narrowed to the unused ones when there are any. *)
Lemma elem_of_pick_exercises_pool all_ex ty kw n goal used x :
  x ∈ _pick_exercises all_ex ty kw n goal used →
  x ∈ all_ex
  ∧ matches_request ty kw x = true
  ∧ ((∃ y, y ∈ all_ex ∧ matches_request ty kw y = true ∧ Exercise.id y ∉ used) →
     Exercise.id x ∉ used).
Proof.
  unfold _pick_exercises.
  set (filtered := filter _ all_ex).
  case_decide as Hnil; [by intros ?%elem_of_nil |].
  set (pool := if decide (used ≠ ∅) then _ else filtered).
  intros Hx.
  assert (Hpool : x ∈ pool).
  { case_decide.
    - by apply elem_of_rank_exercises_for_goal in Hx.
    - apply elem_of_py_slice_to in Hx. by apply elem_of_sort_by_key in Hx. }
  clear Hx. unfold pool in Hpool.
  destruct (decide (used ≠ ∅)) as [Hused | Hused].
  - destruct (decide (filter (λ ex, Exercise.id ex ∉ used) filtered ≠ [])) as [Hun | Hun].
    + apply list_elem_of_filter in Hpool as [Hfresh Hpool].
      apply list_elem_of_filter in Hpool as [Hm Hin]. done.
    + apply list_elem_of_filter in Hpool as [Hm Hin].
      split; [done |]. split; [done |].
      intros (y & Hy & Hmy & Hfresh). exfalso. apply Hun.
      apply dec_stable in Hun.
      assert (Hyin : y ∈ filter (λ ex, Exercise.id ex ∉ used) filtered).
      { apply list_elem_of_filter. split; [done |]. by apply list_elem_of_filter. }
      rewrite Hun in Hyin. by apply elem_of_nil in Hyin.
  - apply list_elem_of_filter in Hpool as [Hm Hin].
    split; [done |]. split; [done |]. intros _.
    apply dec_stable in Hused. rewrite Hused. apply not_elem_of_empty.
Qed.
End PickerProperties.

(** X1: every exercise [_pick_exercises] returns comes from the list it was
    given, has the requested type and, when a muscle keyword is given, has a
    muscle group that contains the keyword. *)
Theorem pick_exercises_matches_request `{PyLib} all_ex ty kw n goal used :
  Forall (λ x, x ∈ all_ex
               ∧ Exercise.exercise_type x = ty
               ∧ ∀ keyword, kw = Some keyword →
                   ∃ group, group ∈ Exercise.muscle_groups x
                            ∧ py_contains keyword group = true)
         (_pick_exercises all_ex ty kw n goal used).
Proof.
  apply Forall_forall. intros x Hx.
  apply elem_of_pick_exercises_pool in Hx as (Hin & Hm & _).
  split; [done |]. unfold matches_request in Hm.
  destruct (decide (Exercise.exercise_type x ≠ ty)) as [| Hty]; [done |].
  split; [by apply dec_stable in Hty |].
  intros keyword ->. apply existsb_exists in Hm as (group & Hg & Hc).
  exists group. split; [by apply list_elem_of_In | done].
Qed.

(** X2: asked for [max_items >= 1] exercises, [_pick_exercises] returns at
    most [max_items], with or without a goal. *)
Theorem pick_exercises_at_most_max_items `{PyLib} all_ex ty kw max_items goal used :
  1 ≤ max_items →
  Z.of_nat (length (_pick_exercises all_ex ty kw max_items goal used)) ≤ max_items.
Proof. intros Hn. pose proof (length_pick_exercises_le all_ex ty kw max_items goal used Hn). lia. Qed.

(** X2, an instance: three of the seven strength exercises. *)
Lemma pick_exercises_at_most_max_items_witness :
  Z.of_nat (length (@_pick_exercises reference_lib strength_catalog "strength" None 3
                      "weight_loss" ∅)) ≤ 3.
Proof. apply (@pick_exercises_at_most_max_items reference_lib). lia. Defined.

(** X3: while some candidate of the requested type and muscle group has not
    been used in the plan yet, [_pick_exercises] returns unused exercises
    only. *)
Theorem pick_exercises_prefers_unused `{PyLib} all_ex ty kw n goal used y :
  y ∈ all_ex → matches_request ty kw y = true → Exercise.id y ∉ used →
  Forall (λ x, Exercise.id x ∉ used) (_pick_exercises all_ex ty kw n goal used).
Proof.
  intros Hy Hm Hfresh. apply Forall_forall. intros x Hx.
  apply elem_of_pick_exercises_pool in Hx as (_ & _ & Hnew).
  apply Hnew. by exists y.
Qed.

(** X3, an instance: with s1 and s2 used, the picks avoid them. *)
Lemma pick_exercises_prefers_unused_witness :
  Forall (λ x, Exercise.id x ∉ ({[ "s1"; "s2" ]} : gset string))
         (@_pick_exercises reference_lib strength_catalog "strength" None 5
            "weight_loss" {[ "s1"; "s2" ]}).
Proof.
  apply (@pick_exercises_prefers_unused reference_lib strength_catalog "strength" None 5
           "weight_loss" {[ "s1"; "s2" ]} (sample_exercise "s3" "Row" ["спина"] "strength")).
  - apply (bool_decide_unpack _). vm_compute. exact I.
  - reflexivity.
  - apply (bool_decide_unpack _). vm_compute. exact I.
Defined.

(** ** The sessions of a plan, exactly *)

Lemma emit_main_appends load st ex :
  Exercise.id ex ∉ used_ids_session st →
  planned_exercises (emit_main load.1.1 load.1.2 load.2 st ex)
  = planned_exercises st ++ [prescription load ex].
Proof.
  intros Hnew. destruct load as [[s r] c]. unfold emit_main, prescription. simpl.
  rewrite decide_False by done. simpl. by repeat case_decide.
Qed.

(** The loop over [main_ex] appends the prescriptions of a sub-sequence of
    [main_ex], in its order. *)
Lemma foldl_emit_main_emitted load l st :
  ∃ emitted,
    emitted `sublist_of` l
    ∧ planned_exercises (foldl (emit_main load.1.1 load.1.2 load.2) st l)
      = planned_exercises st ++ (prescription load <$> emitted).
Proof.
  revert st. induction l as [|ex l IH]; intros st; cbn [foldl].
  - exists []. split; [done |]. by rewrite app_nil_r.
  - destruct (decide (Exercise.id ex ∈ used_ids_session st)) as [Hin | Hin].
    + rewrite emit_main_used by done.
      destruct (IH st) as (emitted & Hsub & ->).
      exists emitted. split; [by apply sublist_cons | done].
    + destruct (IH (emit_main load.1.1 load.1.2 load.2 st ex)) as (emitted & Hsub & ->).
      exists (ex :: emitted). split; [by apply sublist_skip |].
      rewrite emit_main_appends by done. by rewrite <- app_assoc.
Qed.

Section ExactSessions.
Context `{PyLib} (profile : UserProfile.t) (allowed : list Exercise.t).

(** The session the loops build for day [d] of week [w]: the title of the
    day and the prescriptions, under the week's load, of a sub-sequence of
    the day's main block. *)
Local Abbreviation built_exactly s :=
  (∃ used emitted,
     emitted `sublist_of` main_block profile allowed (TrainingSession.day_index s) used
     ∧ s = TrainingSession.mk
             (TrainingSession.week_index s) (TrainingSession.day_index s)
             (_build_session_title profile (TrainingSession.day_index s))
             (prescription (week_load profile (TrainingSession.week_index s))
                <$> emitted)).

Lemma plan_day_exact w sessions used d :
  ∃ s used',
    plan_day profile allowed w (sessions, used) d = (sessions ++ [s], used')
    ∧ session_index s = (w, d)
    ∧ built_exactly s.
Proof.
  unfold plan_day.
  destruct (week_load profile w) as [[sets reps] c] eqn:Hload. cbn [foldl].
  destruct (foldl_emit_main_emitted (sets, reps, c) (main_block profile allowed d used)
              {| planned_exercises := []; used_ids_session := ∅; used_global := used |})
    as (emitted & Hsub & Hplanned).
  simpl in Hplanned. eexists _, _. split; [reflexivity |]. split; [done |].
  exists used, emitted. simpl. split; [done |]. by rewrite Hplanned, Hload.
Qed.

Lemma plan_week_exact w days sessions used :
  ∃ new used',
    foldl (plan_day profile allowed w) (sessions, used) days = (sessions ++ new, used')
    ∧ Forall (λ s, built_exactly s) new.
Proof.
  revert sessions used. induction days as [|d days IH]; intros sessions used; cbn [foldl].
  - exists [], used. by rewrite app_nil_r.
  - destruct (plan_day_exact w sessions used d) as (s & used1 & -> & _ & Hs).
    destruct (IH (sessions ++ [s]) used1) as (new & used' & -> & Hnew).
    exists (s :: new), used'. rewrite <- app_assoc. split; [done |]. by constructor.
Qed.

Lemma plan_weeks_exact per_week weeks sessions used :
  ∃ new used',
    foldl (plan_week profile allowed per_week) (sessions, used) weeks
    = (sessions ++ new, used')
    ∧ Forall (λ s, built_exactly s) new.
Proof.
  revert sessions used. induction weeks as [|w weeks IH]; intros sessions used; cbn [foldl].
  - exists [], used. by rewrite app_nil_r.
  - unfold plan_week at 2.
    destruct (plan_week_exact w (seqZ 1 per_week) sessions used) as (new1 & used1 & -> & H1).
    destruct (IH (sessions ++ new1) used1) as (new & used' & -> & Hnew).
    exists (new1 ++ new), used'. rewrite <- app_assoc. split; [done |].
    by apply Forall_app.
Qed.
End ExactSessions.

Lemma generate_training_plan_sessions_exact `{PyLib} `{PySets} conds profile exercises :
  let allowed := _select_allowed_exercises conds profile exercises in
  Forall (λ s, ∃ used emitted,
                 emitted `sublist_of` main_block profile allowed
                                        (TrainingSession.day_index s) used
                 ∧ s = TrainingSession.mk
                         (TrainingSession.week_index s) (TrainingSession.day_index s)
                         (_build_session_title profile (TrainingSession.day_index s))
                         (prescription (week_load profile (TrainingSession.week_index s))
                            <$> emitted))
         (TrainingPlan.sessions (generate_training_plan conds profile exercises)).
Proof.
  simpl. unfold generate_training_plan.
  destruct (plan_weeks_exact profile (_select_allowed_exercises conds profile exercises)
              (recommend_sessions_per_week conds profile)
              (seqZ 1 (recommend_total_weeks profile)) [] ∅)
    as (new & used' & -> & Hall).
  done.
Qed.

(** ** The size of a session *)

Section BlockSize.
Context `{PyLib}.

Lemma length_template_block_le profile allowed d used :
  (length (template_block profile allowed d used) ≤ 8)%nat.
Proof.
  unfold template_block. simpl.
  repeat case_decide; rewrite ?length_app;
    repeat match goal with
           | |- context [length (_pick_exercises ?a ?t ?k ?n ?g ?u)] =>
               let Hle := fresh "Hle" in
               pose proof (length_pick_exercises_le a t k n g u ltac:(lia)) as Hle;
               generalize dependent (length (_pick_exercises a t k n g u)); intros
           end; lia.
Qed.

Lemma length_main_block_le profile allowed d used :
  (length (main_block profile allowed d used) ≤ 8)%nat.
Proof.
  unfold main_block.
  set (block := if decide (_ < _) then _ else _).
  assert (Hb : (length block ≤ 8)%nat).
  { unfold block. pose proof (length_template_block_le profile allowed d used) as Ht.
    destruct (decide (Z.of_nat (length (template_block profile allowed d used))
                      < min_main profile)) as [Hshort | _]; [| done].
    rewrite length_app.
    assert (Hpos : 1 ≤ min_main profile
                       - Z.of_nat (length (template_block profile allowed d used))) by lia.
    pose proof (length_pick_exercises_le allowed "strength" None _
                  (UserProfile.goal profile) used Hpos) as Hextra.
    assert (min_main profile ≤ 6) by (unfold min_main; repeat case_decide; lia).
    lia. }
  case_decide; [| done]. by rewrite sort_by_key_Permutation.
Qed.
End BlockSize.

(** X4: no session of a generated plan holds more than eight exercises. *)
Theorem generate_training_plan_session_size `{PyLib} `{PySets} conds profile exercises :
  Forall (λ s, (length (TrainingSession.exercises s) ≤ 8)%nat)
         (TrainingPlan.sessions (generate_training_plan conds profile exercises)).
Proof.
  eapply Forall_impl; [apply generate_training_plan_sessions_exact |].
  intros s (used & emitted & Hsub & ->). simpl.
  rewrite length_fmap. apply sublist_length in Hsub.
  etrans; [exact Hsub | apply length_main_block_le].
Qed.

(** X5: every planned exercise of a generated plan is the prescription of an
    eligible exercise under the load of its week: a cardio exercise gets one
    set, no repetitions and the week's cardio duration; a mobility or rehab
    exercise two sets of ten and no duration; any other exercise the week's
    sets and repetitions and no duration. *)
Theorem generate_training_plan_prescriptions `{PyLib} `{PySets} conds profile exercises :
  Forall (λ s,
    Forall (λ planned,
      ∃ ex, ex ∈ _select_allowed_exercises conds profile exercises
        ∧ PlannedExercise.exercise_id planned = Exercise.id ex
        ∧ (Exercise.exercise_type ex = "cardio" →
           PlannedExercise.sets planned = 1
           ∧ PlannedExercise.reps planned = None
           ∧ PlannedExercise.duration_seconds planned
             = Some (week_load profile (TrainingSession.week_index s)).2)
        ∧ (Exercise.exercise_type ex ∈ ["mobility"; "rehab"] →
           PlannedExercise.sets planned = 2
           ∧ PlannedExercise.reps planned = Some 10
           ∧ PlannedExercise.duration_seconds planned = None)
        ∧ (Exercise.exercise_type ex ∉ ["cardio"; "mobility"; "rehab"] →
           PlannedExercise.sets planned
           = (week_load profile (TrainingSession.week_index s)).1.1
           ∧ PlannedExercise.reps planned
             = Some (week_load profile (TrainingSession.week_index s)).1.2
           ∧ PlannedExercise.duration_seconds planned = None))
      (TrainingSession.exercises s))
    (TrainingPlan.sessions (generate_training_plan conds profile exercises)).
Proof.
  eapply Forall_impl; [apply generate_training_plan_sessions_exact |].
  intros s (used & emitted & Hsub & Hs). apply Forall_forall. intros planned Hin.
  rewrite Hs in Hin. simpl in Hin.
  apply list_elem_of_fmap in Hin as (ex & -> & Hex).
  exists ex. split.
  { eapply elem_of_main_block. by eapply elem_of_sublist. }
  destruct (week_load profile (TrainingSession.week_index s)) as [[sets reps] c].
  unfold prescription. simpl.
  destruct (decide (Exercise.exercise_type ex = "cardio")) as [Hc | Hc].
  - simpl. split; [done |]. split; [done |]. split.
    + intros Hm. rewrite Hc in Hm.
      apply elem_of_cons in Hm as [? | Hm]; [done |].
      apply elem_of_cons in Hm as [? | Hm]; [done |]. by apply elem_of_nil in Hm.
    + intros Hno. exfalso. apply Hno. rewrite Hc. left.
  - destruct (decide (Exercise.exercise_type ex ∈ ["mobility"; "rehab"])) as [Hm | Hm].
    + simpl. split; [done |]. split; [done |]. split; [done |].
      intros Hno. exfalso. apply Hno. by right.
    + simpl. split; [done |]. split; [done |]. split; [done |]. done.
Qed.

Lemma StronglySorted_sublist {A} (R : relation A) (l1 l2 : list A) :
  l1 `sublist_of` l2 → StronglySorted R l2 → StronglySorted R l1.
Proof.
  induction 1 as [| x l1 l2 Hsub IH | x l1 l2 Hsub IH]; intros Hs.
  - constructor.
  - apply StronglySorted_inv in Hs as [Hs Hx]. constructor; [by apply IH |].
    rewrite Forall_forall in Hx. apply Forall_forall. intros y Hy.
    apply Hx. by eapply elem_of_sublist.
  - apply StronglySorted_inv in Hs as [Hs _]. by apply IH.
Qed.

Lemma main_block_sorted `{PyLib} profile allowed d used :
  StronglySorted (λ a b, _exercise_priority a ≤ _exercise_priority b)
                 (main_block profile allowed d used).
Proof.
  unfold main_block.
  set (block := if decide (_ < _) then _ else _).
  destruct (decide (block ≠ [])) as [_ | Hnil].
  - eapply StronglySorted_weaken;
      [| apply (sort_by_key_StronglySorted Z.leb _exercise_priority)].
    + intros a b. apply Z.leb_le.
    + intros x y Hxy. apply Z.leb_le. apply Z.leb_gt in Hxy. lia.
    + intros x y z ?%Z.leb_le ?%Z.leb_le. apply Z.leb_le. lia.
  - apply dec_stable in Hnil. rewrite Hnil. constructor.
Qed.

(** X6: within every session of a generated plan the exercises stand in
    non-decreasing scheduling priority (squat, deadlift, bench press, ...
    first), each planned exercise being an eligible exercise. *)
Theorem generate_training_plan_sessions_by_priority `{PyLib} `{PySets}
    conds profile exercises :
  Forall (λ s,
    ∃ scheduled : list Exercise.t,
      PlannedExercise.exercise_id <$> TrainingSession.exercises s
      = Exercise.id <$> scheduled
      ∧ Forall (λ ex, ex ∈ _select_allowed_exercises conds profile exercises) scheduled
      ∧ StronglySorted (λ a b, _exercise_priority a ≤ _exercise_priority b) scheduled)
    (TrainingPlan.sessions (generate_training_plan conds profile exercises)).
Proof.
  eapply Forall_impl; [apply generate_training_plan_sessions_exact |].
  intros s (used & emitted & Hsub & Hs). exists emitted. split; [| split].
  - rewrite Hs. simpl. rewrite <- list_fmap_compose. apply list_fmap_ext.
    intros i ex _. simpl.
    destruct (week_load profile (TrainingSession.week_index s)) as [[sets reps] c].
    unfold prescription. by repeat case_decide.
  - apply Forall_forall. intros ex Hex.
    eapply elem_of_main_block. by eapply elem_of_sublist.
  - eapply StronglySorted_sublist; [exact Hsub | apply main_block_sorted].
Qed.

(** X7: the weekly load is periodic with period four; the sets are those of
    the experience level in every week, the repetitions stay within one of
    the baseline and never fall below seven, and the cardio duration stays
    within a tenth of the baseline. *)
Theorem week_load_periodic_and_bounded profile w :
  let base := _sets_reps_for_strength (UserProfile.experience_level profile) in
  let cardio_base := _duration_for_cardio_seconds (UserProfile.experience_level profile) in
  let load := week_load profile w in
  week_load profile (w + 4) = load
  ∧ load.1.1 = base.1
  ∧ base.2 - 1 ≤ load.1.2 ≤ base.2 + 1
  ∧ 7 ≤ load.1.2
  ∧ 9 * cardio_base ≤ 10 * load.2 ≤ 11 * cardio_base.
Proof.
  simpl. split.
  - unfold week_load.
    replace ((w + 4 - 1) `mod` 4) with ((w - 1) `mod` 4); [done |].
    replace (w + 4 - 1) with (w - 1 + 1 * 4) by lia. by rewrite Z.mod_add.
  - unfold week_load, _sets_reps_for_strength, _duration_for_cardio_seconds.
    repeat case_decide; simpl; repeat split; try lia; vm_compute; congruence.
Qed.

(** The loads of the twelve weeks a programme can last, for the three
    experience levels: [int(cardio_base * 1.1)] is 528, 792 and 1188 seconds,
    [int(cardio_base * 0.9)] is 432, 648 and 972. *)
Example week_load_values :
  (λ level, week_load (UserProfile.mk "female" 28 (60 # 1) None "medium" "endurance"
                         level "gym" [] [] 3) <$> [1; 2; 3; 4; 5])
  <$> ["beginner"; "intermediate"; "advanced"]
  = [ [(2, 12, 480); (2, 13, 528); (2, 13, 528); (2, 11, 432); (2, 12, 480)];
      [(3, 10, 720); (3, 11, 792); (3, 11, 792); (3, 9, 648); (3, 10, 720)];
      [(4, 8, 1080); (4, 9, 1188); (4, 9, 1188); (4, 7, 972); (4, 8, 1080)] ].
Proof. by vm_compute. Qed.

(** ** Loading the registry *)

Section LoadingFacts.
(** The body of the loop of [_load_conditions] (lines 52-57). *)
Let store (result : gmap string Condition.t) (item : JItem) : gmap string Condition.t :=
  match from_dict item with
  | None => result
  | Some cond => <[Condition.id cond := cond]> result
  end.

(** No entry of [items] is a well-formed condition with the id [k]. *)
Let no_entry_for (k : string) (items : list JItem) : Prop :=
  Forall (λ item, ∀ cond, from_dict item = Some cond → Condition.id cond ≠ k) items.

Lemma foldl_store_untouched k items result :
  no_entry_for k items → foldl store result items !! k = result !! k.
Proof.
  revert result. induction items as [|item items IH]; intros result Hno; [done |].
  apply Forall_cons in Hno as [Hitem Hno]. cbn [foldl]. rewrite IH by done.
  unfold store. destruct (from_dict item) as [cond|] eqn:Hd; [| done].
  apply lookup_insert_ne. by apply Hitem.
Qed.

Lemma foldl_store_lookup k cond items result :
  foldl store result items !! k = Some cond →
  (result !! k = Some cond ∧ no_entry_for k items)
  ∨ ∃ before item after,
      items = before ++ item :: after
      ∧ from_dict item = Some cond
      ∧ Condition.id cond = k
      ∧ no_entry_for k after.
Proof.
  revert result. induction items as [|item items IH]; intros result Hlook.
  - left. split; [done | constructor].
  - cbn [foldl] in Hlook. apply IH in Hlook as [[Hres Hno] | Hlater].
    + unfold store in Hres. destruct (from_dict item) as [c|] eqn:Hd.
      * destruct (decide (Condition.id c = k)) as [Hk | Hk].
        -- rewrite <- Hk, lookup_insert_eq in Hres. injection Hres as ->.
           right. exists [], item, items. by rewrite Hk.
        -- rewrite lookup_insert_ne in Hres by done. left. split; [done |].
           constructor; [| done]. intros c' Hc'. congruence.
      * left. split; [done |]. constructor; [| done]. intros c' Hc'. congruence.
    + destruct Hlater as (before & it & after & -> & Hd & Hk & Hno).
      right. by exists (item :: before), it, after.
Qed.

Lemma load_conditions_lookup raw k cond :
  (_load_conditions (unloaded_world (Some raw))).1 !! k = Some cond
  ↔ ∃ before item after,
      raw = before ++ item :: after
      ∧ from_dict item = Some cond
      ∧ Condition.id cond = k
      ∧ no_entry_for k after.
Proof.
  unfold _load_conditions, unloaded_world. simpl. fold store. split.
  - intros [[Hempty _] | Hdec]%foldl_store_lookup; [| done].
    by rewrite lookup_empty in Hempty.
  - intros (before & item & after & -> & Hd & Hk & Hno).
    rewrite foldl_app. cbn [foldl]. rewrite foldl_store_untouched by done.
    unfold store at 1. rewrite Hd, <- Hk. apply lookup_insert_eq.
Qed.
End LoadingFacts.

(** X8: the registry loaded from a document holds, under an id, the last
    well-formed entry of the document with that id, and nothing else:
    entries that are no object or lack an id are skipped, a later entry
    replaces an earlier one with the same id, and every condition is stored
    under its own id. *)
Theorem load_conditions_last_entry_wins raw k cond :
  (_load_conditions (unloaded_world (Some raw))).1 !! k = Some cond
  ↔ ∃ before item after,
      raw = before ++ item :: after
      ∧ from_dict item = Some cond
      ∧ Condition.id cond = k
      ∧ Forall (λ later, ∀ cond', from_dict later = Some cond' → Condition.id cond' ≠ k)
               after.
Proof. apply load_conditions_lookup. Qed.

(** X9: without a registry document the process knows no condition: the
    registry is empty and stays cached as such, no profile has a session
    limit, and the risk tags of a profile are its health issues as they
    stand. *)
Theorem missing_registry_degrades_gracefully `{sets : PySets} profile :
  visits_each_once sets →
  (_load_conditions (unloaded_world None)).1 = ∅
  ∧ _conditions_by_id (_load_conditions (unloaded_world None)).2 = Some ∅
  ∧ get_sessions_limit_for_profile ∅ profile = None
  ∧ get_risk_tags_for_profile ∅ profile = list_to_set (UserProfile.health_issues profile).
Proof.
  intros Hiter. split; [done |]. split; [done |]. split.
  - unfold get_sessions_limit_for_profile. rewrite decide_True; [done |].
    apply set_eq. intros cid. rewrite elem_of_extract_condition_ids, lookup_empty.
    split; [by intros [_ [? ?]] | by intros ?%not_elem_of_empty].
  - apply set_eq. intros tag.
    rewrite elem_of_get_risk_tags_for_profile by done.
    rewrite elem_of_list_to_set. split.
    + intros [[? _] | (cid & cond & _ & Hc & _)]; [done |].
      by rewrite lookup_empty in Hc.
    + intros Hin. left. split; [done | apply lookup_empty].
Qed.

(** X9, an instance: a profile with two legacy tags. *)
Lemma missing_registry_degrades_gracefully_witness :
  @get_risk_tags_for_profile reference_sets ∅ (sample_profile "maintenance" ["спина"; "сердце"] 3)
  = list_to_set ["спина"; "сердце"].
Proof.
  refine (proj2 (proj2 (proj2
    (@missing_registry_degrades_gracefully reference_sets
       (sample_profile "maintenance" ["спина"; "сердце"] 3) _)))).
  intros s. reflexivity.
Defined.

(** ** Health issues, risk tags and limits *)

(** X10: the risk tags of a profile are exactly the health issues the
    registry does not know, kept verbatim, together with the group tag and
    the specific tags of every condition the profile names. *)
Theorem risk_tags_characterised `{sets : PySets} conds profile tag :
  visits_each_once sets →
  tag ∈ get_risk_tags_for_profile conds profile
  ↔ (tag ∈ UserProfile.health_issues profile ∧ conds !! tag = None)
    ∨ ∃ cid cond, cid ∈ UserProfile.health_issues profile
                  ∧ conds !! cid = Some cond
                  ∧ tag ∈ condition_tags cid cond.
Proof. intros Hiter. by apply elem_of_get_risk_tags_for_profile. Qed.

(** X10, an instance: the knee condition yields the joints tag, the legacy
    tag stays as it is. *)
Lemma risk_tags_characterised_witness :
  "спина" ∈ @get_risk_tags_for_profile reference_sets knee_registry
              (sample_profile "maintenance" ["joint_knee_arthrosis"; "спина"] 3)
  ↔ ("спина" ∈ ["joint_knee_arthrosis"; "спина"] ∧ knee_registry !! "спина" = None)
    ∨ ∃ cid cond, cid ∈ ["joint_knee_arthrosis"; "спина"]
                  ∧ knee_registry !! cid = Some cond
                  ∧ "спина" ∈ condition_tags cid cond.
Proof.
  apply (@risk_tags_characterised reference_sets knee_registry
           (sample_profile "maintenance" ["joint_knee_arthrosis"; "спина"] 3) "спина").
  intros s. reflexivity.
Defined.

(** X11: the session limit of a profile is the least [sessions_per_week_max]
    among the conditions it names, and there is none exactly when no named
    condition carries one. *)
Theorem sessions_limit_characterised `{sets : PySets} conds profile :
  visits_each_once sets →
  match get_sessions_limit_for_profile conds profile with
  | Some cap =>
      (∃ cid cond, cid ∈ UserProfile.health_issues profile
                   ∧ conds !! cid = Some cond
                   ∧ Condition.sessions_per_week_max cond = Some cap)
      ∧ ∀ cid cond m, cid ∈ UserProfile.health_issues profile →
                      conds !! cid = Some cond →
                      Condition.sessions_per_week_max cond = Some m → cap ≤ m
  | None =>
      ∀ cid cond, cid ∈ UserProfile.health_issues profile →
                  conds !! cid = Some cond →
                  Condition.sessions_per_week_max cond = None
  end.
Proof.
  intros Hiter.
  destruct (get_sessions_limit_for_profile conds profile) as [cap|] eqn:Hlimit.
  - by apply sessions_limit_is_minimum.
  - by apply sessions_limit_none.
Qed.

(** X11, an instance: of two named conditions capped at 3 and 2, the limit
    is at most 2. *)
Lemma sessions_limit_characterised_witness :
  ∃ cap, @get_sessions_limit_for_profile reference_sets
           (_load_conditions fresh_world).1 two_condition_profile = Some cap
         ∧ cap ≤ 2.
Proof.
  pose proof (@sessions_limit_characterised reference_sets
                (_load_conditions fresh_world).1 two_condition_profile
                (λ s, reflexivity _)) as Hspec.
  assert (Hin : "cardio_hypertension" ∈ UserProfile.health_issues two_condition_profile)
    by (right; left).
  assert (Hcond : (_load_conditions fresh_world).1 !! "cardio_hypertension"
                  = Some (Condition.mk "cardio_hypertension" "Гипертония" "cardio"
                            (Some 2) (Some "low") ""))
    by (vm_compute; reflexivity).
  destruct (@get_sessions_limit_for_profile reference_sets
              (_load_conditions fresh_world).1 two_condition_profile) as [cap|].
  - exists cap. split; [reflexivity |].
    destruct Hspec as [_ Hmin]. exact (Hmin _ _ 2 Hin Hcond eq_refl).
  - discriminate (Hspec _ _ Hin Hcond).
Defined.

Section MoreHealthIssues.
Context `{sets : PySets} (Hiter : visits_each_once sets).
Context (conds : gmap string Condition.t) (profile : UserProfile.t) (issues' : list string).
Context (Hmore : UserProfile.health_issues profile ⊆ issues').

Lemma risk_tags_grow tag :
  tag ∈ get_risk_tags_for_profile conds profile →
  tag ∈ get_risk_tags_for_profile conds (with_health_issues issues' profile).
Proof.
  rewrite !elem_of_get_risk_tags_for_profile by done.
  intros [[Hin Hnone] | (cid & cond & Hin & Hc & Htag)].
  - left. split; [by apply Hmore | done].
  - right. exists cid, cond. split; [by apply Hmore | done].
Qed.

Lemma sessions_limit_shrinks cap :
  get_sessions_limit_for_profile conds profile = Some cap →
  ∃ cap', get_sessions_limit_for_profile conds (with_health_issues issues' profile)
          = Some cap'
          ∧ cap' ≤ cap.
Proof.
  intros Hcap.
  destruct (sessions_limit_is_minimum conds profile cap Hiter Hcap)
    as [(cid & cond & Hin & Hc & Hm) _].
  destruct (get_sessions_limit_for_profile conds (with_health_issues issues' profile))
    as [cap'|] eqn:Hcap'.
  - exists cap'. split; [done |].
    destruct (sessions_limit_is_minimum conds _ cap' Hiter Hcap') as [_ Hmin].
    apply (Hmin cid cond cap); [by apply Hmore | done | done].
  - pose proof (sessions_limit_none conds _ Hiter Hcap' cid cond) as Hnone.
    rewrite Hnone in Hm; [done | by apply Hmore | done].
Qed.

Lemma rule_based_sessions_shrink :
  _rule_based_sessions_per_week (with_health_issues issues' profile)
  ≤ _rule_based_sessions_per_week profile.
Proof.
  destruct profile as [g a wt ht act goal exp loc eq issues mx].
  unfold _rule_based_sessions_per_week, with_health_issues. simpl in *.
  destruct (decide ("сердце" ∈ issues ∨ "суставы" ∈ issues)) as [Hh | Hh],
           (decide ("сердце" ∈ issues' ∨ "суставы" ∈ issues')) as [Hh' | Hh'];
    [| exfalso; apply Hh'; destruct Hh as [? | ?]; [left | right]; by apply Hmore | |];
    destruct (decide (act = "low")), (decide (act = "high"));
    destruct (decide (exp = "beginner")), (decide (exp = "advanced"));
    destruct (decide (goal ∈ ["muscle_gain"; "endurance"])),
             (decide (goal ∈ ["back_health"; "general_health"]));
    by vm_compute.
Qed.

Lemma recommend_sessions_shrink :
  recommend_sessions_per_week conds (with_health_issues issues' profile)
  ≤ recommend_sessions_per_week conds profile.
Proof.
  unfold recommend_sessions_per_week.
  pose proof rule_based_sessions_shrink as Hbase.
  change (UserProfile.max_sessions_per_week (with_health_issues issues' profile))
    with (UserProfile.max_sessions_per_week profile).
  destruct (get_sessions_limit_for_profile conds profile) as [cap|] eqn:Hcap.
  - destruct (sessions_limit_shrinks cap Hcap) as (cap' & -> & Hle).
    case_decide; lia.
  - destruct (get_sessions_limit_for_profile conds (with_health_issues issues' profile));
      case_decide; lia.
Qed.

Lemma select_allowed_exercises_shrink `{PyLib} exercises ex :
  ex ∈ _select_allowed_exercises conds (with_health_issues issues' profile) exercises →
  ex ∈ _select_allowed_exercises conds profile exercises.
Proof.
  rewrite !elem_of_select_allowed_exercises. intros [Hal Hin]. split; [| done].
  unfold exercise_allowed in *.
  change (UserProfile.experience_level (with_health_issues issues' profile))
    with (UserProfile.experience_level profile) in Hal.
  change (UserProfile.available_equipment (with_health_issues issues' profile))
    with (UserProfile.available_equipment profile) in Hal.
  change (UserProfile.preferred_location (with_health_issues issues' profile))
    with (UserProfile.preferred_location profile) in Hal.
  cbv zeta in *.
  destruct (bool_decide (UserProfile.preferred_location profile = "home" ∧ _)); [done |].
  destruct (bool_decide (UserProfile.preferred_location profile = "gym" ∧ _)); [done |].
  destruct (if decide (UserProfile.preferred_location profile = "home") then _ else _);
    [done |].
  destruct (bool_decide (_difficulty_score _ > _)); [done |].
  destruct (bool_decide_reflect
              (get_risk_tags_for_profile conds (with_health_issues issues' profile)
               ∩ list_to_set (Exercise.contraindications ex) ≠ ∅)) as [| Hclear];
    [done |].
  apply dec_stable in Hclear.
  rewrite bool_decide_eq_false_2; [done |].
  intros Hmeet. apply Hmeet. apply elem_of_equiv_empty_L.
  intros tag [Hrisk Hcontra]%elem_of_intersection.
  apply (not_elem_of_empty (C:=gset string) tag). rewrite <- Hclear.
  apply elem_of_intersection. split; [by apply risk_tags_grow | done].
Qed.
End MoreHealthIssues.

(** X12: declaring further health issues never raises the recommended
    number of sessions a week and never adds an exercise to the eligible
    pool. *)
Theorem more_health_issues_never_relax `{PyLib} `{sets : PySets}
    conds profile issues' exercises :
  visits_each_once sets →
  UserProfile.health_issues profile ⊆ issues' →
  recommend_sessions_per_week conds (with_health_issues issues' profile)
  ≤ recommend_sessions_per_week conds profile
  ∧ ∀ ex, ex ∈ _select_allowed_exercises conds (with_health_issues issues' profile)
                 exercises →
          ex ∈ _select_allowed_exercises conds profile exercises.
Proof.
  intros Hiter Hmore. split.
  - by apply recommend_sessions_shrink.
  - intros ex. by apply select_allowed_exercises_shrink.
Qed.

(** X12, an instance: the knee condition added to a healthy profile lowers
    the cadence from 3 to 2. *)
Lemma more_health_issues_never_relax_witness :
  @recommend_sessions_per_week reference_sets knee_registry
    (with_health_issues ["joint_knee_arthrosis"] (sample_profile "maintenance" [] 3))
  ≤ @recommend_sessions_per_week reference_sets knee_registry
      (sample_profile "maintenance" [] 3).
Proof.
  refine (proj1 (@more_health_issues_never_relax reference_lib reference_sets knee_registry
                   (sample_profile "maintenance" [] 3) ["joint_knee_arthrosis"]
                   knee_catalog _ _)).
  - intros s. reflexivity.
  - intros x Hx. by apply elem_of_nil in Hx.
Defined.

(** ** exercise_importer.py: the imported records *)

Section ImporterFacts.
Context `{PyLib} `{PyText}.

Lemma map_category_to_type_range category :
  _map_category_to_type category ∈ ["strength"; "cardio"; "mobility"].
Proof.
  unfold _map_category_to_type. cbv zeta.
  repeat destruct (decide _); apply list_elem_of_In; simpl; auto 10.
Qed.

Lemma map_level_to_difficulty_range level :
  _map_level_to_difficulty level ∈ ["beginner"; "intermediate"; "advanced"].
Proof.
  unfold _map_level_to_difficulty. cbv zeta.
  repeat destruct (decide _); apply list_elem_of_In; simpl; auto 10.
Qed.

Lemma infer_locations_gym equipment : "gym" ∈ _infer_locations equipment.
Proof.
  unfold _infer_locations. cbv zeta.
  destruct (decide _); [| destruct (existsb _ _)]; apply list_elem_of_In; simpl; auto.
Qed.

(** No key of the muscle table is empty, and no Russian tag is. *)
Lemma muscle_group_map_nonempty name ru :
  _MUSCLE_GROUP_MAP !! name = Some ru → name ≠ "" ∧ ru ≠ "".
Proof.
  intros Hlook. apply elem_of_map_to_list in Hlook. revert Hlook.
  assert (Hall : Forall (λ kv : string * string, kv.1 ≠ "" ∧ kv.2 ≠ "")
                   (map_to_list _MUSCLE_GROUP_MAP)).
  { apply Forall_forall. intros kv Hkv.
    apply elem_of_map_to_list' in Hkv.
    unfold _MUSCLE_GROUP_MAP in Hkv.
    apply elem_of_list_to_map_2 in Hkv.
    destruct kv as [k v]. simpl.
    repeat (apply elem_of_cons in Hkv as [[= -> ->] | Hkv]; [done |]).
    by apply elem_of_nil in Hkv. }
  intros Hin. by apply (proj1 (Forall_forall _ _) Hall (name, ru)).
Qed.

(** What one round of the loop of [_normalize_muscle_groups] appends. *)
Lemma add_muscle_group_spec result item :
  let name := str_lower (str_strip item) in
  add_muscle_group result item
  = result ++ (if decide (name = "") then []
               else name :: match _MUSCLE_GROUP_MAP !! name with
                            | Some ru => [ru]
                            | None => []
                            end).
Proof.
  cbv zeta. unfold add_muscle_group.
  destruct (decide (str_lower (str_strip item) = "")); [by rewrite app_nil_r |].
  destruct (_MUSCLE_GROUP_MAP !! str_lower (str_strip item)) as [ru|] eqn:E; [| done].
  apply muscle_group_map_nonempty in E as [_ Hru].
  rewrite decide_True by done. by rewrite <- app_assoc.
Qed.

Lemma foldl_add_muscle_group_elem raw result x :
  x ∈ foldl add_muscle_group result raw
  ↔ x ∈ result
    ∨ ∃ item, item ∈ raw
              ∧ str_lower (str_strip item) ≠ ""
              ∧ (x = str_lower (str_strip item)
                 ∨ _MUSCLE_GROUP_MAP !! str_lower (str_strip item) = Some x).
Proof.
  revert result. induction raw as [|item raw IH]; intros result.
  - simpl. split; [by left |]. intros [Hx | (item & Hin & _)]; [done |].
    by apply elem_of_nil in Hin.
  - cbn [foldl]. rewrite IH, add_muscle_group_spec. cbv zeta.
    rewrite elem_of_app. split.
    + intros [[Hx | Hx] | (it & Hin & Hne & Hx)].
      * by left.
      * right. exists item. destruct (decide _) as [|Hne]; [by apply elem_of_nil in Hx |].
        split; [left |]. split; [done |].
        apply elem_of_cons in Hx as [-> | Hx]; [by left |]. right.
        destruct (_MUSCLE_GROUP_MAP !! _); [| by apply elem_of_nil in Hx].
        apply list_elem_of_singleton in Hx. by subst.
      * right. exists it. split; [by right | done].
    + intros [Hx | (it & Hin & Hne & Hx)]; [by left; left |].
      apply elem_of_cons in Hin as [-> | Hin].
      * left. right. rewrite decide_False by done.
        destruct Hx as [-> | Hx]; [left |]. right. rewrite Hx. left.
      * right. by exists it.
Qed.

Lemma normalize_muscle_groups_elem raw x :
  x ∈ _normalize_muscle_groups raw →
  x = "прочее"
  ∨ ∃ item, item ∈ raw
            ∧ str_lower (str_strip item) ≠ ""
            ∧ (x = str_lower (str_strip item)
               ∨ _MUSCLE_GROUP_MAP !! str_lower (str_strip item) = Some x).
Proof.
  unfold _normalize_muscle_groups. cbv zeta. destruct (decide _).
  - intros Hx. apply foldl_add_muscle_group_elem in Hx as [Hx | Hx].
    + by apply elem_of_nil in Hx.
    + by right.
  - intros Hx. apply list_elem_of_singleton in Hx. by left.
Qed.

Lemma normalize_muscle_groups_nonempty raw :
  _normalize_muscle_groups raw ≠ [] ∧ "" ∉ _normalize_muscle_groups raw.
Proof.
  split.
  - unfold _normalize_muscle_groups. cbv zeta. by destruct (decide _).
  - intros Hx. apply normalize_muscle_groups_elem in Hx as [Hx | (item & _ & Hne & [Hx | Hx])].
    + discriminate.
    + congruence.
    + by apply muscle_group_map_nonempty in Hx as [_ Hx].
Qed.

Lemma normalize_muscle_groups_keeps raw item x :
  item ∈ raw →
  str_lower (str_strip item) ≠ "" →
  x = str_lower (str_strip item) ∨ _MUSCLE_GROUP_MAP !! str_lower (str_strip item) = Some x →
  x ∈ _normalize_muscle_groups raw.
Proof.
  intros Hin Hne Hx.
  assert (Hfold : x ∈ foldl add_muscle_group [] raw).
  { apply foldl_add_muscle_group_elem. right. by exists item. }
  unfold _normalize_muscle_groups. cbv zeta. destruct (decide _) as [|Hnil]; [done |].
  apply dec_stable in Hnil. rewrite Hnil in Hfold. by apply elem_of_nil in Hfold.
Qed.

(** The fields of an imported record. *)
Lemma import_item_fields item ex :
  import_item item = Some ex →
  Exercise.id ex = str_strip (default "" (fx_id item))
  ∧ Exercise.id ex ≠ ""
  ∧ Exercise.contraindications ex = []
  ∧ Exercise.muscle_groups ex
    = _normalize_muscle_groups
        (filter (λ m, str_strip m ≠ "")
           (texts_or_empty (fx_primaryMuscles item)
            ++ texts_or_empty (fx_secondaryMuscles item)))
  ∧ (∃ category, Exercise.exercise_type ex = _map_category_to_type category)
  ∧ (∃ level, Exercise.difficulty ex = _map_level_to_difficulty level)
  ∧ Exercise.locations ex = _infer_locations (str_strip (default "" (fx_equipment item)))
  ∧ Exercise.equipment ex
    = (if decide (str_strip (default "" (fx_equipment item)) ≠ "")
       then [str_strip (default "" (fx_equipment item))] else []).
Proof.
  unfold import_item. cbv zeta. destruct (decide _) as [|Hid]; [done |].
  intros [= <-]. simpl. repeat split; eauto.
Qed.

Lemma elem_of_import data ex :
  ex ∈ _import_from_free_ex_db data ↔ ∃ item, item ∈ data ∧ import_item item = Some ex.
Proof. unfold _import_from_free_ex_db. by rewrite list_elem_of_omap. Qed.
End ImporterFacts.

(** X13: every exercise the importer builds has a non-empty id, one of the
    three types and one of the three difficulty levels the importer knows,
    can be done in a gym, names at least one muscle group and no empty one,
    has at most one piece of equipment and no empty one, and carries no
    contraindication. *)
Theorem imported_exercises_well_formed `{PyLib} `{PyText} data :
  Forall (λ ex,
            Exercise.id ex ≠ ""
            ∧ Exercise.exercise_type ex ∈ ["strength"; "cardio"; "mobility"]
            ∧ Exercise.difficulty ex ∈ ["beginner"; "intermediate"; "advanced"]
            ∧ "gym" ∈ Exercise.locations ex
            ∧ Exercise.muscle_groups ex ≠ []
            ∧ ("" ∉ Exercise.muscle_groups ex)
            ∧ (length (Exercise.equipment ex) ≤ 1)%nat
            ∧ ("" ∉ Exercise.equipment ex)
            ∧ Exercise.contraindications ex = [])
         (_import_from_free_ex_db data).
Proof.
  apply Forall_forall. intros ex Hex.
  apply elem_of_import in Hex as (item & _ & Hitem).
  apply import_item_fields in Hitem
    as (_ & Hid & Hcontra & Hmg & (category & Hty) & (level & Hdiff) & Hloc & Heq).
  split; [done |].
  split; [rewrite Hty; apply map_category_to_type_range |].
  split; [rewrite Hdiff; apply map_level_to_difficulty_range |].
  split; [rewrite Hloc; apply infer_locations_gym |].
  rewrite Hmg. split; [apply normalize_muscle_groups_nonempty |].
  split; [apply normalize_muscle_groups_nonempty |].
  rewrite Heq. destruct (decide _) as [Hne|].
  - split; [simpl; lia |]. split; [| done].
    intros Hin. apply list_elem_of_singleton in Hin. congruence.
  - split; [simpl; lia |]. split; [| done]. intros Hin. by apply elem_of_nil in Hin.
Qed.

(** ** Imported exercises in the planner *)

Lemma string_prefix_refl s : String.prefix s s = true.
Proof.
  induction s as [|c s IH]; [done |]. simpl.
  destruct (Ascii.ascii_dec c c); [done | congruence].
Qed.

Lemma py_contains_refl s : py_contains s s = true.
Proof.
  pose proof (string_prefix_refl s) as Hp.
  destruct s; simpl in *; [done |]. by rewrite Hp.
Qed.

(** X14: the Russian tag of the muscle table makes an imported exercise
    visible to the planner's keyword filter: when a record names a muscle
    whose stripped, lower-cased name is a key of the table, the exercise
    built from it matches a request for its own type and the Russian tag
    of that key. *)
Theorem imported_exercise_matches_russian_keyword `{PyLib} `{PyText} item ex muscle ru :
  str_lower "" = "" →
  import_item item = Some ex →
  muscle ∈ texts_or_empty (fx_primaryMuscles item)
           ++ texts_or_empty (fx_secondaryMuscles item) →
  _MUSCLE_GROUP_MAP !! str_lower (str_strip muscle) = Some ru →
  matches_request (Exercise.exercise_type ex) (Some ru) ex = true.
Proof.
  intros Hlower Hitem Hin Hru.
  apply import_item_fields in Hitem as (_ & _ & _ & Hmg & _).
  pose proof (muscle_group_map_nonempty _ _ Hru) as [Hname _].
  unfold matches_request.
  destruct (decide (Exercise.exercise_type ex ≠ Exercise.exercise_type ex)) as [Hne|_];
    [by exfalso; apply Hne |].
  apply existsb_exists. exists ru. split; [| apply py_contains_refl].
  apply list_elem_of_In. rewrite Hmg.
  apply (normalize_muscle_groups_keeps _ muscle); [| done | by right].
  apply list_elem_of_filter. split; [| done].
  intros Hempty. rewrite Hempty in Hname. by apply Hname.
Qed.

(** X14, an instance: the barbell squat of the sample dataset, imported
    with the quadriceps as its primary muscle, answers a request for a
    strength exercise for the legs. *)
Lemma imported_exercise_matches_russian_keyword_witness :
  ∃ ex, @import_item reference_lib reference_text squat_record = Some ex
        ∧ matches_request (Exercise.exercise_type ex) (Some "ноги") ex = true.
Proof.
  eexists. split; [reflexivity |].
  apply (@imported_exercise_matches_russian_keyword reference_lib reference_text
           squat_record _ "quadriceps" "ноги").
  - reflexivity.
  - reflexivity.
  - left.
  - reflexivity.
Defined.

(** X15: the health issues of a profile never decide whether an imported
    exercise is eligible: the importer writes no contraindication, so the
    filter treats the exercise alike whatever issues the profile names. *)
Theorem imported_exercises_ignore_health_issues `{PyLib} `{PySets} `{PyText}
    conds profile issues data :
  Forall (λ ex, exercise_allowed conds (with_health_issues issues profile) ex
                = exercise_allowed conds profile ex)
         (_import_from_free_ex_db data).
Proof.
  apply Forall_forall. intros ex Hex.
  apply elem_of_import in Hex as (item & _ & Hitem).
  apply import_item_fields in Hitem as (_ & _ & Hcontra & _).
  unfold exercise_allowed. cbv zeta. rewrite Hcontra, list_to_set_nil.
  rewrite !(right_absorb_L ∅ (∩)). reflexivity.
Qed.

(** ** exercise_importer.py: the merge into the catalog *)

Section MergeFacts.

Lemma dict_set_fresh {V} k (v : V) d : k ∉ d.*1 → dict_set k v d = d ++ [(k, v)].
Proof.
  induction d as [|[k' v'] d IH]; intros Hk; [done |]. simpl.
  rewrite fmap_cons, not_elem_of_cons in Hk. destruct Hk as [Hne Hk].
  rewrite decide_False by done. by rewrite IH.
Qed.

Lemma dict_set_keys {V} k (v : V) d :
  (dict_set k v d).*1 = if decide (k ∈ d.*1) then d.*1 else d.*1 ++ [k].
Proof.
  induction d as [|[k' v'] d IH]; [done |].
  cbn [dict_set]. rewrite (fmap_cons fst (k', v') d). cbn [fst].
  destruct (decide (k' = k)) as [-> | Hne].
  - rewrite fmap_cons. cbn [fst]. by rewrite decide_True by left.
  - rewrite fmap_cons, IH. cbn [fst].
    destruct (decide (k ∈ d.*1)) as [Hin | Hout].
    + by rewrite decide_True by (by right).
    + rewrite decide_False; [done |].
      intros Hin. apply elem_of_cons in Hin as [-> | Hin]; done.
Qed.

Lemma dict_set_NoDup {V} k (v : V) d : NoDup d.*1 → NoDup (dict_set k v d).*1.
Proof.
  intros Hnd. rewrite dict_set_keys. destruct (decide _) as [|Hout]; [done |].
  apply NoDup_app. split; [done |]. split; [| apply NoDup_singleton].
  intros x Hx Hx'. apply list_elem_of_singleton in Hx'. by subst.
Qed.

Lemma dict_set_keyed k (ex : Exercise.t) d :
  Forall (λ kv, kv.1 = Exercise.id kv.2) d → k = Exercise.id ex →
  Forall (λ kv, kv.1 = Exercise.id kv.2) (dict_set k ex d).
Proof.
  intros Hd ->. induction d as [|[k' v'] d IH]; simpl.
  - by repeat constructor.
  - apply Forall_cons in Hd as [Hhd Hd]. destruct (decide _).
    + by constructor.
    + constructor; [done | by apply IH].
Qed.

(** The dict built over a catalog has one entry per id, each exercise
    under its own id. *)
Lemma foldl_index_by_id_wf base d :
  NoDup d.*1 → Forall (λ kv, kv.1 = Exercise.id kv.2) d →
  let d' := foldl (λ by_id ex, dict_set (Exercise.id ex) ex by_id) d base in
  NoDup d'.*1 ∧ Forall (λ kv, kv.1 = Exercise.id kv.2) d'.
Proof.
  revert d. induction base as [|ex base IH]; intros d Hnd Hkeyed; [done |].
  cbn [foldl]. apply IH; [by apply dict_set_NoDup | by apply dict_set_keyed].
Qed.

Lemma foldl_index_by_id_fresh base d :
  NoDup (d.*1 ++ (Exercise.id <$> base)) →
  foldl (λ by_id ex, dict_set (Exercise.id ex) ex by_id) d base
  = d ++ ((λ ex, (Exercise.id ex, ex)) <$> base).
Proof.
  revert d. induction base as [|ex base IH]; intros d Hnd.
  - by rewrite app_nil_r.
  - cbn [foldl]. rewrite fmap_cons in Hnd.
    assert (Hfresh : Exercise.id ex ∉ d.*1).
    { apply NoDup_app in Hnd as (_ & Hdisj & _). intros Hin.
      apply (Hdisj _ Hin). left. }
    rewrite dict_set_fresh by done. rewrite IH.
    + by rewrite <- app_assoc.
    + rewrite fmap_app. simpl. rewrite <- app_assoc. simpl.
      by rewrite (cons_middle _ d.*1) in Hnd.
Qed.

(** A dict whose entries stand under their own ids is the one built over
    its values. *)
Lemma index_by_id_values d :
  NoDup d.*1 → Forall (λ kv, kv.1 = Exercise.id kv.2) d →
  index_by_id d.*2 = d.
Proof.
  intros Hnd Hkeyed.
  assert (Hids : Exercise.id <$> d.*2 = d.*1).
  { rewrite <- list_fmap_compose. apply Forall_fmap_ext_1.
    eapply Forall_impl; [exact Hkeyed |]. by intros [k v]. }
  unfold index_by_id. rewrite foldl_index_by_id_fresh.
  - simpl. rewrite <- list_fmap_compose. rewrite <- (list_fmap_id d) at 2.
    apply Forall_fmap_ext_1. eapply Forall_impl; [exact Hkeyed |].
    intros [k v]. simpl. by intros ->.
  - simpl. by rewrite Hids.
Qed.

(** The loop over the imported exercises appends the first exercise of
    each id the dict does not hold yet, and counts them. *)
Lemma foldl_merge_one imported d added :
  NoDup d.*1 →
  ∃ new,
    foldl merge_one (d, added) imported
    = (d ++ ((λ ex, (Exercise.id ex, ex)) <$> new), added + Z.of_nat (length new))
    ∧ new `sublist_of` imported
    ∧ NoDup (d.*1 ++ (Exercise.id <$> new))
    ∧ ∀ ex, ex ∈ imported → Exercise.id ex ∈ d.*1 ++ (Exercise.id <$> new).
Proof.
  revert d added. induction imported as [|ex imported IH]; intros d added Hnd.
  - exists []. simpl. rewrite !app_nil_r, Z.add_0_r.
    repeat split; [done | done |]. intros ex Hex. by apply elem_of_nil in Hex.
  - cbn [foldl]. unfold merge_one at 2.
    destruct (decide (Exercise.id ex ∈ d.*1)) as [Hin | Hout].
    + destruct (IH d added Hnd) as (new & Heq & Hsub & Hnd' & Hcov).
      exists new. split; [done |]. split; [by apply sublist_cons |].
      split; [done |]. intros ex' Hex'.
      apply elem_of_cons in Hex' as [-> | Hex']; [| by apply Hcov].
      apply elem_of_app. by left.
    + rewrite dict_set_fresh by done.
      destruct (IH (d ++ [(Exercise.id ex, ex)]) (added + 1)) as (new & Heq & Hsub & Hnd' & Hcov).
      { rewrite fmap_app. simpl. apply NoDup_app. split; [done |].
        split; [| apply NoDup_singleton].
        intros x Hx Hx'. apply list_elem_of_singleton in Hx'. by subst. }
      rewrite fmap_app in Hnd', Hcov. simpl in Hnd', Hcov.
      rewrite <- app_assoc in Hnd', Hcov. simpl in Hnd', Hcov.
      exists (ex :: new). rewrite Heq. split.
      { rewrite <- app_assoc. simpl. f_equal. lia. }
      split; [by apply sublist_skip |]. split; [done |].
      intros ex' Hex'. apply elem_of_cons in Hex' as [-> | Hex']; [| by apply Hcov].
      apply elem_of_app. right. left.
Qed.

Lemma foldl_merge_one_known imported d added :
  (∀ ex, ex ∈ imported → Exercise.id ex ∈ d.*1) →
  foldl merge_one (d, added) imported = (d, added).
Proof.
  induction imported as [|ex imported IH]; intros Hknown; [done |].
  cbn [foldl]. unfold merge_one at 2.
  rewrite decide_True by (apply Hknown; left).
  apply IH. intros ex' Hex'. apply Hknown. by right.
Qed.
Lemma dict_values_ids (d : list (string * Exercise.t)) :
  Forall (λ kv, kv.1 = Exercise.id kv.2) d → Exercise.id <$> d.*2 = d.*1.
Proof.
  intros Hkeyed. rewrite <- list_fmap_compose. apply Forall_fmap_ext_1.
  eapply Forall_impl; [exact Hkeyed |]. by intros [k v].
Qed.

(** The merge returns the values of a dict with one entry per id, each
    exercise under its own id, that knows every imported id. *)
Lemma merge_catalog_dict base imported :
  ∃ d added,
    merge_catalog base imported = (d.*2, added)
    ∧ NoDup d.*1
    ∧ Forall (λ kv, kv.1 = Exercise.id kv.2) d
    ∧ ∀ ex, ex ∈ imported → Exercise.id ex ∈ d.*1.
Proof.
  destruct (foldl_index_by_id_wf base []) as [Hnd Hkeyed]; [apply NoDup_nil_2 | done |].
  cbv zeta in Hnd, Hkeyed. fold (index_by_id base) in Hnd, Hkeyed.
  destruct (foldl_merge_one imported (index_by_id base) 0 Hnd)
    as (new & Heq & _ & Hnd' & Hcov).
  exists (index_by_id base ++ ((λ ex, (Exercise.id ex, ex)) <$> new)),
         (0 + Z.of_nat (length new)).
  assert (Hkeys : (index_by_id base ++ ((λ ex, (Exercise.id ex, ex)) <$> new)).*1
                  = (index_by_id base).*1 ++ (Exercise.id <$> new)).
  { rewrite fmap_app. by rewrite <- list_fmap_compose. }
  split; [unfold merge_catalog; by rewrite Heq |].
  rewrite Hkeys. split; [done |]. split; [| done].
  apply Forall_app. split; [done |]. apply Forall_fmap. by apply Forall_true.
Qed.

Lemma merge_catalog_again (d : list (string * Exercise.t)) imported :
  NoDup d.*1 → Forall (λ kv, kv.1 = Exercise.id kv.2) d →
  (∀ ex, ex ∈ imported → Exercise.id ex ∈ d.*1) →
  merge_catalog d.*2 imported = (d.*2, 0).
Proof.
  intros Hnd Hkeyed Hcov. unfold merge_catalog.
  rewrite index_by_id_values by done. by rewrite foldl_merge_one_known.
Qed.
End MergeFacts.

(** X16: merged into a catalog whose ids are distinct, an import leaves the
    catalog as it is and appends new exercises only: the result is the
    catalog followed by some of the imported exercises in their order, its
    ids are distinct again, every imported id is in it, and the count
    reported is the number of exercises appended. *)
Theorem merge_catalog_appends_new base imported :
  NoDup (Exercise.id <$> base) →
  ∃ new,
    merge_catalog base imported = (base ++ new, Z.of_nat (length new))
    ∧ new `sublist_of` imported
    ∧ NoDup (Exercise.id <$> base ++ new)
    ∧ ∀ ex, ex ∈ imported → Exercise.id ex ∈ Exercise.id <$> base ++ new.
Proof.
  intros Hnd.
  assert (Hindex : index_by_id base = (λ ex, (Exercise.id ex, ex)) <$> base).
  { unfold index_by_id. by rewrite foldl_index_by_id_fresh. }
  assert (Hkeys : ∀ l : list Exercise.t,
            ((λ ex, (Exercise.id ex, ex)) <$> l).*1 = Exercise.id <$> l).
  { intros l. by rewrite <- list_fmap_compose. }
  assert (Hvalues : ∀ l : list Exercise.t, ((λ ex, (Exercise.id ex, ex)) <$> l).*2 = l).
  { intros l. rewrite <- list_fmap_compose. apply list_fmap_id. }
  destruct (foldl_merge_one imported (index_by_id base) 0) as (new & Heq & Hsub & Hnd' & Hcov).
  { by rewrite Hindex, Hkeys. }
  exists new. unfold merge_catalog. rewrite Heq.
  rewrite Hindex, Hkeys in Hnd', Hcov. rewrite Hindex.
  rewrite fmap_app, !Hvalues, fmap_app. by rewrite Z.add_0_l.
Qed.

(** X16, an instance: one exercise of the catalog, imported again beside a
    new one. *)
Lemma merge_catalog_appends_new_witness :
  ∃ new, merge_catalog [barbell_squat] [barbell_squat; jump_squat]
         = ([barbell_squat] ++ new, Z.of_nat (length new)).
Proof.
  destruct (merge_catalog_appends_new [barbell_squat] [barbell_squat; jump_squat])
    as (new & Heq & _).
  - apply NoDup_singleton.
  - by exists new.
Defined.

(** X17: the import is idempotent: a run that succeeds leaves a catalog with
    distinct ids, and a second run over the files it left succeeds too,
    adds nothing, leaves the files as they are and reports the same
    total. *)
Theorem import_exercises_idempotent `{PyLib} `{PyText} files files' added total :
  import_exercises_from_free_db files = inr (files', (added, total)) →
  NoDup (Exercise.id <$> default [] (exercises_file files'))
  ∧ import_exercises_from_free_db files' = inr (files', (0, total)).
Proof.
  destruct files as [[[data|]|] base]; unfold import_exercises_from_free_db;
    cbn [free_ex_db_file exercises_file]; [| done | done].
  destruct (merge_catalog_dict (default [] base) (_import_from_free_ex_db data))
    as (d & a & Heq & Hnd & Hkeyed & Hcov).
  cbv zeta. rewrite Heq. intros [= <- <- <-].
  cbn [free_ex_db_file exercises_file].
  change (default [] (Some d.*2)) with d.*2.
  split; [by rewrite dict_values_ids |].
  by rewrite merge_catalog_again.
Qed.

(** X17, an instance: the sample dataset imported twice into an absent
    catalog. *)
Lemma import_exercises_idempotent_witness :
  ∃ files' total,
    @import_exercises_from_free_db reference_lib reference_text
      {| free_ex_db_file := Some (Some sample_dataset); exercises_file := None |}
    = inr (files', (3, total))
    ∧ @import_exercises_from_free_db reference_lib reference_text files'
      = inr (files', (0, total)).
Proof.
  eexists _, _. split; [reflexivity |].
  refine (proj2 (@import_exercises_idempotent reference_lib reference_text
                   {| free_ex_db_file := Some (Some sample_dataset); exercises_file := None |}
                   _ 3 _ _)).
  reflexivity.
Defined.

(** ** The views over a generated plan *)

Lemma fmap_filter_comm {A B} (f : A → B) (P : B → Prop) `{∀ y, Decision (P y)}
    (l : list A) :
  f <$> filter (λ x, P (f x)) l = filter P (f <$> l).
Proof.
  induction l as [|x l IH]; [done |]. rewrite fmap_cons.
  destruct (decide (P (f x))) as [Hp | Hp].
  - rewrite !filter_cons_True by done. by rewrite fmap_cons, IH.
  - by rewrite !filter_cons_False by done.
Qed.

Lemma fmap_constant {A B} (f : A → B) (c : B) (l : list A) :
  (∀ x, x ∈ l → f x = c) → f <$> l = replicate (length l) c.
Proof.
  induction l as [|x l IH]; intros Hc; [done |]. simpl.
  rewrite Hc by left. f_equal. apply IH. intros y Hy. apply Hc. by right.
Qed.

(** The one entry with a given image, in a list whose images are distinct. *)
Lemma filter_image_NoDup {A B} `{EqDecision B} (f : A → B) (l : list A) (x : A) :
  NoDup (f <$> l) → x ∈ l → filter (λ y, f y = f x) l = [x].
Proof.
  induction l as [|a l IH]; intros Hnd Hin; [by apply elem_of_nil in Hin |].
  rewrite fmap_cons in Hnd. apply NoDup_cons in Hnd as [Ha Hnd].
  assert (Hnone : ∀ z, z ∈ l → f z ≠ f a).
  { intros z Hz Heq. apply Ha. rewrite <- Heq. by apply list_elem_of_fmap_2. }
  apply elem_of_cons in Hin as [-> | Hin].
  - rewrite filter_cons_True by done. f_equal.
    destruct (filter (λ y, f y = f a) l) as [|z t] eqn:E; [done |].
    exfalso. assert (Hz : z ∈ filter (λ y, f y = f a) l) by (rewrite E; left).
    apply list_elem_of_filter in Hz as [Hf Hz]. by apply (Hnone z).
  - rewrite filter_cons_False; [by apply IH |].
    intros Heq. by apply (Hnone x).
Qed.

(** The slots of week [w] among the slots of a plan. *)
Lemma filter_week_days (w w' : Z) (days : list Z) :
  filter (λ p : Z * Z, p.1 = w) ((λ d, (w', d)) <$> days)
  = if decide (w' = w) then (λ d, (w', d)) <$> days else [].
Proof.
  induction days as [|d days IH]; [by destruct (decide _) |].
  rewrite fmap_cons. destruct (decide (w' = w)) as [Heq | Hne].
  - rewrite filter_cons_True by done. by rewrite IH.
  - by rewrite filter_cons_False by done.
Qed.

Lemma filter_week_slots (w : Z) (weeks days : list Z) :
  NoDup weeks → w ∈ weeks →
  filter (λ p : Z * Z, p.1 = w) (w' ← weeks; (λ d, (w', d)) <$> days)
  = (λ d, (w, d)) <$> days.
Proof.
  assert (Hnone : ∀ ws : list Z, w ∉ ws →
            filter (λ p : Z * Z, p.1 = w) (w' ← ws; (λ d, (w', d)) <$> days) = []).
  { induction ws as [|w' ws IH]; intros Hout; [done |].
    apply not_elem_of_cons in Hout as [Hne Hout].
    rewrite bind_cons, filter_app, filter_week_days, IH by done.
    by rewrite decide_False by done. }
  induction weeks as [|w' weeks IH]; intros Hnd Hin; [by apply elem_of_nil in Hin |].
  apply NoDup_cons in Hnd as [Hw' Hnd].
  rewrite bind_cons, filter_app, filter_week_days.
  destruct (decide (w' = w)) as [-> | Hne].
  - rewrite Hnone by done. by rewrite app_nil_r.
  - apply elem_of_cons in Hin as [-> | Hin]; [done |]. by rewrite IH.
Qed.

(** The sessions of one week of a generated plan stand on the days
    [1..sessions_per_week], in that order. *)
Lemma generate_training_plan_week `{PyLib} `{PySets} conds profile exercises w :
  1 ≤ w ≤ recommend_total_weeks profile →
  session_index
    <$> filter (λ s, TrainingSession.week_index s = w)
          (TrainingPlan.sessions (generate_training_plan conds profile exercises))
  = (λ d, (w, d)) <$> seqZ 1 (recommend_sessions_per_week conds profile).
Proof.
  intros Hw.
  pose proof (generate_training_plan_sessions conds profile exercises) as Hplan.
  cbv zeta in Hplan. destruct Hplan as (Hper & Hweeks & Hslots & _).
  rewrite Hper, Hweeks in Hslots.
  etrans; [exact (fmap_filter_comm session_index (λ p : Z * Z, p.1 = w) _) |].
  rewrite Hslots. unfold plan_slots. apply filter_week_slots; [apply NoDup_seqZ |].
  apply elem_of_seqZ. lia.
Qed.

(** The weeks and the bars of the chart of a generated plan. *)
Lemma draw_chart_generated `{PyLib} `{PySets} conds profile exercises :
  _draw_chart (Some (generate_training_plan conds profile exercises))
  = Some (seqZ 1 (recommend_total_weeks profile),
          replicate (Z.to_nat (recommend_total_weeks profile))
                    (recommend_sessions_per_week conds profile)).
Proof.
  pose proof (generate_training_plan_sessions conds profile exercises) as Hplan.
  cbv zeta in Hplan. destruct Hplan as (_ & Hweeks & _).
  pose proof (recommend_total_weeks_pos profile) as Hpos.
  pose proof (recommend_sessions_per_week_pos conds profile) as Hper.
  unfold _draw_chart. cbv zeta. rewrite Hweeks.
  destruct (decide (seqZ 1 (recommend_total_weeks profile) = [])) as [Hnil | _].
  { apply (f_equal length) in Hnil. rewrite length_seqZ in Hnil. simpl in Hnil. lia. }
  do 2 f_equal. rewrite <- (length_seqZ 1 (recommend_total_weeks profile)).
  apply fmap_constant. intros w Hin. apply elem_of_seqZ in Hin.
  rewrite <- (length_fmap session_index), generate_training_plan_week by lia.
  rewrite length_fmap, length_seqZ. lia.
Qed.

(** X18: the chart of a generated plan is never cleared and shows, for each
    week [1..total_weeks], a bar as high as the recommended number of
    sessions a week. *)
Theorem draw_chart_of_generated_plan `{PyLib} `{PySets} conds profile exercises :
  _draw_chart (Some (generate_training_plan conds profile exercises))
  = Some (seqZ 1 (recommend_total_weeks profile),
          replicate (Z.to_nat (recommend_total_weeks profile))
                    (recommend_sessions_per_week conds profile)).
Proof. apply draw_chart_generated. Qed.

(** [sort] leaves a list alone whose keys are consecutive integers. *)
Lemma sort_by_key_consecutive {A} (key : A → Z) (l : list A) m n :
  key <$> l = seqZ m n → sort_by_key Z.leb key l = l.
Proof.
  revert m n. induction l as [|x l IH]; intros m n Hkeys; [done |].
  assert (Hn : 0 < n).
  { destruct (decide (0 < n)) as [|Hn]; [done |].
    apply (f_equal length) in Hkeys. rewrite length_seqZ in Hkeys. simpl in Hkeys. lia. }
  rewrite seqZ_cons in Hkeys by done. rewrite fmap_cons in Hkeys.
  injection Hkeys as Hx Hl.
  change (sort_by_key Z.leb key (x :: l))
    with (insert_sorted Z.leb key x (sort_by_key Z.leb key l)).
  rewrite (IH _ _ Hl). destruct l as [|y l]; [done |].
  assert (Hn' : 0 < Z.pred n).
  { destruct (decide (0 < Z.pred n)) as [|Hn']; [done |].
    apply (f_equal length) in Hl. rewrite length_seqZ in Hl. simpl in Hl. lia. }
  rewrite seqZ_cons in Hl by done. rewrite fmap_cons in Hl. injection Hl as Hy _.
  simpl. rewrite Hx, Hy. by rewrite (proj2 (Z.leb_le m (Z.succ m))) by lia.
Qed.

(** X19: for a week of a generated plan, the table lists the days
    [1..sessions_per_week] in order, one row each, with the day's label and
    the title of that day. *)
Theorem populate_table_of_generated_plan `{PyLib} `{PySets}
    conds profile exercises index w :
  1 ≤ w ≤ recommend_total_weeks profile →
  (λ row : string * string * string, row.1)
    <$> _populate_table_for_week index
          (Some (generate_training_plan conds profile exercises)) w
  = (λ d, (("День " ++ py_str_int d)%string, _build_session_title profile d))
      <$> seqZ 1 (recommend_sessions_per_week conds profile).
Proof.
  intros Hw. unfold _populate_table_for_week. cbv zeta.
  pose proof (generate_training_plan_week conds profile exercises w Hw) as Hweek.
  pose proof (generate_training_plan_sessions_exact conds profile exercises) as Hexact.
  cbv zeta in Hexact.
  set (shown := filter (λ s, TrainingSession.week_index s = w)
                  (TrainingPlan.sessions (generate_training_plan conds profile exercises)))
    in *.
  assert (Hdays : TrainingSession.day_index <$> shown
                  = seqZ 1 (recommend_sessions_per_week conds profile)).
  { transitivity (snd <$> (session_index <$> shown)).
    - by rewrite <- list_fmap_compose.
    - rewrite Hweek, <- list_fmap_compose. apply list_fmap_id. }
  rewrite (sort_by_key_consecutive _ _ _ _ Hdays).
  rewrite <- list_fmap_compose, <- Hdays, <- list_fmap_compose.
  apply Forall_fmap_ext_1. apply Forall_forall. intros s Hs. simpl.
  f_equal. apply list_elem_of_filter in Hs as [_ Hs].
  destruct (proj1 (Forall_forall _ _) Hexact s Hs) as (used & emitted & _ & Heq).
  by rewrite Heq at 1.
Qed.

(** X19, an instance: the first week of the plan of the strength profile. *)
Lemma populate_table_of_generated_plan_witness :
  (λ row : string * string * string, row.1)
    <$> @_populate_table_for_week reference_lib ∅
          (Some (@generate_training_plan reference_lib reference_sets ∅
                   gym_profile strength_catalog)) 1
  = (λ d, (("День " ++ py_str_int d)%string, _build_session_title gym_profile d))
      <$> seqZ 1 (@recommend_sessions_per_week reference_sets ∅ gym_profile).
Proof.
  apply (@populate_table_of_generated_plan reference_lib reference_sets ∅
           gym_profile strength_catalog ∅ 1).
  by vm_compute.
Defined.

(** *** The text of a session *)

Lemma prescription_comment load ex :
  py_contains "Разминка" (PlannedExercise.comment (prescription load ex)) = false
  ∧ py_contains "Заминка" (PlannedExercise.comment (prescription load ex)) = false
  ∧ py_contains "растяжка" (PlannedExercise.comment (prescription load ex)) = false.
Proof.
  destruct load as [[main_sets main_reps] cardio_duration]. unfold prescription.
  destruct (decide _); [by vm_compute |]. destruct (decide _); by vm_compute.
Qed.

(** Exercises whose comments name neither the warm-up nor the cool-down all
    land in the main block, in order. *)
Lemma foldl_add_line_main `{PyLib} index planned warmup main cooldown :
  Forall (λ pe, py_contains "Разминка" (PlannedExercise.comment pe) = false
                ∧ py_contains "Заминка" (PlannedExercise.comment pe) = false
                ∧ py_contains "растяжка" (PlannedExercise.comment pe) = false)
         planned →
  foldl (add_line index) (warmup, main, cooldown) planned
  = (warmup, main ++ ((λ pe, ("• " ++ base_text index pe)%string) <$> planned), cooldown).
Proof.
  revert main. induction planned as [|pe planned IH]; intros main Hall.
  - by rewrite app_nil_r.
  - apply Forall_cons in Hall as [(Hw & Hc & Hs) Hall]. cbn [foldl].
    unfold add_line at 2. cbv zeta. rewrite Hw, Hc, Hs. cbn [orb].
    rewrite IH by done. by rewrite <- app_assoc.
Qed.

(** X20: the text the table shows for a session of a generated plan opens
    with the warm-up line and then lists, under the heading of the main
    part, one line for every planned exercise of the session, in order;
    nothing is put under a cool-down heading and no exercise is left
    out. *)
Theorem format_session_of_generated_plan `{PyLib} `{PySets}
    conds profile exercises index :
  Forall (λ s,
            _format_session_exercises index
              (Some (generate_training_plan conds profile exercises))
              (TrainingSession.week_index s) (TrainingSession.day_index s)
            = "Суставная разминка (5–10 минут)"
              :: (if decide (TrainingSession.exercises s = []) then []
                  else ""
                       :: "Основная часть:"
                       :: ((λ pe, ("  " ++ "• " ++ base_text index pe)%string)
                             <$> TrainingSession.exercises s)))
         (TrainingPlan.sessions (generate_training_plan conds profile exercises)).
Proof.
  apply Forall_forall. intros s Hs.
  pose proof (generate_training_plan_sessions conds profile exercises) as Hplan.
  cbv zeta in Hplan. destruct Hplan as (_ & _ & Hslots & _).
  pose proof (generate_training_plan_sessions_exact conds profile exercises) as Hexact.
  cbv zeta in Hexact.
  destruct (proj1 (Forall_forall _ _) Hexact s Hs) as (used & emitted & _ & Heq).
  unfold _format_session_exercises.
  rewrite (list_filter_iff _ (λ y, session_index y = session_index s)).
  2: { intros y. unfold session_index. split; [by intros [-> ->] | by intros [= -> ->]]. }
  rewrite filter_image_NoDup; [| rewrite Hslots; apply NoDup_plan_slots | done].
  rewrite (foldl_add_line_main index (TrainingSession.exercises s) [] [] []).
  2: { rewrite Heq. simpl. apply Forall_fmap, Forall_true. intros ex.
       apply prescription_comment. }
  cbv zeta. rewrite app_nil_l.
  destruct (TrainingSession.exercises s) as [|pe planned]; [done |].
  rewrite fmap_cons.
  destruct (decide (_ :: _ ≠ [])) as [_ | Hnil]; [| by exfalso; apply Hnil].
  destruct (decide (@nil string ≠ [])) as [Hnil | _]; [by exfalso; apply Hnil |].
  destruct (decide (pe :: planned = [])) as [Hnil | _]; [done |].
  simpl. do 4 f_equal. by rewrite <- list_fmap_compose.
Qed.

(** *** The index of the view *)

Lemma exercises_index_snoc exercises ex :
  exercises_index (exercises ++ [ex])
  = <[Exercise.id ex := ex]> (exercises_index exercises).
Proof. unfold exercises_index. by rewrite foldl_app. Qed.

(** What the index holds comes from the catalog, under its own id. *)
Lemma exercises_index_lookup exercises k ex :
  exercises_index exercises !! k = Some ex → ex ∈ exercises ∧ Exercise.id ex = k.
Proof.
  induction exercises as [|a exercises IH] using rev_ind; [done |].
  rewrite exercises_index_snoc. destruct (decide (Exercise.id a = k)) as [<- | Hne].
  - rewrite lookup_insert_eq. intros [= <-]. split; [| done].
    apply elem_of_app. right. left.
  - rewrite lookup_insert_ne by done. intros Hlook.
    destruct (IH Hlook) as [Hin Hid]. split; [| done]. apply elem_of_app. by left.
Qed.

(** Every id of the catalog is in the index. *)
Lemma exercises_index_known exercises k :
  k ∈ Exercise.id <$> exercises → is_Some (exercises_index exercises !! k).
Proof.
  induction exercises as [|a exercises IH] using rev_ind.
  - intros Hk. by apply elem_of_nil in Hk.
  - rewrite exercises_index_snoc, fmap_app. intros Hk.
    destruct (decide (Exercise.id a = k)) as [<- | Hne].
    + rewrite lookup_insert_eq. by eexists.
    + rewrite lookup_insert_ne by done. apply IH.
      apply elem_of_app in Hk as [Hk | Hk]; [done |].
      apply list_elem_of_singleton in Hk. congruence.
Qed.

(** With distinct ids the index finds each exercise of the catalog. *)
Lemma exercises_index_NoDup exercises ex :
  NoDup (Exercise.id <$> exercises) → ex ∈ exercises →
  exercises_index exercises !! Exercise.id ex = Some ex.
Proof.
  intros Hnd Hin.
  destruct (exercises_index_known exercises (Exercise.id ex)) as [ex' Hlook];
    [by apply list_elem_of_fmap_2 |].
  destruct (exercises_index_lookup _ _ _ Hlook) as [Hin' Hid].
  rewrite Hlook. f_equal.
  apply list_elem_of_lookup_1 in Hin as [i Hi], Hin' as [j Hj].
  assert (i = j) as ->.
  { eapply NoDup_lookup; [exact Hnd | |].
    - by rewrite list_lookup_fmap, Hi.
    - by rewrite list_lookup_fmap, Hj, <- Hid. }
  congruence.
Qed.

Lemma prescription_exercise_id load ex :
  PlannedExercise.exercise_id (prescription load ex) = Exercise.id ex.
Proof.
  destruct load as [[main_sets main_reps] cardio_duration]. unfold prescription.
  by repeat destruct (decide _).
Qed.

(** X21: for every planned exercise of a generated plan, the index the
    view builds over the same catalog finds an exercise of the catalog
    with the planned id, so that the view never falls back to the name of
    an unknown exercise; when the ids of the catalog are distinct, the
    exercise found is one of the eligible pool. *)
Theorem view_index_resolves_planned_exercises `{PyLib} `{PySets}
    conds profile exercises :
  Forall (λ s,
    Forall (λ pe,
      ∃ ex, exercises_index exercises !! PlannedExercise.exercise_id pe = Some ex
            ∧ ex ∈ exercises
            ∧ Exercise.id ex = PlannedExercise.exercise_id pe
            ∧ (NoDup (Exercise.id <$> exercises) →
               ex ∈ _select_allowed_exercises conds profile exercises))
      (TrainingSession.exercises s))
    (TrainingPlan.sessions (generate_training_plan conds profile exercises)).
Proof.
  eapply Forall_impl; [apply generate_training_plan_sessions_exact |].
  intros s (used & emitted & Hsub & Hs). apply Forall_forall. intros pe Hin.
  rewrite Hs in Hin. simpl in Hin.
  apply list_elem_of_fmap in Hin as (ex0 & -> & Hex0).
  assert (Hallowed : ex0 ∈ _select_allowed_exercises conds profile exercises).
  { eapply elem_of_main_block. by eapply elem_of_sublist. }
  assert (Hcatalog : ex0 ∈ exercises).
  { unfold _select_allowed_exercises in Hallowed.
    by apply list_elem_of_filter in Hallowed as [_ Hin]. }
  rewrite prescription_exercise_id.
  destruct (exercises_index_known exercises (Exercise.id ex0)) as [ex Hlook];
    [by apply list_elem_of_fmap_2 |].
  destruct (exercises_index_lookup _ _ _ Hlook) as [Hin Hid].
  exists ex. split; [done |]. split; [done |]. split; [done |].
  intros Hnd. rewrite (exercises_index_NoDup _ _ Hnd Hcatalog) in Hlook.
  by injection Hlook as <-.
Qed.

(** ** The plan on disk *)

Lemma mapM_round_trip {A B} (f : B → PyError + A) (g : A → B) (l : list A) :
  (∀ x, f (g x) = inr x) → mapM f (g <$> l) = inr l.
Proof.
  intros Hfg. induction l as [|x l IH]; [done |].
  rewrite fmap_cons. cbn [mapM]. by rewrite Hfg, IH.
Qed.

Lemma PlannedExercise_round_trip pe :
  PlannedExercise_from_dict (PlannedExercise_to_dict pe) = inr pe.
Proof. destruct pe as [exercise_id sets [reps|] [duration|] comment]; reflexivity. Qed.

Lemma TrainingSession_round_trip s :
  TrainingSession_from_dict (TrainingSession_to_dict s) = inr s.
Proof.
  destruct s as [week_index day_index title exercises].
  change (TrainingSession_from_dict
            (TrainingSession_to_dict (TrainingSession.mk week_index day_index title exercises)))
    with (planned ← mapM PlannedExercise_from_dict (PlannedExercise_to_dict <$> exercises);
          inr (TrainingSession.mk week_index day_index title planned)).
  by rewrite (mapM_round_trip _ _ _ PlannedExercise_round_trip).
Qed.

Lemma TrainingPlan_round_trip plan :
  TrainingPlan_from_dict (TrainingPlan_to_dict plan) = inr plan.
Proof.
  destruct plan as [goal sessions_per_week total_weeks sessions].
  change (TrainingPlan_from_dict
            (TrainingPlan_to_dict (TrainingPlan.mk goal sessions_per_week total_weeks sessions)))
    with (read ← mapM TrainingSession_from_dict (TrainingSession_to_dict <$> sessions);
          inr (TrainingPlan.mk goal sessions_per_week total_weeks read)).
  by rewrite (mapM_round_trip _ _ _ TrainingSession_round_trip).
Qed.

(** X22: a plan survives the trip through its JSON document: [from_dict]
    reads back from [to_dict] the plan it was given, sessions and planned
    exercises included, and [load_training_plan] returns the plan that
    [save_training_plan] wrote, whatever the file held before. *)
Theorem training_plan_round_trip plan training_plan_file :
  TrainingPlan_from_dict (TrainingPlan_to_dict plan) = inr plan
  ∧ load_training_plan (save_training_plan plan training_plan_file) = inr (Some plan).
Proof.
  split; [apply TrainingPlan_round_trip |].
  unfold load_training_plan, save_training_plan. by rewrite TrainingPlan_round_trip.
Qed.

(** X23: once a generated plan is saved, refreshing the chart tab reads it
    back and shows one bar for each week [1..total_weeks], each as high as
    the recommended number of sessions a week. *)
Theorem refresh_from_plan_after_generation `{PyLib} `{PySets}
    conds profile exercises training_plan_file :
  refresh_from_plan
    (save_training_plan (generate_training_plan conds profile exercises) training_plan_file)
  = inr (Some (seqZ 1 (recommend_total_weeks profile),
               replicate (Z.to_nat (recommend_total_weeks profile))
                         (recommend_sessions_per_week conds profile))).
Proof.
  unfold refresh_from_plan, load_training_plan, save_training_plan.
  rewrite TrainingPlan_round_trip. cbn [mbind PyError_bind mret PyError_ret].
  by rewrite draw_chart_generated.
Qed.

Lemma str_list_round_trip l : as_str_list (str_list_to_json l) = inr l.
Proof. unfold as_str_list, str_list_to_json. by apply mapM_round_trip. Qed.

Lemma Exercise_round_trip ex : Exercise_from_dict (Exercise_to_dict ex) = inr ex.
Proof.
  destruct ex as [id name muscle_groups equipment difficulty exercise_type
                  locations contraindications description].
  change (Exercise_from_dict
            (Exercise_to_dict
               (Exercise.mk id name muscle_groups equipment difficulty exercise_type
                  locations contraindications description)))
    with (muscle_groups' ← as_str_list (str_list_to_json muscle_groups);
          equipment' ← as_str_list (str_list_to_json equipment);
          locations' ← as_str_list (str_list_to_json locations);
          contraindications' ← as_str_list (str_list_to_json contraindications);
          inr (Exercise.mk id name muscle_groups' equipment' difficulty exercise_type
                 locations' contraindications' description)).
  by rewrite !str_list_round_trip.
Qed.

(** X24: a catalog survives the trip through its JSON document: reading
    with [Exercise.from_dict] the entries that [Exercise.to_dict] wrote
    gives back every exercise, field by field, in the same order. *)
Theorem exercise_catalog_round_trip catalog :
  mapM Exercise_from_dict (Exercise_to_dict <$> catalog) = inr catalog.
Proof. apply mapM_round_trip, Exercise_round_trip. Qed.
